(** * Quota accounting of the Marzban administration bot

    A shallow embedding of the quota, listing, notification and panel-gateway
    code of the bot (user_manager.py, reseller_manager_Version3.py,
    admin_limits.py and the MarzbanAPI class of bot_Version5.py), with the
    properties its specification states about it.

    Conventions of the embedding.
    - Python integers are unbounded: they are [Z].
    - A SQLite table is the list of its rows in rowid order; a row is a
      record with the columns of the CREATE TABLE statement.  The integer
      columns hold integers (the code never writes NULL into them).
    - A sqlite3 connection holds the committed database, the working copy
      the statements of the connection act on, and the number of commits
      made on it; [commit] copies the working copy, closing without commit
      drops it.
    - A naive [datetime] is the number of microseconds since
      0001-01-01T00:00:00; a TEXT column the code only ever fills with
      [isoformat()] and reads back with [fromisoformat()] holds the datetime
      itself, [None] standing for NULL (text the code wrote always parses).
    - The [sent_at] column of [notifications] is compared as text inside
      SQL, so it is kept as the string the code stored.
    - The integers stay inside SQLite's 64-bit range, where its arithmetic
      and comparisons agree with those of [Z].
    - Localised message texts are an enumeration of message tags. *)

From stdpp Require Import gmap strings list.
From Stdlib Require Import ZArith String Ascii.

Local Open Scope Z_scope.

(** ** Python runtime pieces the managers rely on *)

Module Py.

(** Exceptions the modelled code can raise; each manager method catches
    [Exception] and turns it into a failure result. *)
Inductive exn :=
| TypeError
| ValueError
| OverflowError
| ZeroDivisionError
| IntegrityError
| SendError.

Definition datetime := Z.

Definition MICROS_PER_DAY : Z := 86400 * 1000000.

(** [datetime.min] is 0001-01-01T00:00:00 (ordinal day 1) and
    [datetime.max] is 9999-12-31T23:59:59.999999 (ordinal day 3652059). *)
Definition MAX_ORDINAL : Z := 3652059.
Definition datetime_in_range (d : Z) : bool :=
  (0 <=? d) && (d <? MAX_ORDINAL * MICROS_PER_DAY).

(** [timedelta(days=n)]: the magnitude of a timedelta is limited to
    999999999 days; the value is the span in microseconds. *)
Definition timedelta_days (n : Z) : exn + Z :=
  if (Z.abs n <=? 999999999) then inr (n * MICROS_PER_DAY)
  else inl OverflowError.

(** [d + td] on a datetime: OverflowError outside the supported years. *)
Definition datetime_add (d : datetime) (td : Z) : exn + datetime :=
  if datetime_in_range (d + td) then inr (d + td) else inl OverflowError.

(** [(a - b).days]: timedelta normalises to a floor number of days. *)
Definition days_between (a b : datetime) : Z := (a - b) `div` MICROS_PER_DAY.

(** Floating point is not modelled bit by bit: the display fields are
    computed through an interface with the three operations the code
    applies ([int / int], [float * int], [round(float, 2)]). *)
Class Float := {
  float : Type;
  fdiv : Z -> Z -> float;
  fmul : float -> Z -> float;
  round2 : float -> float }.

(** [a / b] on integers raises ZeroDivisionError for a zero divisor. *)
Definition truediv `{Float} (a b : Z) : exn + float :=
  if b =? 0 then inl ZeroDivisionError else inr (fdiv a b).

(** [a // b] on integers: floor division, ZeroDivisionError for zero. *)
Definition floordiv (a b : Z) : exn + Z :=
  if b =? 0 then inl ZeroDivisionError else inr (a `div` b).

(** A number as Python has it after [x if c else 0]: an int or a float. *)
Inductive num `{Float} :=
| Int (z : Z)
| Flt (f : float).

End Py.

Import Py.

(** Sequencing of computations that may raise. *)
Definition bind_exn {E A B : Type} (m : E + A) (k : A -> E + B) : E + B :=
  match m with
  | inl e => inl e
  | inr a => k a
  end.

Notation "x <-! m ; k" := (bind_exn m (fun x => k))
  (at level 100, m at next level, right associativity).

Definition GiB : Z := 1024 ^ 3.

(** ** The SQLite schema ([setup_database]) *)

Record reseller := {
  reseller_id : Z;
  telegram_id : Z;
  username : string;
  marzban_username : string;
  bandwidth_limit : Z;
  bandwidth_used : Z;
  expiry_date : option datetime;
  max_users : Z;
  current_users : Z;
  created_at : datetime }.

Record end_user := {
  user_id : Z;
  eu_reseller_id : Z;
  eu_username : string;
  eu_marzban_username : string;
  eu_bandwidth_limit : Z;
  eu_bandwidth_used : Z;
  eu_expiry_date : option datetime;
  eu_connection_limit : Z;
  eu_created_at : datetime }.

Record notification := {
  notification_id : Z;
  n_user_id : Z;
  notification_type : string;
  sent_at : string }.

Record usage_log_row := {
  log_id : Z;
  admin_username : string;
  bandwidth_added : Z;
  users_added : Z;
  timestamp : string }.

(** The [limits] column of [marzban_admins] is JSON text; a JSON value is
    kept as far as the limit checks look at it. *)
Inductive jval :=
| JNull
| JInt (z : Z)
| JStr (s : string).

Record marzban_admin := {
  admin_id : Z;
  a_telegram_id : Z;
  a_username : string;
  a_marzban_username : string;
  permissions : string;
  limits : option (gmap string jval);
  a_created_at : datetime }.

Record DB := {
  marzban_admins : list marzban_admin;
  resellers : list reseller;
  end_users : list end_user;
  notifications : list notification;
  usage_log : list usage_log_row }.

Definition set_resellers (rs : list reseller) (db : DB) : DB :=
  {| marzban_admins := marzban_admins db;
     resellers := rs;
     end_users := end_users db;
     notifications := notifications db;
     usage_log := usage_log db |}.

Definition set_end_users (us : list end_user) (db : DB) : DB :=
  {| marzban_admins := marzban_admins db;
     resellers := resellers db;
     end_users := us;
     notifications := notifications db;
     usage_log := usage_log db |}.

Definition set_notifications (ns : list notification) (db : DB) : DB :=
  {| marzban_admins := marzban_admins db;
     resellers := resellers db;
     end_users := end_users db;
     notifications := ns;
     usage_log := usage_log db |}.

(** ** sqlite3 connections *)

(** [commits] counts the calls of [commit()] on the connection, so that
    what one transaction holds can be stated. *)
Record connection := { committed : DB; working : DB; commits : nat }.

Definition connect (db : DB) : connection :=
  {| committed := db; working := db; commits := 0 |}.
Definition commit (c : connection) : connection :=
  {| committed := working c; working := working c; commits := S (commits c) |}.
Definition close (c : connection) : DB := committed c.
Definition execute (f : DB -> DB) (c : connection) : connection :=
  {| committed := committed c; working := f (working c); commits := commits c |}.

(** INTEGER PRIMARY KEY: a new row gets one more than the largest rowid in
    use, and 1 in an empty table. *)
Definition next_rowid (ids : list Z) : Z :=
  match ids with
  | [] => 1
  | i :: rest => foldr Z.max i rest + 1
  end.

(** [cursor.fetchone()] on [SELECT ... WHERE p]: the first matching row. *)
Definition fetchone {A} (p : A -> bool) (rows : list A) : option A :=
  List.find p rows.

(** ** The panel interface the managers call ([self.marzban_api]) *)

Inductive api_error :=
| AuthFailed
| HttpStatus (status_code : Z) (text : string)
| Transport (e : string).

Record panel_user_data := {
  data_limit : Z;
  expire : datetime;
  connection_limit : option Z }.

(** The JSON object the panel answers with, as far as the managers read it:
    [result.get('subscription_url', '')], [user_data.get('used_traffic', _)]. *)
Record panel_user := {
  subscription_url : option string;
  used_traffic : option Z }.

Record PanelAPI (W : Type) := {
  api_create_user : string -> panel_user_data -> W -> (api_error + panel_user) * W;
  api_get_user_info : string -> W -> (api_error + panel_user) * W;
  api_update_user : string -> panel_user_data -> W -> (api_error + panel_user) * W }.
Arguments api_create_user {W} _ _ _ _.
Arguments api_get_user_info {W} _ _ _.
Arguments api_update_user {W} _ _ _ _.

(** Results handed to the presentation layer: [(True, payload)] or
    [(False, message)]. *)
Inductive message :=
| NotAReseller
| UserLimitReached
| NotEnoughBandwidth
| PanelCreateFailed (e : api_error)
| PanelUpdateFailed (e : api_error)
| NoIdentifierGiven
| ResellerNotFound
| UserNotFound
| Raised (e : exn).

Inductive outcome (A : Type) :=
| Success (payload : A)
| Failure (msg : message).
Arguments Success {A} payload.
Arguments Failure {A} msg.

(** ** UserManager (user_manager.py) *)

(** What [create_user] reads from its environment: the eight hex digits of
    [uuid.uuid4()] and the two readings of [datetime.now()]. *)
Record create_user_env := {
  uuid_hex8 : string;
  now_expiry : datetime;
  now_created : datetime }.

Record created_user := {
  cu_user_id : Z;
  cu_username : string;
  cu_marzban_username : string;
  cu_bandwidth_gb : Z;
  cu_expiry_date : datetime;
  cu_connection_limit : Z;
  cu_subscription_url : string }.

(** [INSERT INTO end_users ...]: [marzban_username] is UNIQUE, so the insert
    raises IntegrityError when the name is taken. *)
Definition insert_end_user (row : Z -> end_user) (db : DB) : exn + (Z * DB) :=
  let id := next_rowid (user_id <$> end_users db) in
  let u := row id in
  if existsb (fun v => String.eqb (eu_marzban_username v) (eu_marzban_username u))
             (end_users db)
  then inl IntegrityError
  else inr (id, set_end_users (end_users db ++ [u]) db).

(** [UPDATE resellers SET current_users = current_users + 1,
    bandwidth_used = bandwidth_used + ? WHERE reseller_id = ?]. *)
Definition charge_reseller (rid bytes : Z) (db : DB) : DB :=
  set_resellers
    ((fun r => if reseller_id r =? rid
               then {| reseller_id := reseller_id r;
                       telegram_id := telegram_id r;
                       username := username r;
                       marzban_username := marzban_username r;
                       bandwidth_limit := bandwidth_limit r;
                       bandwidth_used := bandwidth_used r + bytes;
                       expiry_date := expiry_date r;
                       max_users := max_users r;
                       current_users := current_users r + 1;
                       created_at := created_at r |}
               else r) <$> resellers db)
    db.

Section UserManager_create.
Context {W : Type}.
Variable marzban_api : option (PanelAPI W).

(** The body of the [try] block of [create_user]; [inl e] is an exception
    that reaches the [except] clause. *)
Definition create_user_try (env : create_user_env)
    (reseller_telegram_id : Z) (uname : string)
    (bandwidth_gb days conn_limit : Z)
    (c : connection) (w : W)
  : (exn + outcome created_user) * connection * W :=
  match fetchone (fun r => telegram_id r =? reseller_telegram_id)
                 (resellers (working c)) with
  | None => (inr (Failure NotAReseller), c, w)
  | Some r =>
    if current_users r >=? max_users r
    then (inr (Failure UserLimitReached), c, w)
    else
      let user_bandwidth_bytes := bandwidth_gb * 1024 ^ 3 in
      if bandwidth_used r + user_bandwidth_bytes >? bandwidth_limit r
      then (inr (Failure NotEnoughBandwidth), c, w)
      else
        let user_marzban_username :=
          ("user_" ++ uname ++ "_" ++ uuid_hex8 env)%string in
        match (td <-! timedelta_days days; datetime_add (now_expiry env) td) with
        | inl e => (inl e, c, w)
        | inr expiry =>
          let '(remote, w1) :=
            match marzban_api with
            | Some api =>
              api_create_user api user_marzban_username
                {| data_limit := user_bandwidth_bytes;
                   expire := expiry;
                   connection_limit := Some conn_limit |} w
            | None => (inr {| subscription_url := Some ""%string;
                              used_traffic := None |}, w)
            end in
          match remote with
          | inl e => (inr (Failure (PanelCreateFailed e)), c, w1)
          | inr result =>
            let sub_url := default ""%string (subscription_url result) in
            match insert_end_user
                    (fun id => {| user_id := id;
                                  eu_reseller_id := reseller_id r;
                                  eu_username := uname;
                                  eu_marzban_username := user_marzban_username;
                                  eu_bandwidth_limit := user_bandwidth_bytes;
                                  eu_bandwidth_used := 0;
                                  eu_expiry_date := Some expiry;
                                  eu_connection_limit := conn_limit;
                                  eu_created_at := now_created env |})
                    (working c) with
            | inl e => (inl e, c, w1)
            | inr (new_id, db1) =>
              let c1 := execute (fun _ => db1) c in
              let c2 := execute (charge_reseller (reseller_id r) user_bandwidth_bytes) c1 in
              let c3 := commit c2 in
              (inr (Success {| cu_user_id := new_id;
                               cu_username := uname;
                               cu_marzban_username := user_marzban_username;
                               cu_bandwidth_gb := bandwidth_gb;
                               cu_expiry_date := expiry;
                               cu_connection_limit := conn_limit;
                               cu_subscription_url := sub_url |}), c3, w1)
            end
          end
        end
  end.

(** [create_user]: connect, run the body, turn an exception into a failure
    message, close the connection. *)
Definition create_user (env : create_user_env) (db : DB)
    (reseller_telegram_id : Z) (uname : string)
    (bandwidth_gb days conn_limit : Z) (w : W)
  : outcome created_user * DB * W :=
  let '(r, c, w') :=
    create_user_try env reseller_telegram_id uname bandwidth_gb days conn_limit
                    (connect db) w in
  (match r with inl e => Failure (Raised e) | inr o => o end, close c, w').

End UserManager_create.

(** Truthiness of optional arguments ([if user_id:], [elif marzban_username:]):
    [None], [0] and the empty string are false. *)
Definition truthy_int (o : option Z) : option Z :=
  match o with
  | Some z => if z =? 0 then None else Some z
  | None => None
  end.

Definition truthy_str (o : option string) : option string :=
  match o with
  | Some s => if String.eqb s "" then None else Some s
  | None => None
  end.

Section Reads.
Context `{Float}.
Context {W : Type}.
Variable marzban_api : option (PanelAPI W).

(** The ["bandwidth"] entry of the dictionaries [get_user_info] and
    [get_reseller_info] return. *)
Record bandwidth_info := {
  limit_bytes : Z;
  limit_gb : float;
  used_bytes : Z;
  used_gb : float;
  remaining_bytes : Z;
  remaining_gb : float;
  percent_used : num }.

(** [round((used / limit) * 100, 2) if limit > 0 else 0]. *)
Definition percent (used limit : Z) : exn + num :=
  if limit >? 0
  then q <-! truediv used limit; inr (Flt (round2 (fmul q 100)))
  else inr (Int 0).

Definition bandwidth_dict (limit used : Z) : exn + bandwidth_info :=
  lg <-! truediv limit (1024 ^ 3);
  ug <-! truediv used (1024 ^ 3);
  rg <-! truediv (Z.max 0 (limit - used)) (1024 ^ 3);
  pu <-! percent used limit;
  inr {| limit_bytes := limit;
         limit_gb := round2 lg;
         used_bytes := used;
         used_gb := round2 ug;
         remaining_bytes := Z.max 0 (limit - used);
         remaining_gb := round2 rg;
         percent_used := pu |}.

Record user_info := {
  ui_user_id : Z;
  ui_reseller_id : Z;
  ui_username : string;
  ui_marzban_username : string;
  ui_bandwidth : bandwidth_info;
  ui_expiry_date : datetime;
  ui_days_remaining : Z;
  ui_connection_limit : Z;
  ui_created_at : datetime }.

(** [UPDATE end_users SET bandwidth_used = ? WHERE user_id = ?]. *)
Definition store_user_usage (uid used : Z) (db : DB) : DB :=
  set_end_users
    ((fun u => if user_id u =? uid
               then {| user_id := user_id u;
                       eu_reseller_id := eu_reseller_id u;
                       eu_username := eu_username u;
                       eu_marzban_username := eu_marzban_username u;
                       eu_bandwidth_limit := eu_bandwidth_limit u;
                       eu_bandwidth_used := used;
                       eu_expiry_date := eu_expiry_date u;
                       eu_connection_limit := eu_connection_limit u;
                       eu_created_at := eu_created_at u |}
               else u) <$> end_users db)
    db.

(** [datetime.fromisoformat(expiry_date)] on a column value: the text of
    an [isoformat()] parses back to its datetime, and NULL, which reaches
    Python as [None], raises TypeError ("argument must be str"). *)
Definition parse_expiry (e : option datetime) : exn + datetime :=
  match e with
  | Some d => inr d
  | None => inl TypeError
  end.

(** The refresh step shared by the two info readers: ask the panel, and on
    success overwrite the stored usage and commit. *)
Definition refresh_usage (name : string) (stored : Z)
    (store : Z -> DB -> DB) (c : connection) (w : W) : Z * connection * W :=
  match marzban_api with
  | Some api =>
    if String.eqb name "" then (stored, c, w)
    else
      let '(r, w1) := api_get_user_info api name w in
      match r with
      | inr user_data =>
        let used := default stored (used_traffic user_data) in
        (used, commit (execute (store used) c), w1)
      | inl _ => (stored, c, w1)
      end
  | None => (stored, c, w)
  end.

Definition get_user_info_try (now : datetime)
    (uid : option Z) (mname : option string) (c : connection) (w : W)
  : (exn + outcome user_info) * connection * W :=
  let query :=
    match truthy_int uid with
    | Some i => Some (fun u => user_id u =? i)
    | None =>
      match truthy_str mname with
      | Some n => Some (fun u => String.eqb (eu_marzban_username u) n)
      | None => None
      end
    end in
  match query with
  | None => (inr (Failure NoIdentifierGiven), c, w)
  | Some p =>
    match fetchone p (end_users (working c)) with
    | None => (inr (Failure UserNotFound), c, w)
    | Some u =>
      let '(used, c1, w1) :=
        refresh_usage (eu_marzban_username u) (eu_bandwidth_used u)
                      (store_user_usage (user_id u)) c w in
      (expiry <-! parse_expiry (eu_expiry_date u);
       bw <-! bandwidth_dict (eu_bandwidth_limit u) used;
       inr (Success {| ui_user_id := user_id u;
                       ui_reseller_id := eu_reseller_id u;
                       ui_username := eu_username u;
                       ui_marzban_username := eu_marzban_username u;
                       ui_bandwidth := bw;
                       ui_expiry_date := expiry;
                       ui_days_remaining := days_between expiry now;
                       ui_connection_limit := eu_connection_limit u;
                       ui_created_at := eu_created_at u |}),
       c1, w1)
    end
  end.

Definition get_user_info (now : datetime) (db : DB)
    (uid : option Z) (mname : option string) (w : W)
  : outcome user_info * DB * W :=
  let '(r, c, w') := get_user_info_try now uid mname (connect db) w in
  (match r with inl e => Failure (Raised e) | inr o => o end, close c, w').

(** [LIMIT ? OFFSET ?]: a negative limit means no limit, a negative offset
    counts as zero. *)
Definition limit_offset {A} (lim off : Z) (rows : list A) : list A :=
  let rest := drop (Z.to_nat off) rows in
  if lim <? 0 then rest else take (Z.to_nat lim) rest.

(** Running a loop body that may raise over the rows of a result set; the
    body also gets the position of the row. *)
Fixpoint for_rows {A B} (body : nat -> A -> exn + B) (i : nat) (rows : list A)
  : exn + list B :=
  match rows with
  | [] => inr []
  | r :: rest =>
    b <-! body i r;
    bs <-! for_rows body (S i) rest;
    inr (b :: bs)
  end.

Record user_item := {
  it_user_id : Z;
  it_username : string;
  it_marzban_username : string;
  it_bandwidth_limit_gb : float;
  it_bandwidth_used_gb : float;
  it_bandwidth_percent : num;
  it_days_remaining : Z;
  it_connection_limit : Z }.

Definition user_entry (now : nat -> datetime) (i : nat) (u : end_user)
  : exn + user_item :=
  expiry <-! parse_expiry (eu_expiry_date u);
  lg <-! truediv (eu_bandwidth_limit u) (1024 ^ 3);
  ug <-! truediv (eu_bandwidth_used u) (1024 ^ 3);
  pc <-! percent (eu_bandwidth_used u) (eu_bandwidth_limit u);
  inr {| it_user_id := user_id u;
         it_username := eu_username u;
         it_marzban_username := eu_marzban_username u;
         it_bandwidth_limit_gb := round2 lg;
         it_bandwidth_used_gb := round2 ug;
         it_bandwidth_percent := pc;
         it_days_remaining := days_between expiry (now i);
         it_connection_limit := eu_connection_limit u |}.

(** [list_users_for_reseller]: the third component is [total_pages], which
    every failure path reports as 0. *)
Definition list_users_for_reseller (now : nat -> datetime) (db : DB)
    (reseller_telegram_id page page_size : Z)
  : outcome (list user_item) * Z :=
  match fetchone (fun r => telegram_id r =? reseller_telegram_id) (resellers db) with
  | None => (Failure NotAReseller, 0)
  | Some r =>
    let rid := reseller_id r in
    let mine := List.filter (fun u => eu_reseller_id u =? rid) (end_users db) in
    let total_count := Z.of_nat (List.length mine) in
    match
      (total_pages <-! (if total_count >? 0
                        then floordiv (total_count + page_size - 1) page_size
                        else inr 1);
       users <-! for_rows (user_entry now) 0
                   (limit_offset page_size (page * page_size) mine);
       inr (users, total_pages))
    with
    | inr (users, total_pages) => (Success users, total_pages)
    | inl e => (Failure (Raised e), 0)
    end
  end.

End Reads.

(** ** The notification sweep ([UserManager.check_and_notify_users]) *)

(** SQLite compares TEXT values byte by byte (BINARY collation). *)
Definition text_gt (a b : string) : bool :=
  match String.compare a b with
  | Gt => true
  | _ => false
  end.

(** [uid IN (SELECT user_id FROM notifications
              WHERE notification_type = kind AND sent_at > cutoff)]. *)
Definition warned_since (kind cutoff : string) (ns : list notification) (uid : Z)
  : bool :=
  existsb (fun n => (n_user_id n =? uid)
                    && String.eqb (notification_type n) kind
                    && text_gt (sent_at n) cutoff) ns.

(** The first SELECT: end users joined with their reseller, remaining
    bandwidth at most 322122547200 bytes and positive, not warned since the
    cutoff [datetime('now', '-3 days')]. *)
Definition select_bandwidth_warnings (cutoff : string) (db : DB)
  : list (end_user * Z) :=
  List.flat_map
    (fun u =>
       List.flat_map
         (fun r =>
            if (eu_reseller_id u =? reseller_id r)
               && (eu_bandwidth_limit u - eu_bandwidth_used u <=? 322122547200)
               && (eu_bandwidth_limit u - eu_bandwidth_used u >? 0)
               && negb (warned_since "bandwidth_warning" cutoff
                                     (notifications db) (user_id u))
            then [(u, telegram_id r)]
            else [])
         (resellers db))
    (end_users db).

(** [INSERT INTO notifications (user_id, notification_type, sent_at)]. *)
Definition insert_notification (uid : Z) (kind stamp : string) (db : DB) : DB :=
  set_notifications
    (notifications db ++
       [{| notification_id := next_rowid (notification_id <$> notifications db);
           n_user_id := uid;
           notification_type := kind;
           sent_at := stamp |}])
    db.

Section Sweep.
Context `{Float}.

Inductive alert :=
| BandwidthAlert (chat_id : Z) (uname : string) (remaining : float)
| ExpiryAlert (chat_id : Z) (uname : string) (days_left : Z) (expiry : datetime).

(** What one run reads from outside the database: the text SQLite computes
    for [datetime('now', '-3 days')], the rows its second SELECT (written
    with [julianday], a floating-point day count) yields on a database, and
    the readings of [datetime.now()] in the two loops. *)
Record sweep_env := {
  cutoff_3_days : string;
  expiry_due : DB -> list (end_user * Z);
  bw_stamp : nat -> string;
  ex_now : nat -> datetime;
  ex_stamp : nat -> string }.

(** [self.bot]: absent, or a bot whose [send_message] delivers an alert or
    raises. *)
Variable bot : option (alert -> bool).

Definition send_message (a : alert) (outbox : list alert) : exn + list alert :=
  match bot with
  | None => inr outbox
  | Some delivers => if delivers a then inr (outbox ++ [a]) else inl SendError
  end.

(** The loop over the bandwidth warnings.  The alerts already sent stay
    sent when a later step raises. *)
Fixpoint warn_bandwidth (env : sweep_env) (i : nat) (rows : list (end_user * Z))
    (c : connection) (outbox : list alert) : (exn + connection) * list alert :=
  match rows with
  | [] => (inr c, outbox)
  | (u, reseller_telegram_id) :: rest =>
    match truediv (eu_bandwidth_limit u - eu_bandwidth_used u) (1024 ^ 3) with
    | inl e => (inl e, outbox)
    | inr q =>
      match send_message (BandwidthAlert reseller_telegram_id (eu_username u)
                                         (round2 q)) outbox with
      | inl e => (inl e, outbox)
      | inr outbox1 =>
        warn_bandwidth env (S i) rest
          (execute (insert_notification (user_id u) "bandwidth_warning"
                                        (bw_stamp env i)) c)
          outbox1
      end
    end
  end.

Fixpoint warn_expiry (env : sweep_env) (i : nat) (rows : list (end_user * Z))
    (c : connection) (outbox : list alert) : (exn + connection) * list alert :=
  match rows with
  | [] => (inr c, outbox)
  | (u, reseller_telegram_id) :: rest =>
    match parse_expiry (eu_expiry_date u) with
    | inl e => (inl e, outbox)
    | inr expiry =>
      match send_message (ExpiryAlert reseller_telegram_id (eu_username u)
                                      (days_between expiry (ex_now env i))
                                      expiry) outbox with
      | inl e => (inl e, outbox)
      | inr outbox1 =>
        warn_expiry env (S i) rest
          (execute (insert_notification (user_id u) "expiry_warning"
                                        (ex_stamp env i)) c)
          outbox1
      end
    end
  end.

(** One run of the sweep: the database it leaves and the alerts it sent.
    An exception is logged and the connection closed without commit. *)
Definition check_and_notify_users (env : sweep_env) (db : DB) : DB * list alert :=
  let c := connect db in
  let bandwidth_warnings := select_bandwidth_warnings (cutoff_3_days env) (working c) in
  match warn_bandwidth env 0 bandwidth_warnings c [] with
  | (inl _, outbox) => (close c, outbox)
  | (inr c1, outbox) =>
    let expiry_warnings := expiry_due env (working c1) in
    match warn_expiry env 0 expiry_warnings c1 outbox with
    | (inl _, outbox2) => (close c1, outbox2)
    | (inr c2, outbox2) => (close (commit c2), outbox2)
    end
  end.

End Sweep.

(** ** ResellerManager (reseller_manager_Version3.py) *)

(** [UPDATE resellers SET bandwidth_used = ? WHERE reseller_id = ?]. *)
Definition store_reseller_usage (rid used : Z) (db : DB) : DB :=
  set_resellers
    ((fun r => if reseller_id r =? rid
               then {| reseller_id := reseller_id r;
                       telegram_id := telegram_id r;
                       username := username r;
                       marzban_username := marzban_username r;
                       bandwidth_limit := bandwidth_limit r;
                       bandwidth_used := used;
                       expiry_date := expiry_date r;
                       max_users := max_users r;
                       current_users := current_users r;
                       created_at := created_at r |}
               else r) <$> resellers db)
    db.

(** [UPDATE resellers SET bandwidth_limit = ?, expiry_date = ?, max_users = ?
    WHERE reseller_id = ?]. *)
Definition store_reseller_limits (rid new_bandwidth : Z) (new_expiry : datetime)
    (new_max_users : Z) (db : DB) : DB :=
  set_resellers
    ((fun r => if reseller_id r =? rid
               then {| reseller_id := reseller_id r;
                       telegram_id := telegram_id r;
                       username := username r;
                       marzban_username := marzban_username r;
                       bandwidth_limit := new_bandwidth;
                       bandwidth_used := bandwidth_used r;
                       expiry_date := Some new_expiry;
                       max_users := new_max_users;
                       current_users := current_users r;
                       created_at := created_at r |}
               else r) <$> resellers db)
    db.

Section ResellerManager.
Context `{Float}.
Context {W : Type}.
Variable marzban_api : option (PanelAPI W).

Record reseller_info := {
  ri_reseller_id : Z;
  ri_telegram_id : Z;
  ri_username : string;
  ri_marzban_username : string;
  ri_bandwidth : bandwidth_info;
  ri_expiry_date : datetime;
  ri_days_remaining : Z;
  ri_users_max : Z;
  ri_users_current : Z;
  ri_users_remaining : Z;
  ri_created_at : datetime }.

(** The WHERE clause [get_reseller_info] builds from the first of
    [telegram_id], [reseller_id], [marzban_username] that is truthy. *)
Definition reseller_query (tid rid : option Z) (mname : option string)
  : option (reseller -> bool) :=
  match truthy_int tid with
  | Some t => Some (fun r => telegram_id r =? t)
  | None =>
    match truthy_int rid with
    | Some i => Some (fun r => reseller_id r =? i)
    | None =>
      match truthy_str mname with
      | Some n => Some (fun r => String.eqb (marzban_username r) n)
      | None => None
      end
    end
  end.

Definition get_reseller_info_try (now : datetime)
    (tid rid : option Z) (mname : option string) (c : connection) (w : W)
  : (exn + outcome reseller_info) * connection * W :=
  match reseller_query tid rid mname with
  | None => (inr (Failure NoIdentifierGiven), c, w)
  | Some p =>
    match fetchone p (resellers (working c)) with
    | None => (inr (Failure ResellerNotFound), c, w)
    | Some r =>
      let '(used, c1, w1) :=
        refresh_usage marzban_api (marzban_username r) (bandwidth_used r)
                      (store_reseller_usage (reseller_id r)) c w in
      (expiry <-! parse_expiry (expiry_date r);
       bw <-! bandwidth_dict (bandwidth_limit r) used;
       inr (Success {| ri_reseller_id := reseller_id r;
                       ri_telegram_id := telegram_id r;
                       ri_username := username r;
                       ri_marzban_username := marzban_username r;
                       ri_bandwidth := bw;
                       ri_expiry_date := expiry;
                       ri_days_remaining := days_between expiry now;
                       ri_users_max := max_users r;
                       ri_users_current := current_users r;
                       ri_users_remaining := Z.max 0 (max_users r - current_users r);
                       ri_created_at := created_at r |}),
       c1, w1)
    end
  end.

Definition get_reseller_info (now : datetime) (db : DB)
    (tid rid : option Z) (mname : option string) (w : W)
  : outcome reseller_info * DB * W :=
  let '(r, c, w') := get_reseller_info_try now tid rid mname (connect db) w in
  (match r with inl e => Failure (Raised e) | inr o => o end, close c, w').

Record reseller_item := {
  rt_reseller_id : Z;
  rt_telegram_id : Z;
  rt_username : string;
  rt_marzban_username : string;
  rt_bandwidth_limit_gb : float;
  rt_bandwidth_used_gb : float;
  rt_bandwidth_percent : num;
  rt_days_remaining : Z;
  rt_max_users : Z;
  rt_current_users : Z }.

Definition reseller_entry (now : nat -> datetime) (i : nat) (r : reseller)
  : exn + reseller_item :=
  expiry <-! parse_expiry (expiry_date r);
  lg <-! truediv (bandwidth_limit r) (1024 ^ 3);
  ug <-! truediv (bandwidth_used r) (1024 ^ 3);
  pc <-! percent (bandwidth_used r) (bandwidth_limit r);
  inr {| rt_reseller_id := reseller_id r;
         rt_telegram_id := telegram_id r;
         rt_username := username r;
         rt_marzban_username := marzban_username r;
         rt_bandwidth_limit_gb := round2 lg;
         rt_bandwidth_used_gb := round2 ug;
         rt_bandwidth_percent := pc;
         rt_days_remaining := days_between expiry (now i);
         rt_max_users := max_users r;
         rt_current_users := current_users r |}.

(** [list_resellers]: [total_pages] is computed without a special case for
    an empty table. *)
Definition list_resellers (now : nat -> datetime) (db : DB) (page page_size : Z)
  : outcome (list reseller_item) * Z :=
  let total_count := Z.of_nat (List.length (resellers db)) in
  match
    (total_pages <-! floordiv (total_count + page_size - 1) page_size;
     items <-! for_rows (reseller_entry now) 0
                 (limit_offset page_size (page * page_size) (resellers db));
     inr (items, total_pages))
  with
  | inr (items, total_pages) => (Success items, total_pages)
  | inl e => (Failure (Raised e), 0)
  end.

(** The lines of the confirmation message of [update_reseller_limits]. *)
Inductive update_line :=
| BandwidthAdded (gb : Z)
| DaysAdded (days : Z)
| UsersAdded (users : Z).

Definition update_message (add_bandwidth_gb add_days add_users : Z)
  : list update_line :=
  (if add_bandwidth_gb >? 0 then [BandwidthAdded add_bandwidth_gb] else []) ++
  (if add_days >? 0 then [DaysAdded add_days] else []) ++
  (if add_users >? 0 then [UsersAdded add_users] else []).

(** The [try] block of [update_reseller_limits].  [get_reseller_info] runs
    on a connection of its own and may commit a refreshed [bandwidth_used];
    [db1] is the database it leaves. *)
Definition update_reseller_limits_try (now : datetime) (db : DB)
    (rid tid : option Z) (mname : option string)
    (add_bandwidth_gb add_days add_users : Z) (w : W)
  : (exn + outcome (list update_line)) * connection * W :=
  let '(info, db1, w1) := get_reseller_info now db tid rid mname w in
  let c := connect db1 in
  match info with
  | Failure msg => (inr (Failure msg), c, w1)
  | Success reseller =>
    let new_bandwidth :=
      limit_bytes (ri_bandwidth reseller) + add_bandwidth_gb * 1024 ^ 3 in
    match (td <-! timedelta_days add_days;
           datetime_add (ri_expiry_date reseller) td) with
    | inl e => (inl e, c, w1)
    | inr new_expiry =>
      let new_max_users := ri_users_max reseller + add_users in
      let '(remote, w2) :=
        match marzban_api with
        | Some api =>
          let '(r, w2) :=
            api_update_user api (ri_marzban_username reseller)
              {| data_limit := new_bandwidth;
                 expire := new_expiry;
                 connection_limit := None |} w1 in
          (match r with inl e => Some e | inr _ => None end, w2)
        | None => (None, w1)
        end in
      match remote with
      | Some e => (inr (Failure (PanelUpdateFailed e)), c, w2)
      | None =>
        let c1 := execute (store_reseller_limits (ri_reseller_id reseller)
                             new_bandwidth new_expiry new_max_users) c in
        (inr (Success (update_message add_bandwidth_gb add_days add_users)),
         commit c1, w2)
      end
    end
  end.

Definition update_reseller_limits (now : datetime) (db : DB)
    (rid tid : option Z) (mname : option string)
    (add_bandwidth_gb add_days add_users : Z) (w : W)
  : outcome (list update_line) * DB * W :=
  let '(r, c, w') :=
    update_reseller_limits_try now db rid tid mname
                               add_bandwidth_gb add_days add_users w in
  (match r with inl e => Failure (Raised e) | inr o => o end, close c, w').

End ResellerManager.

(** ** AdminLimitsManager (admin_limits.py) *)

Module AdminLimits.

Inductive limit_message :=
| LookupFailed
| BandwidthExhausted (max_gb : Z)
| UsersExhausted (max : Z)
| Expired (on : datetime).

(** The defaults [get_admin_limits] merges in; 0 means unlimited. *)
Definition default_limits : gmap string jval :=
  list_to_map
    [("max_bandwidth_gb"%string, JInt 0);
     ("max_users"%string, JInt 0);
     ("max_days"%string, JInt 0);
     ("used_bandwidth_gb"%string, JInt 0);
     ("created_users"%string, JInt 0);
     ("expiry_date"%string, JNull)].

(** [get_admin_limits]: [None] when no admin has that name; keys the stored
    dictionary lacks get their default. *)
Definition get_admin_limits (db : DB) (admin_username : string)
  : option (gmap string jval) :=
  match fetchone (fun a => String.eqb (a_marzban_username a) admin_username)
                 (marzban_admins db) with
  | None => None
  | Some a => Some (default ∅ (limits a) ∪ default_limits)
  end.

(** [limits.get(key, 0)] used as a number: comparing anything but a number
    with an int raises TypeError. *)
Definition get_int (limits : gmap string jval) (key : string) : exn + Z :=
  match default (JInt 0) (limits !! key) with
  | JInt z => inr z
  | _ => inl TypeError
  end.

Section Limits_check.
(** [datetime.fromisoformat] on the text kept in the JSON dictionary. *)
Variable fromisoformat : string -> exn + datetime.

(** One gated check: nothing is reported while the cap is 0 (or negative). *)
Definition capped (limits : gmap string jval) (cap_key used_key : string)
    (report : Z -> limit_message) : exn + list limit_message :=
  cap <-! get_int limits cap_key;
  if cap >? 0
  then used <-! get_int limits used_key;
       cap' <-! get_int limits cap_key;
       inr (if used >=? cap' then [report cap'] else [])
  else inr [].

Definition expired (now : datetime) (limits : gmap string jval)
  : exn + list limit_message :=
  match default JNull (limits !! "expiry_date"%string) with
  | JNull => inr []
  | JInt z => if z =? 0 then inr [] else inl TypeError
  | JStr s =>
    if String.eqb s "" then inr []
    else d <-! fromisoformat s;
         inr (if now >? d then [Expired d] else [])
  end.

(** [check_admin_limits]: the flag is set exactly when a message is
    appended; the method has no [try], so an exception propagates. *)
Definition check_admin_limits (now : datetime) (db : DB) (admin_username : string)
  : exn + (bool * list limit_message) :=
  match get_admin_limits db admin_username with
  | None => inr (true, [LookupFailed])
  | Some limits =>
    bw <-! capped limits "max_bandwidth_gb" "used_bandwidth_gb" BandwidthExhausted;
    us <-! capped limits "max_users" "created_users" UsersExhausted;
    ex <-! expired now limits;
    let limit_messages := bw ++ us ++ ex in
    inr (match limit_messages with [] => false | _ => true end, limit_messages)
  end.

End Limits_check.

End AdminLimits.

(** ** The panel gateway ([MarzbanAPI] in bot_Version5.py) *)

Module MarzbanAPI.

Inductive http_method := GET | POST | PUT | DELETE.

Inductive request_body :=
| NoBody
| Credentials (user password : string)
| UserData (data : panel_user_data).

Record request := {
  method : http_method;
  path : string;
  bearer : option string;
  body : request_body }.

(** The JSON object of an answer, through the keys the code reads. *)
Record json_object := {
  access_token : option string;
  user : panel_user;
  users : option (list panel_user) }.

(** [json = None]: the body is not JSON and [response.json()] raises. *)
Record response := {
  status_code : Z;
  text : string;
  json : option json_object }.

Section Gateway.
(** The remote panel: a state and its reaction to a request, which is an
    answer or an exception of [requests] (with its text). *)
Context {S : Type}.
Variable serve : request -> S -> (string + response) * S.
Variable username password : string.

(** The gateway object ([self.token]), the panel behind it, and the
    requests issued so far, oldest first. *)
Record gateway := {
  token : option string;
  panel : S;
  sent : list request }.

Definition http (rq : request) (g : gateway) : (string + response) * gateway :=
  let '(r, s') := serve rq (panel g) in
  (r, {| token := token g; panel := s'; sent := sent g ++ [rq] |}).

Definition set_token (t : option string) (g : gateway) : gateway :=
  {| token := t; panel := panel g; sent := sent g |}.

(** [login]: stores [data.get("access_token")] and reports whether it is
    not [None]; any exception gives [False] and leaves the token. *)
Definition login (g : gateway) : bool * gateway :=
  let '(r, g1) :=
    http {| method := POST;
            path := "/admin/token";
            bearer := None;
            body := Credentials username password |} g in
  match r with
  | inl _ => (false, g1)
  | inr resp =>
    match json resp with
    | None => (false, g1)
    | Some data =>
      (match access_token data with Some _ => true | None => false end,
       set_token (access_token data) g1)
    end
  end.

(** The body the five calls share: log in when no token is held, send one
    request with the bearer header, succeed on status 200. *)
Definition call {A} (m : http_method) (p : string) (b : request_body)
    (on_ok : response -> string + A) (g : gateway) : (api_error + A) * gateway :=
  let '(ok, g1) :=
    match truthy_str (token g) with
    | Some _ => (true, g)
    | None => login g
    end in
  if ok then
    let '(r, g2) :=
      http {| method := m; path := p; bearer := token g1; body := b |} g1 in
    match r with
    | inl e => (inl (Transport e), g2)
    | inr resp =>
      if status_code resp =? 200
      then match on_ok resp with
           | inl e => (inl (Transport e), g2)
           | inr a => (inr a, g2)
           end
      else (inl (HttpStatus (status_code resp) (text resp)), g2)
    end
  else (inl AuthFailed, g1).

Definition response_json (resp : response) : string + json_object :=
  match json resp with
  | Some o => inr o
  | None => inl "JSONDecodeError"%string
  end.

Definition response_user (resp : response) : string + panel_user :=
  match response_json resp with
  | inl e => inl e
  | inr o => inr (user o)
  end.

Definition create_user (name : string) (data : panel_user_data) (g : gateway)
  : (api_error + panel_user) * gateway :=
  call POST ("/user/" ++ name) (UserData data) response_user g.

Definition get_user_info (name : string) (g : gateway)
  : (api_error + panel_user) * gateway :=
  call GET ("/user/" ++ name) NoBody response_user g.

Definition update_user (name : string) (data : panel_user_data) (g : gateway)
  : (api_error + panel_user) * gateway :=
  call PUT ("/user/" ++ name) (UserData data) response_user g.

Definition delete_user (name : string) (g : gateway)
  : (api_error + unit) * gateway :=
  call DELETE ("/user/" ++ name) NoBody (fun _ => inr tt) g.

Definition get_all_users (g : gateway)
  : (api_error + list panel_user) * gateway :=
  call GET "/users" NoBody
       (fun resp => match response_json resp with
                    | inl e => inl e
                    | inr o => inr (default [] (users o))
                    end) g.

(** The gateway as the [marzban_api] object handed to the managers. *)
Definition as_panel_api : PanelAPI gateway :=
  {| api_create_user := create_user;
     api_get_user_info := get_user_info;
     api_update_user := update_user |}.

(** How the specification describes a call that fails authorization: one
    fresh login, then the same call sent once more.  Stated on the requests
    a call adds to [sent]. *)
Definition reauthenticates_and_retries (added : list request) : Prop :=
  exists first relogin retry,
    added = [first; relogin; retry]
    /\ path relogin = "/admin/token"%string
    /\ method retry = method first
    /\ path retry = path first.

(** What the code does instead, stated on one call [op] from state [g]:
    the single request [rq] is added to [sent], the token is kept, and an
    answer with a status other than 200 is handed to the caller. *)
Definition answers_in_one_request {A}
    (op : gateway -> (api_error + A) * gateway) (g : gateway) (rq : request)
  : Prop :=
  sent (snd (op g)) = sent g ++ [rq]
  /\ token (snd (op g)) = token g
  /\ forall resp,
       fst (serve rq (panel g)) = inr resp ->
       status_code resp <> 200 ->
       fst (op g) = inl (HttpStatus (status_code resp) (text resp)).

End Gateway.

End MarzbanAPI.

(** ** Vocabulary of the statements *)

(** The allocation check in the specification's own words, to compare the
    code with: a cap of 0 leaves its dimension unbounded. *)
Definition spec_check_allocation_denied
    (used_entities max_entities used_bytes limit_bytes requested : Z) : bool :=
  (negb (max_entities =? 0) && (used_entities + 1 >? max_entities))
  || (negb (limit_bytes =? 0) && (used_bytes + requested >? limit_bytes)).

(** A result that refuses the allocation for lack of quota. *)
Definition quota_denied {A} (o : outcome A) : bool :=
  match o with
  | Failure UserLimitReached => true
  | Failure NotEnoughBandwidth => true
  | _ => false
  end.

(** The stored limits of the resellers, the part [update_reseller_limits]
    is meant to change. *)
Definition limits_view (db : DB) : list (Z * Z * option datetime * Z) :=
  (fun r => (reseller_id r, bandwidth_limit r, expiry_date r, max_users r))
    <$> resellers db.

(** The number of notification rows of one kind kept for one user. *)
Definition count_notifications (kind : string) (uid : Z) (db : DB) : nat :=
  List.length
    (List.filter (fun n => (n_user_id n =? uid)
                           && String.eqb (notification_type n) kind)
                 (notifications db)).

Section Statement_vocabulary.
Context `{Float}.

(** What the claim asks of a returned bandwidth record: the remaining
    bytes are clamped at zero and the percentage is the integer 0 unless
    the limit is positive. *)
Definition safe_bandwidth (bw : bandwidth_info) : Prop :=
  remaining_bytes bw = Z.max 0 (limit_bytes bw - used_bytes bw)
  /\ 0 <= remaining_bytes bw
  /\ percent_used bw =
     (if limit_bytes bw >? 0
      then Flt (round2 (fmul (fdiv (used_bytes bw) (limit_bytes bw)) 100))
      else Int 0).

(** The alert the loop sends for a selected row. *)
Definition alert_of (row : end_user * Z) : alert :=
  BandwidthAlert (snd row) (eu_username (fst row))
    (round2 (fdiv (eu_bandwidth_limit (fst row) - eu_bandwidth_used (fst row))
                  (1024 ^ 3))).

Definition is_expiry_alert (a : alert) : Prop :=
  match a with
  | ExpiryAlert _ _ _ _ => True
  | BandwidthAlert _ _ _ => False
  end.

End Statement_vocabulary.

(** ** Sample data to run the definitions on *)

(** A free number format: it records the operations instead of rounding. *)
Inductive fexpr :=
| FDiv (a b : Z)
| FMul (x : fexpr) (k : Z)
| FRound2 (x : fexpr).

Definition symbolic_float : Float :=
  {| float := fexpr; fdiv := FDiv; fmul := FMul; round2 := FRound2 |}.

Definition day (n : Z) : datetime := n * MICROS_PER_DAY.

(** 2025-01-01T00:00:00. *)
Definition new_year_2025 : datetime := day 739251.

Definition sample_reseller : reseller :=
  {| reseller_id := 1;
     telegram_id := 7001;
     username := "rose";
     marzban_username := "reseller_rose_0a1b2c3d";
     bandwidth_limit := 100 * GiB;
     bandwidth_used := 0;
     expiry_date := Some (day 739281);
     max_users := 2;
     current_users := 0;
     created_at := new_year_2025 |}.

Definition sample_db : DB :=
  {| marzban_admins := [];
     resellers := [sample_reseller];
     end_users := [];
     notifications := [];
     usage_log := [] |}.

Definition empty_db : DB :=
  {| marzban_admins := [];
     resellers := [];
     end_users := [];
     notifications := [];
     usage_log := [] |}.

(** The same reseller with a user cap of zero. *)
Definition zero_cap_db : DB :=
  set_resellers
    [{| reseller_id := 1;
        telegram_id := 7001;
        username := "rose";
        marzban_username := "reseller_rose_0a1b2c3d";
        bandwidth_limit := 100 * GiB;
        bandwidth_used := 0;
        expiry_date := Some (day 739281);
        max_users := 0;
        current_users := 0;
        created_at := new_year_2025 |}]
    sample_db.

Definition first_env : create_user_env :=
  {| uuid_hex8 := "11aa22bb"; now_expiry := new_year_2025; now_created := new_year_2025 |}.

Definition second_env : create_user_env :=
  {| uuid_hex8 := "33cc44dd"; now_expiry := day 739252; now_created := day 739252 |}.

(** The database after the first end user (60 GiB) of the sample reseller. *)
Definition db_after_first : DB :=
  snd (fst (create_user (W := unit) None first_env sample_db 7001 "ann" 60 30 3 tt)).

(** The sample reseller's row once those 60 GiB are charged. *)
Definition charged_reseller : reseller :=
  {| reseller_id := 1;
     telegram_id := 7001;
     username := "rose";
     marzban_username := "reseller_rose_0a1b2c3d";
     bandwidth_limit := 100 * GiB;
     bandwidth_used := 60 * GiB;
     expiry_date := Some (day 739281);
     max_users := 2;
     current_users := 1;
     created_at := new_year_2025 |}.

(** A reseller whose budget expired two days before [new_year_2025], and
    the database after extending it by ten days at that time. *)
Definition expired_reseller : reseller :=
  {| reseller_id := 1;
     telegram_id := 7001;
     username := "rose";
     marzban_username := "reseller_rose_0a1b2c3d";
     bandwidth_limit := 100 * GiB;
     bandwidth_used := 0;
     expiry_date := Some (new_year_2025 - 2 * MICROS_PER_DAY);
     max_users := 2;
     current_users := 0;
     created_at := day 739000 |}.

Definition expired_db : DB := set_resellers [expired_reseller] sample_db.

Definition db_after_extend : DB :=
  snd (fst (update_reseller_limits (H := symbolic_float) (W := unit) None
              new_year_2025 expired_db (Some 1) None None 0 10 0 tt)).

(** Four end users of the sample reseller with 322122547200, 322122547201,
    0 and -10 bytes left. *)
Definition user_with (id : Z) (name : string) (limit used : Z) : end_user :=
  {| user_id := id;
     eu_reseller_id := 1;
     eu_username := name;
     eu_marzban_username := ("user_" ++ name ++ "_00000000")%string;
     eu_bandwidth_limit := limit;
     eu_bandwidth_used := used;
     eu_expiry_date := Some (day 739281);
     eu_connection_limit := 3;
     eu_created_at := new_year_2025 |}.

Definition edge_user : end_user := user_with 1 "edge" 322122547200 0.

Definition sweep_db : DB :=
  set_end_users
    [edge_user;
     user_with 2 "over" 322122547201 0;
     user_with 3 "spent" 10 10;
     user_with 4 "overdrawn" 10 20]
    sample_db.

(** Two runs of the sweep: the first on 2025-01-04 (cutoff three days
    earlier), the second two days later; the bot delivers every alert and
    no user is near expiry. *)
Definition first_sweep : sweep_env :=
  {| cutoff_3_days := "2025-01-01 09:00:00";
     expiry_due := fun _ => [];
     bw_stamp := fun _ => "2025-01-04T09:00:00.123456"%string;
     ex_now := fun _ => day 739254;
     ex_stamp := fun _ => "2025-01-04T09:00:00.234567"%string |}.

Definition second_sweep : sweep_env :=
  {| cutoff_3_days := "2025-01-03 09:00:00";
     expiry_due := fun _ => [];
     bw_stamp := fun _ => "2025-01-06T09:00:00.123456"%string;
     ex_now := fun _ => day 739256;
     ex_stamp := fun _ => "2025-01-06T09:00:00.234567"%string |}.

Definition delivering_bot : option (alert (H := symbolic_float) -> bool) :=
  Some (fun _ => true).

Definition first_warning : notification :=
  {| notification_id := 1;
     n_user_id := 1;
     notification_type := "bandwidth_warning";
     sent_at := "2025-01-04T09:00:00.123456" |}.

Definition db_after_sweep : DB := set_notifications [first_warning] sweep_db.

(** A panel that answers every read and rejects every write with status
    500, and one that accepts everything. *)
Definition rejecting_panel : PanelAPI unit :=
  {| api_create_user := fun _ _ w => (inl (HttpStatus 500 "Internal Server Error"), w);
     api_get_user_info := fun _ w =>
       (inr {| subscription_url := None; used_traffic := Some (5 * GiB) |}, w);
     api_update_user := fun _ _ w => (inl (HttpStatus 500 "Internal Server Error"), w) |}.

Definition accepting_panel : PanelAPI unit :=
  {| api_create_user := fun _ _ w =>
       (inr {| subscription_url := Some "https://panel/sub/x"%string; used_traffic := Some 0 |}, w);
     api_get_user_info := fun _ w =>
       (inr {| subscription_url := None; used_traffic := Some (5 * GiB) |}, w);
     api_update_user := fun _ _ w =>
       (inr {| subscription_url := None; used_traffic := None |}, w) |}.

(** A panel server that answers every request with 401 Unauthorized. *)
Definition unauthorized_server (rq : MarzbanAPI.request) (s : unit)
  : (string + MarzbanAPI.response) * unit :=
  (inr {| MarzbanAPI.status_code := 401;
          MarzbanAPI.text := "Unauthorized";
          MarzbanAPI.json := None |}, s).

Definition stale_gateway : MarzbanAPI.gateway :=
  {| MarzbanAPI.token := Some "stale"%string;
     MarzbanAPI.panel := tt;
     MarzbanAPI.sent := [] |}.

(** An admin with 50 users created and no user cap (0), and one capped at
    40 users. *)
Definition admin_with (name : string) (cap : Z) : marzban_admin :=
  {| admin_id := 1;
     a_telegram_id := 9001;
     a_username := name;
     a_marzban_username := name;
     permissions := "[]";
     limits := Some (<["max_users"%string := JInt cap]>
                      (<["created_users"%string := JInt 50]> ∅));
     a_created_at := new_year_2025 |}.

Definition admins_db : DB :=
  {| marzban_admins := [admin_with "free" 0; admin_with "capped" 40];
     resellers := [];
     end_users := [];
     notifications := [];
     usage_log := [] |}.

Definition sample_user_data : panel_user_data :=
  {| data_limit := 60 * GiB; expire := day 739281; connection_limit := Some 3 |}.


(** ** AdminLimitsManager: the writers (admin_limits.py) *)

Definition set_marzban_admins (ads : list marzban_admin) (db : DB) : DB :=
  {| marzban_admins := ads;
     resellers := resellers db;
     end_users := end_users db;
     notifications := notifications db;
     usage_log := usage_log db |}.

Module AdminLimitsManager.

(** What the two writers return: success, the not-found message, or the
    message built from an exception. *)
Inductive result :=
| Updated
| AdminNotFound
| Raised (e : exn).

(** [UPDATE marzban_admins SET limits = ? WHERE marzban_username = ?] with
    the dictionary [json.dumps] writes. *)
Definition store_limits (admin_username : string) (l : gmap string jval) (db : DB)
  : DB :=
  set_marzban_admins
    ((fun a => if String.eqb (a_marzban_username a) admin_username
               then {| admin_id := admin_id a;
                       a_telegram_id := a_telegram_id a;
                       a_username := a_username a;
                       a_marzban_username := a_marzban_username a;
                       permissions := permissions a;
                       limits := Some l;
                       a_created_at := a_created_at a |}
               else a) <$> marzban_admins db)
    db.

(** [if value is not None: current_limits[key] = value]. *)
Definition set_key (key : string) (value : option Z) (l : gmap string jval)
  : gmap string jval :=
  match value with
  | Some v => <[key := JInt v]> l
  | None => l
  end.

Section Writers.
(** [datetime.isoformat], the text stored under "expiry_date". *)
Variable isoformat : datetime -> string.

(** The [try] block of [set_admin_limits].  The two SELECTs read the same
    row; [limits] that is NULL or empty counts as the empty dictionary. *)
Definition set_admin_limits_try (now : datetime) (admin_username : string)
    (max_bandwidth max_users max_days : option Z) (c : connection)
  : (exn + result) * connection :=
  match fetchone (fun a => String.eqb (a_marzban_username a) admin_username)
                 (marzban_admins (working c)) with
  | None => (inr AdminNotFound, c)
  | Some a =>
    let current_limits := default ∅ (limits a) in
    let l1 := set_key "max_bandwidth_gb" max_bandwidth current_limits in
    let l2 := set_key "max_users" max_users l1 in
    let l3 := set_key "max_days" max_days l2 in
    match
      match max_days with
      | Some d =>
        td <-! timedelta_days d;
        expiry <-! datetime_add now td;
        inr (<["expiry_date"%string := JStr (isoformat expiry)]> l3)
      | None => inr l3
      end
    with
    | inl e => (inl e, c)
    | inr l4 => (inr Updated, commit (execute (store_limits admin_username l4) c))
    end
  end.

Definition set_admin_limits (now : datetime) (db : DB) (admin_username : string)
    (max_bandwidth max_users max_days : option Z) : result * DB :=
  let '(r, c) :=
    set_admin_limits_try now admin_username max_bandwidth max_users max_days
                         (connect db) in
  (match r with inl e => Raised e | inr o => o end, close c).

End Writers.

(** [limits[key] = limits.get(key, 0) + amount] when an amount is given;
    adding an int to a stored null or string raises TypeError. *)
Definition add_usage (key : string) (amount : option Z) (l : gmap string jval)
  : exn + gmap string jval :=
  match amount with
  | Some n =>
    z <-! AdminLimits.get_int l key;
    inr (<[key := JInt (z + n)]> l)
  | None => inr l
  end.

(** The [try] block of [update_admin_usage]: the dictionary comes from
    [get_admin_limits], defaults included, and is written back whole. *)
Definition update_admin_usage_try (admin_username : string)
    (bandwidth_used users_created : option Z) (c : connection)
  : (exn + result) * connection :=
  match AdminLimits.get_admin_limits (committed c) admin_username with
  | None => (inr AdminNotFound, c)
  | Some limits =>
    match (l1 <-! add_usage "used_bandwidth_gb" bandwidth_used limits;
           add_usage "created_users" users_created l1) with
    | inl e => (inl e, c)
    | inr l2 => (inr Updated, commit (execute (store_limits admin_username l2) c))
    end
  end.

Definition update_admin_usage (db : DB) (admin_username : string)
    (bandwidth_used users_created : option Z) : result * DB :=
  let '(r, c) :=
    update_admin_usage_try admin_username bandwidth_used users_created
                           (connect db) in
  (match r with inl e => Raised e | inr o => o end, close c).

End AdminLimitsManager.

(** ** ResellerManager.create_reseller (reseller_manager_Version3.py) *)

(** The [users] table, and the database with it. *)
Record bot_user := {
  bu_user_id : Z;
  bu_telegram_id : Z;
  bu_username : string;
  bu_role : string;
  bu_created_at : datetime }.

Record bot_db := {
  users : list bot_user;
  core : DB }.

Definition set_users (us : list bot_user) (db : bot_db) : bot_db :=
  {| users := us; core := core db |}.

Definition set_core (d : DB) (db : bot_db) : bot_db :=
  {| users := users db; core := d |}.

Record bot_connection := { bot_committed : bot_db; bot_working : bot_db }.

Definition bot_connect (db : bot_db) : bot_connection :=
  {| bot_committed := db; bot_working := db |}.
Definition bot_commit (c : bot_connection) : bot_connection :=
  {| bot_committed := bot_working c; bot_working := bot_working c |}.
Definition bot_close (c : bot_connection) : bot_db := bot_committed c.
Definition bot_execute (f : bot_db -> bot_db) (c : bot_connection)
  : bot_connection :=
  {| bot_committed := bot_committed c; bot_working := f (bot_working c) |}.

(** What [create_reseller] reads from its environment: the hex digits of
    [uuid.uuid4()] and the three readings of [datetime.now()]. *)
Record create_reseller_env := {
  cr_uuid_hex8 : string;
  cr_now_user : datetime;
  cr_now_expiry : datetime;
  cr_now_created : datetime }.

Record created_reseller := {
  cr_reseller_id : Z;
  cr_telegram_id : Z;
  cr_username : string;
  cr_marzban_username : string;
  cr_bandwidth_gb : Z;
  cr_expiry_date : datetime;
  cr_max_users : Z;
  cr_subscription_url : option string }.

(** [INSERT INTO users (telegram_id, username, role, created_at)]. *)
Definition insert_user (tid : Z) (uname urole : string) (at_ : datetime)
    (db : bot_db) : bot_db :=
  set_users
    (users db ++
       [{| bu_user_id := next_rowid (bu_user_id <$> users db);
           bu_telegram_id := tid;
           bu_username := uname;
           bu_role := urole;
           bu_created_at := at_ |}])
    db.

(** [UPDATE users SET role = ? WHERE telegram_id = ?]. *)
Definition set_role (tid : Z) (urole : string) (db : bot_db) : bot_db :=
  set_users
    ((fun u => if bu_telegram_id u =? tid
               then {| bu_user_id := bu_user_id u;
                       bu_telegram_id := bu_telegram_id u;
                       bu_username := bu_username u;
                       bu_role := urole;
                       bu_created_at := bu_created_at u |}
               else u) <$> users db)
    db.

(** [INSERT INTO resellers ...]: [marzban_username] is UNIQUE. *)
Definition insert_reseller (row : Z -> reseller) (db : DB) : exn + (Z * DB) :=
  let id := next_rowid (reseller_id <$> resellers db) in
  let r := row id in
  if existsb (fun v => String.eqb (marzban_username v) (marzban_username r))
             (resellers db)
  then inl IntegrityError
  else inr (id, set_resellers (resellers db ++ [r]) db).

Section ResellerManager_create.
Context {W : Type}.
Variable marzban_api : option (PanelAPI W).

(** The body of the [try] block of [create_reseller]. *)
Definition create_reseller_try (env : create_reseller_env)
    (tid : Z) (uname : string) (bandwidth_gb days max_users_ : Z)
    (sub_url : option string) (c : bot_connection) (w : W)
  : (exn + outcome created_reseller) * bot_connection * W :=
  let c1 :=
    match fetchone (fun u => bu_telegram_id u =? tid) (users (bot_working c)) with
    | None => bot_execute (insert_user tid uname "reseller" (cr_now_user env)) c
    | Some u =>
      if String.eqb (bu_role u) "reseller" then c
      else bot_execute (set_role tid "reseller") c
    end in
  let reseller_marzban_username :=
    ("reseller_" ++ uname ++ "_" ++ cr_uuid_hex8 env)%string in
  match (td <-! timedelta_days days; datetime_add (cr_now_expiry env) td) with
  | inl e => (inl e, c1, w)
  | inr expiry =>
    let '(remote, w1) :=
      match marzban_api with
      | Some api =>
        let '(r, w1) :=
          api_create_user api reseller_marzban_username
            {| data_limit := bandwidth_gb * 1024 ^ 3;
               expire := expiry;
               connection_limit := None |} w in
        (match r with inl e => Some e | inr _ => None end, w1)
      | None => (None, w)
      end in
    match remote with
    | Some e => (inr (Failure (PanelCreateFailed e)), c1, w1)
    | None =>
      match insert_reseller
              (fun id => {| reseller_id := id;
                            telegram_id := tid;
                            username := uname;
                            marzban_username := reseller_marzban_username;
                            bandwidth_limit := bandwidth_gb * 1024 ^ 3;
                            bandwidth_used := 0;
                            expiry_date := Some expiry;
                            max_users := max_users_;
                            current_users := 0;
                            created_at := cr_now_created env |})
              (core (bot_working c1)) with
      | inl e => (inl e, c1, w1)
      | inr (new_id, d1) =>
        let c2 := bot_execute (set_core d1) c1 in
        (inr (Success {| cr_reseller_id := new_id;
                         cr_telegram_id := tid;
                         cr_username := uname;
                         cr_marzban_username := reseller_marzban_username;
                         cr_bandwidth_gb := bandwidth_gb;
                         cr_expiry_date := expiry;
                         cr_max_users := max_users_;
                         cr_subscription_url := sub_url |}),
         bot_commit c2, w1)
      end
    end
  end.

(** [create_reseller]: connect, run the body, turn an exception into a
    failure message, close the connection (what was not committed is
    lost). *)
Definition create_reseller (env : create_reseller_env) (db : bot_db)
    (tid : Z) (uname : string) (bandwidth_gb days max_users_ : Z)
    (sub_url : option string) (w : W)
  : outcome created_reseller * bot_db * W :=
  let '(r, c, w') :=
    create_reseller_try env tid uname bandwidth_gb days max_users_ sub_url
                        (bot_connect db) w in
  (match r with inl e => Failure (Raised e) | inr o => o end, bot_close c, w').

End ResellerManager_create.

(** ** The clocks behind the sweep *)

(** The sweep writes [datetime.now().isoformat()], the host's local time,
    into [sent_at] and compares it inside SQL with
    [datetime('now', '-3 days')], which SQLite computes in UTC.  Both
    texts are built from the proleptic Gregorian calendar. *)

Definition days_in_month (month : Z) : Z :=
  match month with
  | 2 => 28
  | 4 | 6 | 9 | 11 => 30
  | _ => 31
  end.

Definition days_before_month (month : Z) : Z :=
  match month with
  | 1 => 0
  | 2 => 31
  | 3 => 59
  | 4 => 90
  | 5 => 120
  | 6 => 151
  | 7 => 181
  | 8 => 212
  | 9 => 243
  | 10 => 273
  | 11 => 304
  | _ => 334
  end.

(** Year, month and day of a proleptic Gregorian ordinal (day 1 is
    0001-01-01), by the 400/100/4/1-year cycles as in [datetime]. *)
Definition ord2ymd (ordinal : Z) : Z * Z * Z :=
  let n := ordinal - 1 in
  let n400 := n / 146097 in
  let n := n mod 146097 in
  let n100 := n / 36524 in
  let n := n mod 36524 in
  let n4 := n / 1461 in
  let n := n mod 1461 in
  let n1 := n / 365 in
  let n := n mod 365 in
  let year := n400 * 400 + 1 + n100 * 100 + n4 * 4 + n1 in
  if (n1 =? 4) || (n100 =? 4) then (year - 1, 12, 31)
  else
    let leapyear := (n1 =? 3) && (negb (n4 =? 24) || (n100 =? 3)) in
    let month := Z.shiftr (n + 50) 5 in
    let preceding :=
      days_before_month month + (if (month >? 2) && leapyear then 1 else 0) in
    if preceding >? n
    then
      let month := month - 1 in
      let preceding :=
        preceding
        - (days_in_month month + (if (month =? 2) && leapyear then 1 else 0)) in
      (year, month, n - preceding + 1)
    else (year, month, n - preceding + 1).

(** [n] in decimal, zero-padded to [width] digits. *)
Fixpoint zero_padded (width : nat) (n : Z) (rest : string) : string :=
  match width with
  | O => rest
  | S width =>
    zero_padded width (n / 10)
      (String (ascii_of_nat (Nat.add 48 (Z.to_nat (n mod 10)))) rest)
  end.

(** "YYYY-MM-DD" and "HH:MM:SS" of a naive datetime. *)
Definition date_text (d : datetime) : string :=
  let '(year, month, day_) := ord2ymd (d / MICROS_PER_DAY + 1) in
  zero_padded 4 year
    (String "-" (zero_padded 2 month (String "-" (zero_padded 2 day_ "")))).

Definition time_text (d : datetime) : string :=
  let seconds := (d mod MICROS_PER_DAY) / 1000000 in
  zero_padded 2 (seconds / 3600)
    (String ":" (zero_padded 2 (seconds / 60 mod 60)
       (String ":" (zero_padded 2 (seconds mod 60) "")))).

(** [datetime.isoformat()]: date, "T", time, and the microseconds unless
    they are zero. *)
Definition isoformat (d : datetime) : string :=
  let micro := d mod 1000000 in
  let fraction :=
    if micro =? 0 then ""%string else String "." (zero_padded 6 micro "") in
  (date_text d ++ String "T" (time_text d ++ fraction))%string.

(** SQLite's [datetime(...)]: date, space, time to the second. *)
Definition sqlite_datetime (d : datetime) : string :=
  (date_text d ++ String " " (time_text d))%string.

(** The clock readings of one run of the sweep, as UTC instants: when the
    first SELECT evaluates ['now'], and when the loops call
    [datetime.now()].  [utc_offset] is the host's offset from UTC in
    microseconds; [datetime.now()] returns UTC plus the offset. *)
Record sweep_clock := {
  utc_offset : Z;
  utc_query : datetime;
  bw_reading : nat -> datetime;
  ex_reading : nat -> datetime;
  ex_stamp_reading : nat -> datetime }.

Definition local_now (k : sweep_clock) (utc : datetime) : datetime :=
  utc + utc_offset k.

(** The environment of a run that takes place at those instants. *)
Definition sweep_at (k : sweep_clock) (due : DB -> list (end_user * Z))
  : sweep_env :=
  {| cutoff_3_days := sqlite_datetime (utc_query k - 3 * MICROS_PER_DAY);
     expiry_due := due;
     bw_stamp := fun i => isoformat (local_now k (bw_reading k i));
     ex_now := fun i => local_now k (ex_reading k i);
     ex_stamp := fun i => isoformat (local_now k (ex_stamp_reading k i)) |}.

(** ** Vocabulary of the further statements *)

(** The bandwidth the end users of a reseller have been granted, and their
    number, as the [end_users] table records them. *)
Definition allocated (rid : Z) (db : DB) : Z :=
  foldr Z.add 0
    (eu_bandwidth_limit
       <$> List.filter (fun u => eu_reseller_id u =? rid) (end_users db)).

Definition user_count (rid : Z) (db : DB) : Z :=
  Z.of_nat (List.length (List.filter (fun u => eu_reseller_id u =? rid) (end_users db))).

(** Every reseller row books exactly what its end users were granted. *)
Definition books_balance (db : DB) : Prop :=
  forall r, r ∈ resellers db ->
    bandwidth_used r = allocated (reseller_id r) db
    /\ current_users r = user_count (reseller_id r) db.

(** Every reseller row is within its two caps. *)
Definition within_caps (db : DB) : Prop :=
  forall r, r ∈ resellers db ->
    bandwidth_used r <= bandwidth_limit r /\ current_users r <= max_users r.

(** The primary and unique keys of the [end_users] table. *)
Definition end_user_keys_unique (db : DB) : Prop :=
  NoDup (user_id <$> end_users db)
  /\ NoDup (eu_marzban_username <$> end_users db).

(** The request [MarzbanAPI.login] sends. *)
Definition login_request (username password : string) : MarzbanAPI.request :=
  {| MarzbanAPI.method := MarzbanAPI.POST;
     MarzbanAPI.path := "/admin/token";
     MarzbanAPI.bearer := None;
     MarzbanAPI.body := MarzbanAPI.Credentials username password |}.

(** ** Further sample data *)

(** Two runs of the sweep on a host eight hours behind UTC: the first at
    2025-01-04 05:00:00 UTC, the second 2 days 22 hours 30 minutes later,
    at 2025-01-07 03:30:00 UTC; each reading of the clock comes one
    millisecond after the one before. *)
Definition hour : Z := 3600 * 1000000.

Definition run_behind_utc (start : datetime) : sweep_clock :=
  {| utc_offset := - 8 * hour;
     utc_query := start;
     bw_reading := fun i => start + 1000 * (Z.of_nat i + 1);
     ex_reading := fun i => start + 1000 * (Z.of_nat i + 1);
     ex_stamp_reading := fun i => start + 1000 * (Z.of_nat i + 1) |}.

Definition first_run_utc : datetime := day 739254 + 5 * hour.

Definition second_run_utc : datetime :=
  first_run_utc + 2 * MICROS_PER_DAY + 22 * hour + 30 * 60 * 1000000.

(** A second reseller, with an expiry date. *)
Definition second_reseller : reseller :=
  {| reseller_id := 2;
     telegram_id := 7002;
     username := "ivy";
     marzban_username := "reseller_ivy_5e6f7a8b";
     bandwidth_limit := 50 * GiB;
     bandwidth_used := 0;
     expiry_date := Some (day 739300);
     max_users := 5;
     current_users := 0;
     created_at := new_year_2025 |}.

Definition two_resellers_db : DB :=
  set_resellers [sample_reseller; second_reseller] sample_db.

(** The same reseller with a NULL expiry date. *)
Definition undated_reseller : reseller :=
  {| reseller_id := 2;
     telegram_id := 7002;
     username := "ivy";
     marzban_username := "reseller_ivy_5e6f7a8b";
     bandwidth_limit := 50 * GiB;
     bandwidth_used := 0;
     expiry_date := None;
     max_users := 5;
     current_users := 0;
     created_at := new_year_2025 |}.

Definition undated_db : DB := set_resellers [sample_reseller; undated_reseller] sample_db.

(** A panel no call gets through to. *)
Definition unreachable_panel : PanelAPI unit :=
  {| api_create_user := fun _ _ w => (inl (Transport "ConnectionError"), w);
     api_get_user_info := fun _ w => (inl (Transport "ConnectionError"), w);
     api_update_user := fun _ _ w => (inl (Transport "ConnectionError"), w) |}.

(** A panel that keeps the names of the accounts it was asked to create. *)
Definition recording_panel : PanelAPI (list string) :=
  {| api_create_user := fun name _ w =>
       (inr {| subscription_url := Some "https://panel/sub/x"%string;
               used_traffic := Some 0 |}, w ++ [name]);
     api_get_user_info := fun _ w =>
       (inr {| subscription_url := None; used_traffic := Some (5 * GiB) |}, w);
     api_update_user := fun _ _ w =>
       (inr {| subscription_url := None; used_traffic := None |}, w) |}.

(** The sample reseller with its whole budget handed out to end users. *)
Definition sold_out_reseller : reseller :=
  {| reseller_id := 1;
     telegram_id := 7001;
     username := "rose";
     marzban_username := "reseller_rose_0a1b2c3d";
     bandwidth_limit := 100 * GiB;
     bandwidth_used := 100 * GiB;
     expiry_date := Some (day 739281);
     max_users := 2;
     current_users := 1;
     created_at := new_year_2025 |}.

Definition sold_out_db : DB := set_resellers [sold_out_reseller] sample_db.

(** Two end users inside the warning window, and a bot whose delivery
    fails for the second of them. *)
Definition two_due_db : DB :=
  set_end_users [edge_user; user_with 2 "near" 100 50] sample_db.

Definition failing_bot : alert (H := symbolic_float) -> bool :=
  fun a =>
    match a with
    | BandwidthAlert _ uname _ => negb (String.eqb uname "near")
    | ExpiryAlert _ _ _ _ => true
    end.

Definition warned_two_due_db : DB := set_notifications [first_warning] two_due_db.

(** A gateway that has not logged in yet, and a panel server that hands
    out the token "tok" and answers every other request with status 200. *)
Definition fresh_gateway : MarzbanAPI.gateway :=
  {| MarzbanAPI.token := None;
     MarzbanAPI.panel := tt;
     MarzbanAPI.sent := [] |}.

Definition token_server (rq : MarzbanAPI.request) (s : unit)
  : (string + MarzbanAPI.response) * unit :=
  (inr {| MarzbanAPI.status_code := 200;
          MarzbanAPI.text := "OK";
          MarzbanAPI.json :=
            Some {| MarzbanAPI.access_token :=
                      if String.eqb (MarzbanAPI.path rq) "/admin/token"
                      then Some "tok"%string else None;
                    MarzbanAPI.user :=
                      {| subscription_url := Some "https://panel/sub/x"%string;
                         used_traffic := Some 0 |};
                    MarzbanAPI.users := None |} |}, s).

(** An [isoformat]/[fromisoformat] pair that knows two moments (enough to
    run the definitions; the statements are about any pair). *)
Definition sample_isoformat (d : datetime) : string :=
  if d =? new_year_2025 then "2025-01-01T00:00:00" else "0001-01-01T00:00:00".

Definition sample_fromisoformat (s : string) : exn + datetime :=
  if String.eqb s "2025-01-01T00:00:00" then inr new_year_2025
  else if String.eqb s "0001-01-01T00:00:00" then inr 0
  else inl ValueError.

(** The admins of [admins_db] after [set_admin_limits] with [max_days = 0]
    for the first of them at [new_year_2025]. *)
Definition admin_days_db : DB :=
  snd (AdminLimitsManager.set_admin_limits sample_isoformat new_year_2025
         admins_db "free" None None (Some 0)).

(** A bot database whose only known user is an admin, with no reseller
    yet, and one holding the sample reseller. *)
Definition fresh_bot_db : bot_db :=
  {| users := [{| bu_user_id := 1;
                  bu_telegram_id := 7002;
                  bu_username := "ivy";
                  bu_role := "admin";
                  bu_created_at := day 739000 |}];
     core := empty_db |}.

Definition sample_bot_db : bot_db :=
  {| users := [{| bu_user_id := 1;
                  bu_telegram_id := 7001;
                  bu_username := "rose";
                  bu_role := "reseller";
                  bu_created_at := new_year_2025 |}];
     core := sample_db |}.

Definition reseller_env : create_reseller_env :=
  {| cr_uuid_hex8 := "5e6f7a8b";
     cr_now_user := new_year_2025;
     cr_now_expiry := new_year_2025;
     cr_now_created := new_year_2025 |}.

(** An end user of the sample reseller whose expiry date is NULL. *)
Definition undated_user : end_user :=
  {| user_id := 1;
     eu_reseller_id := 1;
     eu_username := "ann";
     eu_marzban_username := "user_ann_11aa22bb";
     eu_bandwidth_limit := 60 * GiB;
     eu_bandwidth_used := 0;
     eu_expiry_date := None;
     eu_connection_limit := 3;
     eu_created_at := new_year_2025 |}.

Definition undated_user_db : DB := set_end_users [undated_user] sample_db.

(** * Properties *)

(** ** Connections *)

Lemma close_connect db : close (connect db) = db.
Proof. reflexivity. Qed.

Lemma close_execute f c : close (execute f c) = close c.
Proof. reflexivity. Qed.

Lemma close_commit c : close (commit c) = working c.
Proof. reflexivity. Qed.

(** ** End-user creation *)

Section Create_user_facts.
Context {W : Type}.
Variable marzban_api : option (PanelAPI W).

(** Every way [create_user] can end, with the database it leaves. *)
Lemma create_user_cases env db tid uname gb days cl (w : W) :
  let '(o, db', _) := create_user marzban_api env db tid uname gb days cl w in
  match o with
  | Success u =>
    exists r expiry,
      fetchone (fun r => telegram_id r =? tid) (resellers db) = Some r
      /\ current_users r < max_users r
      /\ bandwidth_used r + gb * 1024 ^ 3 <= bandwidth_limit r
      /\ db' = charge_reseller (reseller_id r) (gb * 1024 ^ 3)
                 (set_end_users
                    (end_users db ++
                       [{| user_id := cu_user_id u;
                           eu_reseller_id := reseller_id r;
                           eu_username := uname;
                           eu_marzban_username := cu_marzban_username u;
                           eu_bandwidth_limit := gb * 1024 ^ 3;
                           eu_bandwidth_used := 0;
                           eu_expiry_date := Some expiry;
                           eu_connection_limit := cl;
                           eu_created_at := now_created env |}]) db)
  | Failure _ => db' = db
  end.
Proof.
  unfold create_user, create_user_try. cbn [connect working].
  destruct (fetchone _ (resellers db)) as [r|] eqn:Hr; [|reflexivity].
  destruct (Z.geb_spec (current_users r) (max_users r)); [reflexivity|].
  destruct (Z.gtb_spec (bandwidth_used r + gb * 1024 ^ 3) (bandwidth_limit r));
    [reflexivity|].
  destruct (bind_exn (timedelta_days days) _) as [e|expiry]; [reflexivity|].
  destruct marzban_api as [api|].
  - destruct (api_create_user api _ _ w) as [[e|result] w1]; [reflexivity|].
    unfold insert_end_user. destruct (existsb _ _); [reflexivity|].
    cbn. exists r, expiry. repeat split; [lia | lia].
  - unfold insert_end_user. destruct (existsb _ _); [reflexivity|].
    cbn. exists r, expiry. repeat split; [lia | lia].
Qed.

(** The quota checks come first: a request over a cap is refused with the
    matching message whatever the rest of the input is. *)
Lemma create_user_over_cap env db tid uname gb days cl (w : W) r :
  fetchone (fun r => telegram_id r =? tid) (resellers db) = Some r ->
  current_users r >= max_users r
  \/ bandwidth_used r + gb * 1024 ^ 3 > bandwidth_limit r ->
  exists msg,
    quota_denied (A := created_user) (Failure msg) = true
    /\ create_user marzban_api env db tid uname gb days cl w = (Failure msg, db, w).
Proof.
  intros Hr Hover. unfold create_user, create_user_try. cbn [connect working].
  rewrite Hr.
  destruct (Z.geb_spec (current_users r) (max_users r)).
  { exists UserLimitReached. split; reflexivity. }
  destruct (Z.gtb_spec (bandwidth_used r + gb * 1024 ^ 3) (bandwidth_limit r)).
  { exists NotEnoughBandwidth. split; reflexivity. }
  lia.
Qed.

Lemma create_user_within_caps env db tid uname gb days cl (w : W) r :
  fetchone (fun r => telegram_id r =? tid) (resellers db) = Some r ->
  current_users r < max_users r ->
  bandwidth_used r + gb * 1024 ^ 3 <= bandwidth_limit r ->
  quota_denied (fst (fst (create_user marzban_api env db tid uname gb days cl w)))
  = false.
Proof.
  intros Hr Hu Hb. unfold create_user, create_user_try. cbn [connect working].
  rewrite Hr.
  destruct (Z.geb_spec (current_users r) (max_users r)); [lia|].
  destruct (Z.gtb_spec (bandwidth_used r + gb * 1024 ^ 3) (bandwidth_limit r));
    [lia|].
  destruct (bind_exn (timedelta_days days) _) as [e|expiry]; [reflexivity|].
  destruct marzban_api as [api|].
  - destruct (api_create_user api _ _ w) as [[e|result] w1]; [reflexivity|].
    destruct (insert_end_user _ _) as [e|[id db1]]; reflexivity.
  - destruct (insert_end_user _ _) as [e|[id db1]]; reflexivity.
Qed.

End Create_user_facts.

(** C1, as stated, fails: a reseller whose user cap is 0 is not unbounded in
    that dimension for [create_user].  With no users yet and 1 GiB asked of
    100 GiB, the specification's check allows the request and the code
    refuses it with the user-limit message. *)
Lemma create_user_zero_cap_is_a_cap :
  spec_check_allocation_denied 0 0 0 (100 * GiB) (1 * GiB) = false
  /\ create_user (W := unit) None first_env zero_cap_db 7001 "ann" 1 30 3 tt
     = (Failure UserLimitReached, zero_cap_db, tt).
Proof. split; reflexivity. Qed.

(** C1 (amended): for every reseller and every proposed end-user
    allocation, [create_user] refuses for lack of quota exactly when
    usedEntities + 1 > maxEntities or usedBytes + requestedBytes >
    limitBytes.  The two dimensions are checked independently, and a cap of
    0 is a cap like any other. *)
Theorem create_user_denies_exactly_over_cap
    {W : Type} (marzban_api : option (PanelAPI W)) env db tid uname gb days cl
    (w : W) r
    (Hr : fetchone (fun r => telegram_id r =? tid) (resellers db) = Some r) :
  quota_denied (fst (fst (create_user marzban_api env db tid uname gb days cl w)))
  = true
  <-> current_users r + 1 > max_users r
      \/ bandwidth_used r + gb * 1024 ^ 3 > bandwidth_limit r.
Proof.
  split.
  - intros Hd.
    destruct (Z_lt_ge_dec (current_users r) (max_users r)) as [Hu|Hu]; [|lia].
    destruct (Z_le_gt_dec (bandwidth_used r + gb * 1024 ^ 3) (bandwidth_limit r))
      as [Hb|Hb]; [|lia].
    rewrite (create_user_within_caps marzban_api env db tid uname gb days cl w r Hr Hu Hb)
      in Hd.
    discriminate.
  - intros Hover.
    destruct (create_user_over_cap marzban_api env db tid uname gb days cl w r Hr)
      as (msg & Hq & ->); [lia|]. exact Hq.
Qed.

Lemma create_user_denies_exactly_over_cap_witness :
  fetchone (fun r => telegram_id r =? 7001) (resellers db_after_first)
  = Some charged_reseller
  /\ (quota_denied
        (fst (fst (create_user (W := unit) None second_env db_after_first
                               7001 "bob" 50 30 3 tt))) = true
      <-> current_users charged_reseller + 1 > max_users charged_reseller
          \/ bandwidth_used charged_reseller + 50 * 1024 ^ 3
             > bandwidth_limit charged_reseller).
Proof.
  split; [reflexivity|].
  apply (create_user_denies_exactly_over_cap None second_env db_after_first
           7001 "bob" 50 30 3 tt charged_reseller).
  reflexivity.
Defined.

(** C2: [create_user] is all-or-nothing on a refusal.  Whenever the
    reseller has reached the user cap or the request would exceed the
    bandwidth cap, the call fails with a quota message and the database
    (reseller row, end users, ledger) and the panel are left exactly as
    they were. *)
Theorem create_user_denied_changes_nothing
    {W : Type} (marzban_api : option (PanelAPI W)) env db tid uname gb days cl
    (w : W) r
    (Hr : fetchone (fun r => telegram_id r =? tid) (resellers db) = Some r)
    (Hover : current_users r >= max_users r
             \/ bandwidth_used r + gb * 1024 ^ 3 > bandwidth_limit r) :
  exists msg,
    create_user marzban_api env db tid uname gb days cl w = (Failure msg, db, w).
Proof.
  destruct (create_user_over_cap marzban_api env db tid uname gb days cl w r Hr Hover)
    as (msg & _ & H).
  exists msg. exact H.
Qed.

(** The scenario of the specification: 60 GiB of 100 GiB are granted, then
    50 GiB more are refused and the stored usage stays at 60 GiB. *)
Lemma create_user_denied_changes_nothing_witness :
  (exists u, create_user (W := unit) None first_env sample_db 7001 "ann" 60 30 3 tt
             = (Success u, db_after_first, tt))
  /\ (bandwidth_used <$> resellers db_after_first) = [60 * GiB]
  /\ (exists msg,
        create_user (W := unit) None second_env db_after_first 7001 "bob" 50 30 3 tt
        = (Failure msg, db_after_first, tt)).
Proof.
  split; [eexists; reflexivity|].
  split; [reflexivity|].
  apply (create_user_denied_changes_nothing None second_env db_after_first
           7001 "bob" 50 30 3 tt
           charged_reseller).
  - reflexivity.
  - right. vm_compute. reflexivity.
Defined.

(** C6, as stated, fails: the successful creation of the scenario changes
    the reseller's budget and appends no row to [usage_log]. *)
Lemma successful_creation_writes_no_ledger_row :
  exists u,
    create_user (W := unit) None first_env sample_db 7001 "ann" 60 30 3 tt
    = (Success u, db_after_first, tt)
    /\ (bandwidth_used <$> resellers sample_db) = [0]
    /\ (bandwidth_used <$> resellers db_after_first) = [60 * GiB]
    /\ List.length (usage_log db_after_first)
       <> S (List.length (usage_log sample_db)).
Proof.
  eexists. split; [reflexivity|]. split; [reflexivity|]. split; [reflexivity|].
  vm_compute. discriminate.
Qed.

(** C6 (amended): a successful end-user creation inserts the end-user row
    and increments the reseller's [bandwidth_used] and [current_users] in
    one transaction: the connection sees exactly one commit, and the
    database it leaves has the new row at the end of [end_users], the
    stored [bandwidth_used] of the reseller raised by the allocation and
    its [current_users] raised by one, the other resellers and all limits
    being as before.  A failed creation commits nothing and leaves the
    database as it was.  In either case no row is written to
    [usage_log]. *)
Theorem create_user_commits_row_and_charge_together
    {W : Type} (marzban_api : option (PanelAPI W)) env db tid uname gb days cl
    (w : W) :
  let '(res, c, w') :=
    create_user_try marzban_api env tid uname gb days cl (connect db) w in
  create_user marzban_api env db tid uname gb days cl w
  = (match res with inl e => Failure (Raised e) | inr o => o end, close c, w')
  /\ usage_log (close c) = usage_log db
  /\ match res with
     | inr (Success u) =>
       commits c = 1%nat
       /\ exists r row,
           fetchone (fun r => telegram_id r =? tid) (resellers db) = Some r
           /\ user_id row = cu_user_id u
           /\ eu_reseller_id row = reseller_id r
           /\ eu_bandwidth_limit row = gb * 1024 ^ 3
           /\ end_users (close c) = end_users db ++ [row]
           /\ bandwidth_used <$> resellers (close c)
              = (fun x => if reseller_id x =? reseller_id r
                          then bandwidth_used x + gb * 1024 ^ 3
                          else bandwidth_used x) <$> resellers db
           /\ current_users <$> resellers (close c)
              = (fun x => if reseller_id x =? reseller_id r
                          then current_users x + 1
                          else current_users x) <$> resellers db
           /\ limits_view (close c) = limits_view db
     | _ => commits c = 0%nat /\ close c = db
     end.
Proof.
  unfold create_user.
  destruct (create_user_try marzban_api env tid uname gb days cl (connect db) w)
    as [[res c] w'] eqn:Htry.
  split; [reflexivity|].
  revert Htry. unfold create_user_try. cbn [connect working].
  destruct (fetchone _ (resellers db)) as [r|] eqn:Hr;
    [|intros [= <- <- <-]; repeat split].
  destruct (current_users r >=? max_users r);
    [intros [= <- <- <-]; repeat split|].
  destruct (bandwidth_used r + gb * 1024 ^ 3 >? bandwidth_limit r);
    [intros [= <- <- <-]; repeat split|].
  destruct (bind_exn (timedelta_days days) _) as [e|expiry];
    [intros [= <- <- <-]; repeat split|].
  assert (Hins : forall sub w1,
    match insert_end_user
            (fun id => {| user_id := id;
                          eu_reseller_id := reseller_id r;
                          eu_username := uname;
                          eu_marzban_username :=
                            ("user_" ++ uname ++ "_" ++ uuid_hex8 env)%string;
                          eu_bandwidth_limit := gb * 1024 ^ 3;
                          eu_bandwidth_used := 0;
                          eu_expiry_date := Some expiry;
                          eu_connection_limit := cl;
                          eu_created_at := now_created env |}) db with
    | inl e => (inl e, connect db, w1)
    | inr (new_id, db1) =>
      (inr (Success {| cu_user_id := new_id;
                       cu_username := uname;
                       cu_marzban_username :=
                         ("user_" ++ uname ++ "_" ++ uuid_hex8 env)%string;
                       cu_bandwidth_gb := gb;
                       cu_expiry_date := expiry;
                       cu_connection_limit := cl;
                       cu_subscription_url := sub |}),
       commit (execute (charge_reseller (reseller_id r) (gb * 1024 ^ 3))
                       (execute (fun _ => db1) (connect db))), w1)
    end = (res, c, w') ->
    usage_log (close c) = usage_log db
    /\ match res with
       | inr (Success u) =>
         commits c = 1%nat
         /\ exists r0 row,
             Some r = Some r0
             /\ user_id row = cu_user_id u
             /\ eu_reseller_id row = reseller_id r0
             /\ eu_bandwidth_limit row = gb * 1024 ^ 3
             /\ end_users (close c) = end_users db ++ [row]
             /\ bandwidth_used <$> resellers (close c)
                = (fun x => if reseller_id x =? reseller_id r0
                            then bandwidth_used x + gb * 1024 ^ 3
                            else bandwidth_used x) <$> resellers db
             /\ current_users <$> resellers (close c)
                = (fun x => if reseller_id x =? reseller_id r0
                            then current_users x + 1
                            else current_users x) <$> resellers db
             /\ limits_view (close c) = limits_view db
       | _ => commits c = 0%nat /\ close c = db
       end).
  { intros sub w1. unfold insert_end_user. cbn [eu_marzban_username].
    destruct (existsb _ _); [intros [= <- <- <-]; repeat split|].
    intros [= <- <- <-]. split; [reflexivity|]. split; [reflexivity|].
    exists r,
      {| user_id := next_rowid (user_id <$> end_users db);
         eu_reseller_id := reseller_id r;
         eu_username := uname;
         eu_marzban_username := ("user_" ++ uname ++ "_" ++ uuid_hex8 env)%string;
         eu_bandwidth_limit := gb * 1024 ^ 3;
         eu_bandwidth_used := 0;
         eu_expiry_date := Some expiry;
         eu_connection_limit := cl;
         eu_created_at := now_created env |}.
    split; [reflexivity|].
    split; [reflexivity|]. split; [reflexivity|]. split; [reflexivity|].
    split; [reflexivity|].
    unfold close, commit, execute, charge_reseller, limits_view.
    cbn [committed working connect resellers set_resellers set_end_users].
    split; [|split]; rewrite <- list_fmap_compose; apply list_fmap_ext;
      intros i x _; cbn; destruct (reseller_id x =? reseller_id r); reflexivity. }
  destruct marzban_api as [api|].
  - destruct (api_create_user api _ _ w) as [[e|result] w1];
      [intros [= <- <- <-]; repeat split|].
    apply Hins.
  - apply Hins.
Qed.

(** ** Pagination *)

(** [(n + size - 1) // size] is the ceiling of [n / size] for a positive
    page size and a positive count. *)
Lemma pages_is_ceiling n size :
  0 < size -> 0 < n ->
  (n + size - 1) `div` size * size - size < n <= (n + size - 1) `div` size * size.
Proof.
  intros Hs Hn.
  pose proof (Z.div_mod (n + size - 1) size ltac:(lia)) as Hdm.
  pose proof (Z.mod_pos_bound (n + size - 1) size Hs) as Hb.
  nia.
Qed.

Section Listing_facts.
Context `{Float}.

Lemma limit_offset_nil {A} lim off : limit_offset (A := A) lim off [] = [].
Proof.
  unfold limit_offset. rewrite drop_nil. destruct (lim <? 0); [reflexivity|].
  apply take_nil.
Qed.

(** [list_users_for_reseller] has the special case: a reseller without end
    users gets an empty first page and [total_pages = 1]. *)
Lemma list_users_empty_has_one_page now db tid page page_size r :
  fetchone (fun r => telegram_id r =? tid) (resellers db) = Some r ->
  List.filter (fun u => eu_reseller_id u =? reseller_id r) (end_users db) = [] ->
  list_users_for_reseller now db tid page page_size = (Success [], 1).
Proof.
  intros Hr He. unfold list_users_for_reseller. rewrite Hr, He.
  cbn [List.length Z.of_nat]. rewrite limit_offset_nil. reflexivity.
Qed.

(** With rows to show, both listings report the ceiling of count over page
    size. *)
Lemma list_users_pages now db tid page page_size r items pages :
  fetchone (fun r => telegram_id r =? tid) (resellers db) = Some r ->
  list_users_for_reseller now db tid page page_size = (Success items, pages) ->
  let count :=
    Z.of_nat (List.length
                (List.filter (fun u => eu_reseller_id u =? reseller_id r)
                             (end_users db))) in
  pages = if count >? 0 then (count + page_size - 1) `div` page_size else 1.
Proof.
  intros Hr. unfold list_users_for_reseller. rewrite Hr.
  set (count := Z.of_nat _). cbn zeta.
  destruct (count >? 0).
  - unfold floordiv. destruct (page_size =? 0); [discriminate|].
    cbn [bind_exn].
    destruct (for_rows _ _ _); cbn [bind_exn]; intros [= _ <-]. reflexivity.
  - cbn [bind_exn].
    destruct (for_rows _ _ _); cbn [bind_exn]; intros [= _ <-]. reflexivity.
Qed.

Lemma list_resellers_pages now db page page_size items pages :
  list_resellers now db page page_size = (Success items, pages) ->
  pages = (Z.of_nat (List.length (resellers db)) + page_size - 1) `div` page_size.
Proof.
  unfold list_resellers, floordiv. destruct (page_size =? 0); [discriminate|].
  cbn [bind_exn].
  destruct (for_rows _ _ _); cbn [bind_exn]; intros [= _ <-]. reflexivity.
Qed.

End Listing_facts.

(** The two numbers of the specification: 25 rows in pages of 10 are 3
    pages under either formula. *)
Example pages_25_by_10 : (25 + 10 - 1) `div` 10 = 3.
Proof. reflexivity. Qed.

(** C4: the listing of a reseller's users keeps the promised minimum of one
    page, but [list_resellers] applies the bare ceiling formula: on an
    empty [resellers] table, page size 10, it succeeds with an empty list
    and reports [total_pages = 0], not 1. *)
Theorem list_resellers_empty_reports_zero_pages (F : Float) now page :
  list_resellers now empty_db page 10 = (Success [], 0).
Proof.
  unfold list_resellers. cbn [empty_db resellers List.length Z.of_nat].
  rewrite limit_offset_nil. reflexivity.
Qed.

(** ** The bandwidth record of the info readers *)

Section Info_facts.
Context `{Float}.

Lemma percent_total used limit :
  percent used limit =
  inr (if limit >? 0 then Flt (round2 (fmul (fdiv used limit) 100)) else Int 0).
Proof.
  unfold percent, truediv. destruct (Z.gtb_spec limit 0); [|reflexivity].
  destruct (Z.eqb_spec limit 0); [lia|]. reflexivity.
Qed.

Lemma bandwidth_dict_total limit used :
  exists bw,
    bandwidth_dict limit used = inr bw
    /\ limit_bytes bw = limit
    /\ used_bytes bw = used
    /\ safe_bandwidth bw.
Proof.
  unfold bandwidth_dict, truediv.
  change (1024 ^ 3 =? 0) with false. cbn [bind_exn].
  rewrite percent_total. cbn [bind_exn].
  eexists. split; [reflexivity|]. unfold safe_bandwidth. cbn.
  repeat split. lia.
Qed.

Context {W : Type}.
Variable marzban_api : option (PanelAPI W).

Lemma get_reseller_info_bandwidth now db tid rid mname (w : W) :
  match fst (fst (get_reseller_info marzban_api now db tid rid mname w)) with
  | Success info => safe_bandwidth (ri_bandwidth info)
  | Failure msg => msg <> Raised ZeroDivisionError
  end.
Proof.
  unfold get_reseller_info, get_reseller_info_try.
  destruct (reseller_query tid rid mname) as [p|]; [|cbn; discriminate].
  destruct (fetchone p _) as [r|]; [|cbn; discriminate].
  destruct (refresh_usage _ _ _ _ _ _) as [[used c1] w1].
  destruct (expiry_date r) as [e|]; [|cbn; discriminate].
  cbn [parse_expiry bind_exn].
  destruct (bandwidth_dict_total (bandwidth_limit r) used) as (bw & -> & _ & _ & Hs).
  cbn. exact Hs.
Qed.

Lemma get_user_info_bandwidth now db uid mname (w : W) :
  match fst (fst (get_user_info marzban_api now db uid mname w)) with
  | Success info => safe_bandwidth (ui_bandwidth info)
  | Failure msg => msg <> Raised ZeroDivisionError
  end.
Proof.
  unfold get_user_info, get_user_info_try.
  destruct (truthy_int uid) as [i|].
  - destruct (fetchone _ _) as [u|]; [|cbn; discriminate].
    destruct (refresh_usage _ _ _ _ _ _) as [[used c1] w1].
    destruct (eu_expiry_date u) as [e|]; [|cbn; discriminate].
    cbn [parse_expiry bind_exn].
    destruct (bandwidth_dict_total (eu_bandwidth_limit u) used) as (bw & -> & _ & _ & Hs).
    cbn. exact Hs.
  - destruct (truthy_str mname) as [n|]; [|cbn; discriminate].
    destruct (fetchone _ _) as [u|]; [|cbn; discriminate].
    destruct (refresh_usage _ _ _ _ _ _) as [[used c1] w1].
    destruct (eu_expiry_date u) as [e|]; [|cbn; discriminate].
    cbn [parse_expiry bind_exn].
    destruct (bandwidth_dict_total (eu_bandwidth_limit u) used) as (bw & -> & _ & _ & Hs).
    cbn. exact Hs.
Qed.

End Info_facts.

(** C10: every successful [get_reseller_info] or [get_user_info] returns a
    bandwidth record whose [remaining_bytes] is max(0, limit - used), hence
    never negative, and whose [percent_used] is 0 whenever the limit is not
    positive; the division by the limit is only reached with a positive
    limit, so neither call ever fails with ZeroDivisionError. *)
Theorem info_bandwidth_is_clamped_and_guarded
    (F : Float) {W : Type} (marzban_api : option (PanelAPI W))
    now db tid rid uid mname (w : W) :
  match fst (fst (get_reseller_info marzban_api now db tid rid mname w)) with
  | Success info => safe_bandwidth (ri_bandwidth info)
  | Failure msg => msg <> Raised ZeroDivisionError
  end
  /\ match fst (fst (get_user_info marzban_api now db uid mname w)) with
     | Success info => safe_bandwidth (ui_bandwidth info)
     | Failure msg => msg <> Raised ZeroDivisionError
     end.
Proof.
  split.
  - apply get_reseller_info_bandwidth.
  - apply get_user_info_bandwidth.
Qed.

(** Usage above the limit: 5 GiB used of a 1 GiB limit leave 0 bytes. *)
Example remaining_is_clamped :
  match bandwidth_dict (H := symbolic_float) (1 * GiB) (5 * GiB) with
  | inr bw => Some (remaining_bytes bw)
  | inl _ => None
  end = Some 0.
Proof. reflexivity. Qed.

(** ** Extending a reseller *)

Lemma limits_view_store_usage rid used db :
  limits_view (store_reseller_usage rid used db) = limits_view db.
Proof.
  unfold limits_view, store_reseller_usage. cbn [resellers set_resellers].
  rewrite <- list_fmap_compose. apply list_fmap_ext.
  intros i r _. cbn. destruct (reseller_id r =? rid); reflexivity.
Qed.

Lemma fetchone_elem_of {A} (p : A -> bool) rows r :
  fetchone p rows = Some r -> r ∈ rows /\ p r = true.
Proof.
  intros Hf. apply find_some in Hf as [Hin Hp].
  split; [apply list_elem_of_In; exact Hin | exact Hp].
Qed.

Section Update_facts.
Context `{Float}.
Context {W : Type}.
Variable marzban_api : option (PanelAPI W).

(** The refresh either leaves the connection alone or commits one
    overwrite of the stored usage. *)
Lemma refresh_usage_cases name stored store c (w : W) :
  let '(used, c1, _) := refresh_usage marzban_api name stored store c w in
  c1 = c \/ c1 = commit (execute (store used) c).
Proof.
  unfold refresh_usage. destruct marzban_api as [api|]; [|left; reflexivity].
  destruct (String.eqb name ""); [left; reflexivity|].
  destruct (api_get_user_info api name w) as [[e|user_data] w1].
  - left; reflexivity.
  - right; reflexivity.
Qed.

(** What a successful [get_reseller_info] says about the row it found, and
    the database it leaves. *)
Lemma get_reseller_info_success now db tid rid mname (w : W) info db1 w1 :
  get_reseller_info marzban_api now db tid rid mname w = (Success info, db1, w1) ->
  exists p r e,
    reseller_query tid rid mname = Some p
    /\ fetchone p (resellers db) = Some r
    /\ expiry_date r = Some e
    /\ ri_expiry_date info = e
    /\ ri_reseller_id info = reseller_id r
    /\ ri_marzban_username info = marzban_username r
    /\ limit_bytes (ri_bandwidth info) = bandwidth_limit r
    /\ ri_users_max info = max_users r
    /\ (db1 = db
        \/ db1 = store_reseller_usage (reseller_id r)
                   (used_bytes (ri_bandwidth info)) db).
Proof.
  unfold get_reseller_info, get_reseller_info_try. cbn [connect working].
  destruct (reseller_query tid rid mname) as [p|]; [|discriminate].
  destruct (fetchone p (resellers db)) as [r|] eqn:Hr; [|discriminate].
  pose proof (refresh_usage_cases (marzban_username r) (bandwidth_used r)
                (store_reseller_usage (reseller_id r)) (connect db) w) as Hc.
  destruct (refresh_usage _ _ _ _ _ _) as [[used c1] w2].
  destruct (expiry_date r) as [e|] eqn:He; [|discriminate].
  cbn [parse_expiry bind_exn].
  destruct (bandwidth_dict_total (bandwidth_limit r) used)
    as (bw & Hbw & Hl & Hu & _).
  rewrite Hbw. cbn [bind_exn].
  intros [= <- <- <-]. exists p, r, e. cbn.
  repeat split; try assumption; try reflexivity.
  rewrite Hu. destruct Hc as [-> | ->]; [left|right]; reflexivity.
Qed.

(** Whatever [get_reseller_info] returns, it leaves the stored limits and
    the other tables as they were. *)
Lemma get_reseller_info_frame now db tid rid mname (w : W) :
  let db1 := snd (fst (get_reseller_info marzban_api now db tid rid mname w)) in
  limits_view db1 = limits_view db
  /\ end_users db1 = end_users db
  /\ notifications db1 = notifications db
  /\ usage_log db1 = usage_log db.
Proof.
  unfold get_reseller_info, get_reseller_info_try. cbn [connect working].
  destruct (reseller_query tid rid mname) as [p|]; [|cbn; tauto].
  destruct (fetchone p (resellers db)) as [r|]; [|cbn; tauto].
  pose proof (refresh_usage_cases (marzban_username r) (bandwidth_used r)
                (store_reseller_usage (reseller_id r)) (connect db) w) as Hc.
  destruct (refresh_usage _ _ _ _ _ _) as [[used c1] w2].
  cbn [fst snd]. destruct Hc as [-> | ->].
  - cbn. tauto.
  - rewrite close_commit. cbn [execute working connect].
    rewrite limits_view_store_usage. cbn. tauto.
Qed.

(** Every way [update_reseller_limits] can end. *)
Lemma update_reseller_limits_cases now db rid tid mname abw ad au (w : W) :
  let '(info, db1, w1) := get_reseller_info marzban_api now db tid rid mname w in
  let '(o, db', _) :=
    update_reseller_limits marzban_api now db rid tid mname abw ad au w in
  match o with
  | Success _ =>
    exists reseller td new_expiry,
      info = Success reseller
      /\ timedelta_days ad = inr td
      /\ datetime_add (ri_expiry_date reseller) td = inr new_expiry
      /\ db' = store_reseller_limits (ri_reseller_id reseller)
                 (limit_bytes (ri_bandwidth reseller) + abw * 1024 ^ 3)
                 new_expiry (ri_users_max reseller + au) db1
  | Failure _ => db' = db1
  end.
Proof.
  unfold update_reseller_limits, update_reseller_limits_try.
  destruct (get_reseller_info marzban_api now db tid rid mname w)
    as [[[reseller|msg] db1] w1]; [|reflexivity].
  destruct (timedelta_days ad) as [e|td] eqn:Htd; [reflexivity|].
  cbn [bind_exn].
  destruct (datetime_add (ri_expiry_date reseller) td) as [e|new_expiry] eqn:Hadd;
    [reflexivity|].
  destruct marzban_api as [api|].
  - destruct (api_update_user api _ _ w1) as [[e|u] w2]; [reflexivity|].
    cbn. exists reseller, td, new_expiry. repeat split; assumption.
  - cbn. exists reseller, td, new_expiry. repeat split; assumption.
Qed.

(** Without a panel the extension succeeds whenever the row is found, has
    an expiry date and the new date is one Python can represent. *)
Lemma update_reseller_limits_succeeds now db rid tid mname abw ad au (w : W) p r e :
  marzban_api = None ->
  reseller_query tid rid mname = Some p ->
  fetchone p (resellers db) = Some r ->
  expiry_date r = Some e ->
  Z.abs ad <= 999999999 ->
  datetime_in_range (e + ad * MICROS_PER_DAY) = true ->
  exists msg db',
    update_reseller_limits marzban_api now db rid tid mname abw ad au w
    = (Success msg, db', w).
Proof.
  intros Hapi Hq Hr He Had Hrange.
  unfold update_reseller_limits, update_reseller_limits_try,
    get_reseller_info, get_reseller_info_try, refresh_usage.
  rewrite Hapi, Hq. cbn [connect working]. rewrite Hr, He.
  cbn [parse_expiry bind_exn].
  destruct (bandwidth_dict_total (bandwidth_limit r) (bandwidth_used r))
    as (bw & -> & _ & _ & _).
  cbn [bind_exn ri_expiry_date]. unfold timedelta_days.
  destruct (Z.leb_spec (Z.abs ad) 999999999); [|lia].
  cbn [bind_exn]. unfold datetime_add. rewrite Hrange.
  eexists _, _. reflexivity.
Qed.

End Update_facts.

(** C3: when [update_reseller_limits] succeeds for a reseller whose stored
    expiry date is [e], every row of that reseller afterwards carries the
    expiry [e] plus [add_days] days, whatever the current time [now] is.
    The extension starts from the stored expiry, not from the present. *)
Theorem update_extends_from_stored_expiry
    (F : Float) {W : Type} (marzban_api : option (PanelAPI W))
    now db rid tid mname abw ad au (w : W) p r e msg db' w'
    (Hq : reseller_query tid rid mname = Some p)
    (Hr : fetchone p (resellers db) = Some r)
    (He : expiry_date r = Some e)
    (Hok : update_reseller_limits marzban_api now db rid tid mname abw ad au w
           = (Success msg, db', w')) :
  (exists x, x ∈ resellers db' /\ reseller_id x = reseller_id r)
  /\ (forall x, x ∈ resellers db' -> reseller_id x = reseller_id r ->
                expiry_date x = Some (e + ad * MICROS_PER_DAY)).
Proof.
  pose proof (update_reseller_limits_cases marzban_api now db rid tid mname
                abw ad au w) as Hc.
  destruct (get_reseller_info marzban_api now db tid rid mname w)
    as [[info db1] w1] eqn:Hinfo.
  rewrite Hok in Hc.
  destruct Hc as (reseller & td & new_expiry & -> & Htd & Hadd & ->).
  apply get_reseller_info_success in Hinfo
    as (p0 & r0 & e0 & Hq0 & Hr0 & He0 & Hie & Hid & _ & _ & _ & Hdb1).
  rewrite Hq in Hq0. injection Hq0 as <-.
  rewrite Hr in Hr0. injection Hr0 as <-.
  rewrite He in He0. injection He0 as <-.
  assert (Hnew : new_expiry = e + ad * MICROS_PER_DAY).
  { unfold timedelta_days in Htd.
    destruct (Z.abs ad <=? 999999999); [|discriminate].
    injection Htd as <-. unfold datetime_add in Hadd. rewrite Hie in Hadd.
    destruct (datetime_in_range _); [|discriminate].
    injection Hadd as <-. reflexivity. }
  rewrite Hid, Hnew. clear Hnew Hadd Htd.
  apply fetchone_elem_of in Hr as [Hin _].
  assert (Hin1 : exists r1, r1 ∈ resellers db1 /\ reseller_id r1 = reseller_id r).
  { destruct Hdb1 as [-> | ->]; [exists r; split; [exact Hin|reflexivity]|].
    unfold store_reseller_usage. cbn [resellers set_resellers].
    eexists. split; [apply list_elem_of_fmap_2; exact Hin|].
    destruct (reseller_id r =? reseller_id r); reflexivity. }
  unfold store_reseller_limits. cbn [resellers set_resellers]. split.
  - destruct Hin1 as (r1 & Hr1 & Hid1).
    eexists. split; [apply list_elem_of_fmap_2; exact Hr1|].
    destruct (reseller_id r1 =? reseller_id r); cbn; exact Hid1.
  - intros x Hx Hxid. apply list_elem_of_fmap_1 in Hx as (y & -> & Hy).
    destruct (Z.eqb_spec (reseller_id y) (reseller_id r)) as [Heq|Hne].
    + reflexivity.
    + contradiction.
Qed.

Lemma update_extends_from_stored_expiry_witness :
  (expiry_date <$> resellers db_after_extend)
  = [Some (new_year_2025 + 8 * MICROS_PER_DAY)]
  /\ (exists x, x ∈ resellers db_after_extend
                /\ reseller_id x = reseller_id expired_reseller)
  /\ (forall x, x ∈ resellers db_after_extend ->
                reseller_id x = reseller_id expired_reseller ->
                expiry_date x
                = Some (new_year_2025 - 2 * MICROS_PER_DAY + 10 * MICROS_PER_DAY)).
Proof.
  split; [reflexivity|].
  apply (update_extends_from_stored_expiry symbolic_float None
           new_year_2025 expired_db (Some 1) None None 0 10 0 tt
           (fun r => reseller_id r =? 1) expired_reseller
           (new_year_2025 - 2 * MICROS_PER_DAY)
           [DaysAdded 10] db_after_extend tt); reflexivity.
Defined.

(** A failed extension, for whatever reason, leaves the stored limits of
    every reseller as they were: they change only on success. *)
Lemma update_failure_keeps_limits
    (F : Float) {W : Type} (marzban_api : option (PanelAPI W))
    now db rid tid mname abw ad au (w : W) msg db' w' :
  update_reseller_limits marzban_api now db rid tid mname abw ad au w
  = (Failure msg, db', w') ->
  limits_view db' = limits_view db.
Proof.
  intros Hfail.
  pose proof (update_reseller_limits_cases marzban_api now db rid tid mname
                abw ad au w) as Hc.
  pose proof (get_reseller_info_frame marzban_api now db tid rid mname w) as Hf.
  destruct (get_reseller_info marzban_api now db tid rid mname w)
    as [[info db1] w1].
  rewrite Hfail in Hc. subst db'. apply Hf.
Qed.

(** C9: when the panel rejects the update of an extension, the call fails
    with the panel's error, the UPDATE of the limits and its commit are
    never run, and the stored [bandwidth_limit], [expiry_date] and
    [max_users] of every reseller are what they were before the call.  The
    database is the one the preceding [get_reseller_info] left. *)
Theorem update_skips_commit_when_panel_fails
    (F : Float) {W : Type} (api : PanelAPI W)
    now db rid tid mname abw ad au (w : W) info db1 w1 td new_expiry e w2
    (Hinfo : get_reseller_info (Some api) now db tid rid mname w
             = (Success info, db1, w1))
    (Htd : timedelta_days ad = inr td)
    (Hadd : datetime_add (ri_expiry_date info) td = inr new_expiry)
    (Hfail : api_update_user api (ri_marzban_username info)
               {| data_limit := limit_bytes (ri_bandwidth info) + abw * 1024 ^ 3;
                  expire := new_expiry;
                  connection_limit := None |} w1
             = (inl e, w2)) :
  update_reseller_limits (Some api) now db rid tid mname abw ad au w
  = (Failure (PanelUpdateFailed e), db1, w2)
  /\ limits_view db1 = limits_view db.
Proof.
  assert (Hres : update_reseller_limits (Some api) now db rid tid mname abw ad au w
                 = (Failure (PanelUpdateFailed e), db1, w2)).
  { unfold update_reseller_limits, update_reseller_limits_try.
    rewrite Hinfo, Htd. cbn [bind_exn]. rewrite Hadd, Hfail. reflexivity. }
  split; [exact Hres|].
  exact (update_failure_keeps_limits F (Some api) now db rid tid mname
           abw ad au w _ _ _ Hres).
Qed.

Lemma update_skips_commit_when_panel_fails_witness :
  update_reseller_limits (H := symbolic_float) (Some rejecting_panel)
    new_year_2025 sample_db (Some 1) None None 10 10 1 tt
  = (Failure (PanelUpdateFailed (HttpStatus 500 "Internal Server Error")),
     store_reseller_usage 1 (5 * GiB) sample_db, tt)
  /\ limits_view (store_reseller_usage 1 (5 * GiB) sample_db)
     = limits_view sample_db.
Proof.
  eapply (update_skips_commit_when_panel_fails symbolic_float rejecting_panel
            new_year_2025 sample_db (Some 1) None None 10 10 1 tt);
    reflexivity.
Defined.

(** The same extension against a panel that accepts it goes through. *)
Example update_commits_when_panel_accepts :
  limits_view
    (snd (fst (update_reseller_limits (H := symbolic_float) (Some accepting_panel)
                 new_year_2025 sample_db (Some 1) None None 10 10 1 tt)))
  = [(1, 110 * GiB, Some (day 739291), 3)].
Proof. reflexivity. Qed.

(** ** The bandwidth-warning sweep *)

(** C7: the first SELECT of the sweep returns an end user, paired with the
    Telegram id of the owning reseller, exactly when the remaining
    bandwidth [bandwidth_limit - bandwidth_used] lies in the half-open
    interval (0, 322122547200] (322122547200 bytes = 300 GiB) and the user
    has no bandwidth warning newer than the cutoff.  A remainder of
    exactly 322122547200 qualifies; 322122547201, zero and negative
    remainders do not. *)
Theorem bandwidth_warning_window cutoff db u tg :
  (u, tg) ∈ select_bandwidth_warnings cutoff db
  <-> u ∈ end_users db
      /\ (exists r, r ∈ resellers db
                    /\ reseller_id r = eu_reseller_id u
                    /\ telegram_id r = tg)
      /\ 0 < eu_bandwidth_limit u - eu_bandwidth_used u <= 322122547200
      /\ warned_since "bandwidth_warning" cutoff (notifications db) (user_id u)
         = false.
Proof.
  unfold select_bandwidth_warnings.
  rewrite list_elem_of_In, in_flat_map. split.
  - intros (v & Hv & Hin). apply in_flat_map in Hin as (r & Hr & Hin).
    destruct (Z.eqb_spec (eu_reseller_id v) (reseller_id r)) as [Hid|];
      [|destruct Hin].
    destruct (Z.leb_spec (eu_bandwidth_limit v - eu_bandwidth_used v) 322122547200);
      [|destruct Hin].
    destruct (Z.gtb_spec (eu_bandwidth_limit v - eu_bandwidth_used v) 0);
      [|destruct Hin].
    destruct (warned_since _ _ _ _) eqn:Hw; [destruct Hin|].
    destruct Hin as [[= <- <-]|[]].
    split; [apply list_elem_of_In; exact Hv|].
    split; [exists r; split; [apply list_elem_of_In; exact Hr|auto]|].
    split; [lia|exact Hw].
  - intros (Hu & (r & Hr & Hid & Htg) & Hrem & Hw).
    exists u. split; [apply list_elem_of_In; exact Hu|].
    apply in_flat_map. exists r. split; [apply list_elem_of_In; exact Hr|].
    rewrite Hw, <- Hid, Z.eqb_refl.
    destruct (Z.leb_spec (eu_bandwidth_limit u - eu_bandwidth_used u) 322122547200);
      [|lia].
    destruct (Z.gtb_spec (eu_bandwidth_limit u - eu_bandwidth_used u) 0); [|lia].
    left. rewrite Htg. reflexivity.
Qed.

(** The boundary on concrete rows: of four users with 322122547200,
    322122547201, 0 and -10 bytes left, the sweep selects the first only. *)
Example bandwidth_warning_boundary :
  select_bandwidth_warnings "2025-01-01 09:00:00" sweep_db = [(edge_user, 7001)].
Proof. reflexivity. Qed.

(** How SQLite's text comparison reads the stored stamps: a stamp of a
    later date is newer than the cutoff, and so is any stamp of the
    cutoff's own date, since the letter T sorts after the blank. *)
Example stamp_of_later_date_is_newer :
  text_gt "2025-01-04T09:00:00.123456" "2025-01-03 09:00:00" = true.
Proof. reflexivity. Qed.

Example stamp_of_cutoff_date_is_newer :
  text_gt "2025-01-03T00:00:01" "2025-01-03 09:00:00" = true.
Proof. reflexivity. Qed.

Example stamp_of_earlier_date_is_older :
  text_gt "2025-01-02T23:59:59.999999" "2025-01-03 09:00:00" = false.
Proof. reflexivity. Qed.

(** The same characterisation, for use in the proofs below. *)
Lemma selected_iff cutoff db u tg :
  (u, tg) ∈ select_bandwidth_warnings cutoff db
  <-> u ∈ end_users db
      /\ (exists r, r ∈ resellers db
                    /\ reseller_id r = eu_reseller_id u
                    /\ telegram_id r = tg)
      /\ 0 < eu_bandwidth_limit u - eu_bandwidth_used u <= 322122547200
      /\ warned_since "bandwidth_warning" cutoff (notifications db) (user_id u)
         = false.
Proof.
  unfold select_bandwidth_warnings.
  rewrite list_elem_of_In, in_flat_map. split.
  - intros (v & Hv & Hin). apply in_flat_map in Hin as (r & Hr & Hin).
    destruct (Z.eqb_spec (eu_reseller_id v) (reseller_id r)) as [Hid|];
      [|destruct Hin].
    destruct (Z.leb_spec (eu_bandwidth_limit v - eu_bandwidth_used v) 322122547200);
      [|destruct Hin].
    destruct (Z.gtb_spec (eu_bandwidth_limit v - eu_bandwidth_used v) 0);
      [|destruct Hin].
    destruct (warned_since _ _ _ _) eqn:Hw; [destruct Hin|].
    destruct Hin as [[= <- <-]|[]].
    split; [apply list_elem_of_In; exact Hv|].
    split; [exists r; split; [apply list_elem_of_In; exact Hr|auto]|].
    split; [lia|exact Hw].
  - intros (Hu & (r & Hr & Hid & Htg) & Hrem & Hw).
    exists u. split; [apply list_elem_of_In; exact Hu|].
    apply in_flat_map. exists r. split; [apply list_elem_of_In; exact Hr|].
    rewrite Hw, <- Hid, Z.eqb_refl.
    destruct (Z.leb_spec (eu_bandwidth_limit u - eu_bandwidth_used u) 322122547200);
      [|lia].
    destruct (Z.gtb_spec (eu_bandwidth_limit u - eu_bandwidth_used u) 0); [|lia].
    left. rewrite Htg. reflexivity.
Qed.

(** In general: an [isoformat()] stamp (date, the letter T, time) against
    a cutoff in SQLite's format (date, a blank, time) is decided by the two
    dates alone, and equal dates count as newer.  The cool-down therefore
    ends with the day of the cutoff, never before three days have passed
    on the clock that wrote the stamp. *)
Lemma compare_stamp_with_cutoff (d1 d2 r1 r2 : string) :
  String.length d1 = String.length d2 ->
  String.compare (d1 ++ String "T" r1) (d2 ++ String " " r2)
  = match String.compare d1 d2 with
    | Eq => Gt
    | c => c
    end.
Proof.
  revert d2. induction d1 as [|c1 d1 IH]; intros [|c2 d2] Hlen;
    try discriminate Hlen.
  - reflexivity.
  - change (String.compare (String c1 d1 ++ String "T" r1)
                           (String c2 d2 ++ String " " r2))
      with (match Ascii.compare c1 c2 with
            | Eq => String.compare (d1 ++ String "T" r1) (d2 ++ String " " r2)
            | ne => ne
            end).
    change (String.compare (String c1 d1) (String c2 d2))
      with (match Ascii.compare c1 c2 with
            | Eq => String.compare d1 d2
            | ne => ne
            end).
    destruct (Ascii.compare c1 c2); [|reflexivity|reflexivity].
    apply IH. injection Hlen as Hlen. exact Hlen.
Qed.

Lemma stamp_is_newer_iff_date_not_earlier (d1 d2 r1 r2 : string) :
  String.length d1 = String.length d2 ->
  text_gt (d1 ++ String "T" r1) (d2 ++ String " " r2) = true
  <-> String.compare d1 d2 <> Lt.
Proof.
  intros Hlen. unfold text_gt. rewrite (compare_stamp_with_cutoff _ _ _ _ Hlen).
  destruct (String.compare d1 d2); split; intros; congruence.
Qed.

Lemma set_notifications_id db : set_notifications (notifications db ++ []) db = db.
Proof. destruct db. unfold set_notifications. cbn. rewrite app_nil_r. reflexivity. Qed.

Lemma count_notifications_app kind uid db extra :
  count_notifications kind uid (set_notifications (notifications db ++ extra) db)
  = Nat.add (count_notifications kind uid db)
            (List.length (List.filter (fun n => (n_user_id n =? uid)
                                                && String.eqb (notification_type n) kind)
                                      extra)).
Proof.
  unfold count_notifications. cbn [notifications set_notifications].
  rewrite List.filter_app, List.length_app. reflexivity.
Qed.

Lemma filter_none {A} (p : A -> bool) l :
  Forall (fun x => p x = false) l -> List.filter p l = [].
Proof.
  induction 1 as [|x l Hx _ IH]; [reflexivity|]. cbn. rewrite Hx. exact IH.
Qed.

Section Sweep_facts.
Context `{Float}.
Variable bot : option (alert -> bool).

Lemma warn_bandwidth_inv env rows : forall i c out,
  let '(r, out') := warn_bandwidth bot env i rows c out in
  (exists new, out' = out ++ new /\ Forall (fun a => exists row, row ∈ rows /\ a = alert_of row) new)
  /\ match r with
     | inl _ => True
     | inr c' =>
       committed c' = committed c
       /\ exists extra,
           working c' = set_notifications (notifications (working c) ++ extra)
                                          (working c)
           /\ Forall (fun n => notification_type n = "bandwidth_warning"%string
                               /\ exists row, row ∈ rows
                                              /\ n_user_id n = user_id (fst row))
                     extra
     end.
Proof.
  induction rows as [|[u tg] rest IH]; intros i c out.
  - cbn. split.
    + exists []. rewrite app_nil_r. split; [reflexivity|constructor].
    + split; [reflexivity|]. exists []. split; [|constructor].
      symmetry. apply set_notifications_id.
  - cbn [warn_bandwidth]. unfold truediv.
    change (1024 ^ 3 =? 0) with false. cbv iota.
    unfold send_message. destruct bot as [delivers|].
    + destruct (delivers _) eqn:Hd.
      * specialize (IH (S i)
                       (execute (insert_notification (user_id u) "bandwidth_warning"
                                                     (bw_stamp env i)) c)
                       (out ++ [BandwidthAlert tg (eu_username u)
                                  (round2 (fdiv (eu_bandwidth_limit u - eu_bandwidth_used u)
                                                (1024 ^ 3)))])).
        destruct (warn_bandwidth _ _ _ _ _ _) as [r out'].
        destruct IH as [(new & -> & Hnew) Hr]. split.
        -- eexists (_ :: new). rewrite <- app_assoc. split; [reflexivity|].
           constructor.
           ++ exists (u, tg). split; [left|reflexivity].
           ++ eapply Forall_impl; [exact Hnew|].
              intros a (row & Hrow & ->). exists row. split; [right; exact Hrow|reflexivity].
        -- destruct r as [e|c']; [exact I|].
           destruct Hr as [Hc (extra & Hw & Hex)]. split; [exact Hc|].
           eexists (_ :: extra). split.
           ++ rewrite Hw. cbn [execute working insert_notification].
              unfold set_notifications. cbn. rewrite <- app_assoc. reflexivity.
           ++ constructor.
              ** split; [reflexivity|]. exists (u, tg). split; [left|reflexivity].
              ** eapply Forall_impl; [exact Hex|].
                 intros n [Hk (row & Hrow & Hid)]. split; [exact Hk|].
                 exists row. split; [right; exact Hrow|exact Hid].
      * split; [|exact I]. exists []. rewrite app_nil_r. split; [reflexivity|constructor].
    + specialize (IH (S i)
                     (execute (insert_notification (user_id u) "bandwidth_warning"
                                                   (bw_stamp env i)) c)
                     out).
      destruct (warn_bandwidth _ _ _ _ _ _) as [r out'].
      destruct IH as [(new & -> & Hnew) Hr]. split.
      * exists new. split; [reflexivity|].
        eapply Forall_impl; [exact Hnew|].
        intros a (row & Hrow & ->). exists row. split; [right; exact Hrow|reflexivity].
      * destruct r as [e|c']; [exact I|].
        destruct Hr as [Hc (extra & Hw & Hex)]. split; [exact Hc|].
        eexists (_ :: extra). split.
        -- rewrite Hw. cbn [execute working insert_notification].
           unfold set_notifications. cbn. rewrite <- app_assoc. reflexivity.
        -- constructor.
           ++ split; [reflexivity|]. exists (u, tg). split; [left|reflexivity].
           ++ eapply Forall_impl; [exact Hex|].
              intros n [Hk (row & Hrow & Hid)]. split; [exact Hk|].
              exists row. split; [right; exact Hrow|exact Hid].
Qed.

Lemma warn_expiry_inv env rows : forall i c out,
  let '(r, out') := warn_expiry bot env i rows c out in
  (exists new, out' = out ++ new /\ Forall is_expiry_alert new)
  /\ match r with
     | inl _ => True
     | inr c' =>
       committed c' = committed c
       /\ exists extra,
           working c' = set_notifications (notifications (working c) ++ extra)
                                          (working c)
           /\ Forall (fun n => notification_type n = "expiry_warning"%string) extra
     end.
Proof.
  induction rows as [|[u tg] rest IH]; intros i c out.
  - cbn. split.
    + exists []. rewrite app_nil_r. split; [reflexivity|constructor].
    + split; [reflexivity|]. exists []. split; [|constructor].
      symmetry. apply set_notifications_id.
  - cbn [warn_expiry].
    destruct (parse_expiry (eu_expiry_date u)) as [e|expiry].
    { split; [|exact I]. exists []. rewrite app_nil_r. split; [reflexivity|constructor]. }
    unfold send_message. destruct bot as [delivers|].
    + destruct (delivers _) eqn:Hd.
      * specialize (IH (S i)
                       (execute (insert_notification (user_id u) "expiry_warning"
                                                     (ex_stamp env i)) c)
                       (out ++ [ExpiryAlert tg (eu_username u)
                                  (days_between expiry (ex_now env i)) expiry])).
        destruct (warn_expiry _ _ _ _ _ _) as [r out'].
        destruct IH as [(new & -> & Hnew) Hr]. split.
        -- eexists (_ :: new). rewrite <- app_assoc. split; [reflexivity|].
           constructor; [exact I|exact Hnew].
        -- destruct r as [e|c']; [exact I|].
           destruct Hr as [Hc (extra & Hw & Hex)]. split; [exact Hc|].
           eexists (_ :: extra). split.
           ++ rewrite Hw. cbn [execute working insert_notification].
              unfold set_notifications. cbn. rewrite <- app_assoc. reflexivity.
           ++ constructor; [reflexivity|exact Hex].
      * split; [|exact I]. exists []. rewrite app_nil_r. split; [reflexivity|constructor].
    + specialize (IH (S i)
                     (execute (insert_notification (user_id u) "expiry_warning"
                                                   (ex_stamp env i)) c)
                     out).
      destruct (warn_expiry _ _ _ _ _ _) as [r out'].
      destruct IH as [(new & -> & Hnew) Hr]. split.
      * exists new. split; [reflexivity|exact Hnew].
      * destruct r as [e|c']; [exact I|].
        destruct Hr as [Hc (extra & Hw & Hex)]. split; [exact Hc|].
        eexists (_ :: extra). split.
        -- rewrite Hw. cbn [execute working insert_notification].
           unfold set_notifications. cbn. rewrite <- app_assoc. reflexivity.
        -- constructor; [reflexivity|exact Hex].
Qed.

End Sweep_facts.

Section Sweep_run.
Context `{Float}.
Variable bot : option (alert -> bool).

(** One whole run: the alerts it sends are expiry alerts or the alerts of
    selected rows, and the database it leaves differs at most by appended
    notification rows, each an expiry warning or a bandwidth warning for a
    selected row. *)
Lemma check_and_notify_users_inv env db :
  let rows := select_bandwidth_warnings (cutoff_3_days env) db in
  let '(db', outbox) := check_and_notify_users bot env db in
  Forall (fun a => is_expiry_alert a \/ exists row, row ∈ rows /\ a = alert_of row)
         outbox
  /\ exists extra,
      db' = set_notifications (notifications db ++ extra) db
      /\ Forall (fun n => notification_type n = "expiry_warning"%string
                          \/ (notification_type n = "bandwidth_warning"%string
                              /\ exists row, row ∈ rows
                                             /\ n_user_id n = user_id (fst row)))
                extra.
Proof.
  intros rows. unfold check_and_notify_users. cbn [connect working].
  fold rows.
  pose proof (warn_bandwidth_inv bot env rows 0%nat (connect db) []) as Hb.
  destruct (warn_bandwidth bot env 0 rows (connect db) []) as [[e|c1] out1].
  - destruct Hb as [(new & -> & Hnew) _]. cbn [app]. split.
    + eapply Forall_impl; [exact Hnew|]. intros a Ha. right. exact Ha.
    + exists []. split; [|constructor]. rewrite close_connect.
      symmetry. apply set_notifications_id.
  - destruct Hb as [(new & -> & Hnew) [Hc1 (extra1 & Hw1 & Hex1)]].
    cbn [app connect working committed] in *.
    pose proof (warn_expiry_inv bot env (expiry_due env (working c1)) 0%nat c1 new)
      as He.
    destruct (warn_expiry bot env 0 (expiry_due env (working c1)) c1 new)
      as [[e|c2] out2].
    + destruct He as [(new2 & -> & Hnew2) _]. split.
      * apply Forall_app. split.
        -- eapply Forall_impl; [exact Hnew|]. intros a Ha. right. exact Ha.
        -- eapply Forall_impl; [exact Hnew2|]. intros a Ha. left. exact Ha.
      * exists []. split; [|constructor]. unfold close. rewrite Hc1.
        symmetry. apply set_notifications_id.
    + destruct He as [(new2 & -> & Hnew2) [Hc2 (extra2 & Hw2 & Hex2)]]. split.
      * apply Forall_app. split.
        -- eapply Forall_impl; [exact Hnew|]. intros a Ha. right. exact Ha.
        -- eapply Forall_impl; [exact Hnew2|]. intros a Ha. left. exact Ha.
      * exists (extra1 ++ extra2). split.
        -- rewrite close_commit, Hw2, Hw1. unfold set_notifications. cbn.
           rewrite <- app_assoc. reflexivity.
        -- apply Forall_app. split.
           ++ eapply Forall_impl; [exact Hex1|]. intros n Hn. right. exact Hn.
           ++ eapply Forall_impl; [exact Hex2|]. intros n Hn. left. exact Hn.
Qed.

(** A user with a bandwidth warning newer than the cutoff is not among the
    selected rows. *)
Lemma recently_warned_not_selected cutoff db n row :
  n ∈ notifications db ->
  notification_type n = "bandwidth_warning"%string ->
  text_gt (sent_at n) cutoff = true ->
  row ∈ select_bandwidth_warnings cutoff db ->
  user_id (fst row) <> n_user_id n.
Proof.
  intros Hn Hk Hnew Hrow Heq. destruct row as [v tg].
  apply selected_iff in Hrow as (_ & _ & _ & Hw).
  assert (Ht : warned_since "bandwidth_warning" cutoff (notifications db) (user_id v)
               = true).
  { unfold warned_since. apply existsb_exists. exists n.
    split; [apply list_elem_of_In; exact Hn|].
    cbn [fst] in Heq. rewrite Heq, Z.eqb_refl, Hk, Hnew. reflexivity. }
  rewrite Ht in Hw. discriminate.
Qed.

(** The run leaves such a user without a new alert and without a new
    bandwidth-warning row. *)
Lemma check_and_notify_users_dedup env db n :
  n ∈ notifications db ->
  notification_type n = "bandwidth_warning"%string ->
  text_gt (sent_at n) (cutoff_3_days env) = true ->
  let '(db', outbox) := check_and_notify_users bot env db in
  Forall (fun a => is_expiry_alert a
                   \/ exists row,
                       row ∈ select_bandwidth_warnings (cutoff_3_days env) db
                       /\ user_id (fst row) <> n_user_id n
                       /\ a = alert_of row)
         outbox
  /\ count_notifications "bandwidth_warning" (n_user_id n) db'
     = count_notifications "bandwidth_warning" (n_user_id n) db
  /\ n ∈ notifications db'.
Proof.
  intros Hn Hk Hnew.
  pose proof (check_and_notify_users_inv env db) as Hinv. cbn zeta in Hinv.
  destruct (check_and_notify_users bot env db) as [db' outbox].
  destruct Hinv as [Hout (extra & -> & Hextra)].
  split; [|split].
  - eapply Forall_impl; [exact Hout|].
    intros a [Ha | (row & Hrow & ->)]; [left; exact Ha|].
    right. exists row. split; [exact Hrow|]. split; [|reflexivity].
    eapply recently_warned_not_selected; eassumption.
  - rewrite count_notifications_app, filter_none; [apply Nat.add_0_r|].
    eapply Forall_impl; [exact Hextra|].
    intros m [Hm | [Hm (row & Hrow & Hid)]].
    + rewrite Hm. apply andb_false_r.
    + rewrite Hid.
      destruct (Z.eqb_spec (user_id (fst row)) (n_user_id n)) as [Heq|]; [|reflexivity].
      exfalso. eapply recently_warned_not_selected; eassumption.
  - cbn [notifications set_notifications]. apply elem_of_app. left. exact Hn.
Qed.

End Sweep_run.

(** What the NOT IN clause of the first SELECT achieves.  If user [uid]
    has a [bandwidth_warning] row whose [sent_at] the query's text
    comparison finds greater than its cutoff, a run of the sweep sends no
    bandwidth alert for that user (every bandwidth alert is the alert of a
    selected row of another user) and inserts no [bandwidth_warning] row
    for that user; the earlier row is kept.  Whether a row written less
    than three days ago compares greater is a matter of the two clocks
    behind the texts, taken up below. *)
Theorem sweep_skips_recently_warned
    (F : Float) (bot : option (alert -> bool)) env db uid n
    (Hn : n ∈ notifications db)
    (Hu : n_user_id n = uid)
    (Hk : notification_type n = "bandwidth_warning"%string)
    (Hnew : text_gt (sent_at n) (cutoff_3_days env) = true) :
  let '(db', outbox) := check_and_notify_users bot env db in
  Forall (fun a => is_expiry_alert a
                   \/ exists row,
                       row ∈ select_bandwidth_warnings (cutoff_3_days env) db
                       /\ user_id (fst row) <> uid
                       /\ a = alert_of row)
         outbox
  /\ count_notifications "bandwidth_warning" uid db'
     = count_notifications "bandwidth_warning" uid db
  /\ n ∈ notifications db'.
Proof.
  subst uid. apply check_and_notify_users_dedup; assumption.
Qed.

(** Two runs whose texts compare as the cool-down intends.  The first
    run warns about the user with exactly 300 GiB left and records it; the
    second run, two days later, sends nothing and the user still has
    exactly one record. *)
Lemma sweep_skips_recently_warned_witness :
  check_and_notify_users delivering_bot first_sweep sweep_db
  = (db_after_sweep, [alert_of (edge_user, 7001)])
  /\ count_notifications "bandwidth_warning" 1 db_after_sweep = 1%nat
  /\ check_and_notify_users delivering_bot second_sweep db_after_sweep
     = (db_after_sweep, [])
  /\ (let '(db', outbox) :=
        check_and_notify_users delivering_bot second_sweep db_after_sweep in
      Forall (fun a => is_expiry_alert a
                       \/ exists row,
                           row ∈ select_bandwidth_warnings
                                   (cutoff_3_days second_sweep) db_after_sweep
                           /\ user_id (fst row) <> 1
                           /\ a = alert_of row)
             outbox
      /\ count_notifications "bandwidth_warning" 1 db'
         = count_notifications "bandwidth_warning" 1 db_after_sweep
      /\ first_warning ∈ notifications db').
Proof.
  split; [reflexivity|]. split; [reflexivity|]. split; [reflexivity|].
  apply (sweep_skips_recently_warned symbolic_float delivering_bot second_sweep
           db_after_sweep 1 first_warning).
  - apply list_elem_of_In. left. reflexivity.
  - reflexivity.
  - reflexivity.
  - reflexivity.
Defined.

(** Hence two runs in a row, both inside the window of the same warning,
    leave the user with as many bandwidth-warning rows as before: exactly
    one if there was exactly one. *)
Corollary two_sweeps_keep_one_record
    (F : Float) (bot : option (alert -> bool)) env1 env2 db n :
  n ∈ notifications db ->
  notification_type n = "bandwidth_warning"%string ->
  text_gt (sent_at n) (cutoff_3_days env1) = true ->
  text_gt (sent_at n) (cutoff_3_days env2) = true ->
  count_notifications "bandwidth_warning" (n_user_id n) db = 1%nat ->
  count_notifications "bandwidth_warning" (n_user_id n)
    (fst (check_and_notify_users bot env2
            (fst (check_and_notify_users bot env1 db)))) = 1%nat.
Proof.
  intros Hn Hk H1 H2 Hone.
  pose proof (check_and_notify_users_dedup bot env1 db n Hn Hk H1) as Hfirst.
  destruct (check_and_notify_users bot env1 db) as [db1 out1].
  destruct Hfirst as (_ & Hc1 & Hn1). cbn [fst].
  pose proof (check_and_notify_users_dedup bot env2 db1 n Hn1 Hk H2) as Hsecond.
  destruct (check_and_notify_users bot env2 db1) as [db2 out2].
  destruct Hsecond as (_ & Hc2 & _). cbn [fst].
  rewrite Hc2, Hc1. exact Hone.
Qed.

(** The two formats on known dates, leap days and the ends of the range
    included. *)
Example clock_texts :
  isoformat new_year_2025 = "2025-01-01T00:00:00"%string
  /\ isoformat (day 738944 + 1) = "2024-02-29T00:00:00.000001"%string
  /\ sqlite_datetime (day 739250 + 23 * hour + 59 * 60000000 + 59999999)
     = "2024-12-31 23:59:59"%string
  /\ date_text (day 730178) = "2000-02-29"%string
  /\ date_text (day 693654) = "1900-03-01"%string
  /\ date_text 0 = "0001-01-01"%string
  /\ date_text (day 3652058) = "9999-12-31"%string
  /\ date_text (day 766702) = "2100-02-28"%string
  /\ date_text (day 766703) = "2100-03-01"%string.
Proof. repeat split; vm_compute; reflexivity. Qed.

(** C8: the cool-down is not kept on a host behind UTC.  The stamp of a
    warning is local time and the cutoff is UTC, compared as text.  On a
    host eight hours behind UTC, the user with exactly 300 GiB left is
    warned by a run at 2025-01-04 05:00:00 UTC, which stores the stamp
    "2025-01-03T21:00:00.001000"; a second run 2 days 22 hours 30 minutes
    later computes the cutoff "2025-01-04 03:30:00", finds the stamp not
    greater, selects the user again, sends a second alert and inserts a
    second [bandwidth_warning] row: two records from two runs less than
    three days apart. *)
Theorem sweep_rewarns_within_three_days (F : Float) :
  let bot : option (alert -> bool) := Some (fun _ => true) in
  let first := sweep_at (run_behind_utc first_run_utc) (fun _ => []) in
  let second := sweep_at (run_behind_utc second_run_utc) (fun _ => []) in
  let run1 := check_and_notify_users bot first sweep_db in
  let run2 := check_and_notify_users bot second (fst run1) in
  0 < second_run_utc - first_run_utc < 3 * MICROS_PER_DAY
  /\ notifications sweep_db = []
  /\ sent_at <$> notifications (fst run1) = ["2025-01-03T21:00:00.001000"%string]
  /\ cutoff_3_days second = "2025-01-04 03:30:00"%string
  /\ snd run1 = [alert_of (edge_user, 7001)]
  /\ snd run2 = [alert_of (edge_user, 7001)]
  /\ count_notifications "bandwidth_warning" 1 (fst run1) = 1%nat
  /\ count_notifications "bandwidth_warning" 1 (fst run2) = 2%nat
  /\ sent_at <$> notifications (fst run2)
     = ["2025-01-03T21:00:00.001000"%string; "2025-01-06T19:30:00.001000"%string].
Proof.
  cbv zeta.
  split; [split; reflexivity|].
  split; [reflexivity|].
  split; [vm_compute; reflexivity|].
  split; [vm_compute; reflexivity|].
  split; [vm_compute; reflexivity|].
  split; [vm_compute; reflexivity|].
  split; [vm_compute; reflexivity|].
  split; vm_compute; reflexivity.
Qed.

(** ** Admin limits: where 0 means unlimited *)

(** In [check_admin_limits] a cap of 0 switches its check off, whatever
    the usage is; the two caps are gated one by one. *)
Lemma capped_zero_reports_nothing limits cap_key used_key report :
  AdminLimits.get_int limits cap_key = inr 0 ->
  AdminLimits.capped limits cap_key used_key report = inr [].
Proof. intros Hc. unfold AdminLimits.capped. rewrite Hc. reflexivity. Qed.

Example admin_without_cap_is_not_limited :
  AdminLimits.check_admin_limits (fun _ => inl ValueError) new_year_2025
    admins_db "free" = inr (false, []).
Proof. vm_compute. reflexivity. Qed.

Example admin_over_cap_is_limited :
  AdminLimits.check_admin_limits (fun _ => inl ValueError) new_year_2025
    admins_db "capped" = inr (true, [AdminLimits.UsersExhausted 40]).
Proof. vm_compute. reflexivity. Qed.

(** ** The panel gateway *)

Section Gateway_facts.
Import MarzbanAPI.
Context {S : Type}.
Variable serve : request -> S -> (string + response) * S.
Variable username password : string.

(** With a token held, [call] goes straight to its one request. *)
Lemma call_with_token {A} m p b (on_ok : response -> string + A) g t :
  token g = Some t -> t <> ""%string ->
  answers_in_one_request serve (call serve username password m p b on_ok) g
    {| method := m; path := p; bearer := Some t; body := b |}.
Proof.
  intros Ht Hne. unfold answers_in_one_request, call, http.
  rewrite Ht. cbn [truthy_str].
  destruct (String.eqb_spec t "") as [->|_]; [contradiction|].
  cbn [token panel sent]. rewrite Ht.
  destruct (serve _ (panel g)) as [[e|resp] s']; cbn [fst snd].
  - repeat split. intros resp [=].
  - destruct (Z.eqb_spec (status_code resp) 200) as [H200|Hne200].
    + destruct (on_ok resp); cbn; repeat split; intros resp' [= <-] Hn;
        contradiction.
    + cbn. repeat split. intros resp' [= <-] _. reflexivity.
Qed.

(** Without a token the first request is the login, and a failed login
    ends the call. *)
Lemma call_without_token_logs_in {A} m p b (on_ok : response -> string + A) g :
  truthy_str (token g) = None ->
  exists rest,
    sent (snd (call serve username password m p b on_ok g))
    = sent g ++ {| method := POST; path := "/admin/token"; bearer := None;
                   body := Credentials username password |} :: rest.
Proof.
  intros Hnone. unfold call, login, http. rewrite Hnone.
  cbn [token panel sent].
  destruct (serve _ (panel g)) as [[e|resp] s1].
  - exists []. reflexivity.
  - destruct (json resp) as [data|]; [|exists []; reflexivity].
    destruct (access_token data) as [t|]; [|exists []; reflexivity].
    cbn [set_token token panel sent].
    destruct (serve _ s1) as [[e|resp2] s2].
    + eexists [_]. cbn. rewrite <- app_assoc. reflexivity.
    + destruct (status_code resp2 =? 200); [destruct (on_ok resp2)|];
        eexists [_]; cbn; rewrite <- app_assoc; reflexivity.
Qed.

End Gateway_facts.

(** C5, as stated, fails: with the token "stale" held and a panel that
    answers 401, [create_user] sends its one request, returns the 401 to
    the caller, and neither logs in again nor retries. *)
Lemma unauthorized_call_is_not_retried :
  let '(r, g') :=
    MarzbanAPI.create_user unauthorized_server "admin" "secret"
                           "alice" sample_user_data stale_gateway in
  r = inl (HttpStatus 401 "Unauthorized")
  /\ MarzbanAPI.sent g'
     = [{| MarzbanAPI.method := MarzbanAPI.POST;
           MarzbanAPI.path := "/user/alice";
           MarzbanAPI.bearer := Some "stale"%string;
           MarzbanAPI.body := MarzbanAPI.UserData sample_user_data |}]
  /\ ~ MarzbanAPI.reauthenticates_and_retries (MarzbanAPI.sent g').
Proof.
  cbn. split; [reflexivity|]. split; [reflexivity|].
  intros (first & relogin & retry & Heq & _). discriminate Heq.
Qed.

(** C5 (amended): every gateway call (create, get, update, delete, list)
    made while a token is held sends exactly one request, carrying that
    token, keeps the token, performs no login, and hands an answer with
    a status other than 200, an authorization failure included, straight
    to the caller: no re-authentication, no retry. *)
Theorem gateway_call_is_single_shot
    {S : Type} (serve : MarzbanAPI.request -> S ->
                        (string + MarzbanAPI.response) * S)
    (username password name : string) (data : panel_user_data)
    (g : MarzbanAPI.gateway) (t : string)
    (Ht : MarzbanAPI.token g = Some t) (Hne : t <> ""%string) :
  let rq m p b :=
    {| MarzbanAPI.method := m; MarzbanAPI.path := p;
       MarzbanAPI.bearer := Some t; MarzbanAPI.body := b |} in
  MarzbanAPI.answers_in_one_request serve
    (MarzbanAPI.create_user serve username password name data) g
    (rq MarzbanAPI.POST ("/user/" ++ name)%string (MarzbanAPI.UserData data))
  /\ MarzbanAPI.answers_in_one_request serve
       (MarzbanAPI.get_user_info serve username password name) g
       (rq MarzbanAPI.GET ("/user/" ++ name)%string MarzbanAPI.NoBody)
  /\ MarzbanAPI.answers_in_one_request serve
       (MarzbanAPI.update_user serve username password name data) g
       (rq MarzbanAPI.PUT ("/user/" ++ name)%string (MarzbanAPI.UserData data))
  /\ MarzbanAPI.answers_in_one_request serve
       (MarzbanAPI.delete_user serve username password name) g
       (rq MarzbanAPI.DELETE ("/user/" ++ name)%string MarzbanAPI.NoBody)
  /\ MarzbanAPI.answers_in_one_request serve
       (MarzbanAPI.get_all_users serve username password) g
       (rq MarzbanAPI.GET "/users"%string MarzbanAPI.NoBody).
Proof.
  cbn zeta.
  split; [|split; [|split; [|split]]]; apply call_with_token; assumption.
Qed.

Lemma gateway_call_is_single_shot_witness :
  MarzbanAPI.token stale_gateway = Some "stale"%string
  /\ MarzbanAPI.answers_in_one_request unauthorized_server
       (MarzbanAPI.create_user unauthorized_server "admin" "secret"
                               "alice" sample_user_data)
       stale_gateway
       {| MarzbanAPI.method := MarzbanAPI.POST;
          MarzbanAPI.path := "/user/alice";
          MarzbanAPI.bearer := Some "stale"%string;
          MarzbanAPI.body := MarzbanAPI.UserData sample_user_data |}.
Proof.
  split; [reflexivity|].
  apply (gateway_call_is_single_shot unauthorized_server "admin" "secret"
           "alice" sample_user_data stale_gateway "stale").
  - reflexivity.
  - discriminate.
Defined.

(** The managers on top of the gateway: an end-user creation whose panel
    call is refused with 401 fails and leaves the database as it was. *)
Example create_user_through_unauthorized_gateway :
  fst (create_user
         (Some (MarzbanAPI.as_panel_api unauthorized_server "admin" "secret"))
         first_env sample_db 7001 "ann" 60 30 3 stale_gateway)
  = (Failure (PanelCreateFailed (HttpStatus 401 "Unauthorized")), sample_db).
Proof. reflexivity. Qed.

(** * Further properties of the modelled code *)

(** ** Listings *)

Section More_listing_facts.
Context `{Float}.

Lemma for_rows_raises {A B} (body : nat -> A -> exn + B) rows : forall i,
  Exists (fun r => forall j, exists e, body j r = inl e) rows ->
  exists e, for_rows body i rows = inl e.
Proof.
  induction rows as [|r rest IH]; intros i Hex.
  - inversion Hex.
  - cbn. apply Exists_cons in Hex as [Hr | Hrest].
    + destruct (Hr i) as [e ->]. exists e. reflexivity.
    + destruct (body i r) as [e|b]; [exists e; reflexivity|]. cbn.
      destruct (IH (S i) Hrest) as [e ->]. exists e. reflexivity.
Qed.

(** An entry is built for every reseller row that has an expiry date. *)
Lemma reseller_entry_ok now j r :
  expiry_date r <> None ->
  exists item,
    reseller_entry now j r = inr item
    /\ rt_reseller_id item = reseller_id r
    /\ rt_telegram_id item = telegram_id r
    /\ rt_username item = username r
    /\ rt_max_users item = max_users r
    /\ rt_current_users item = current_users r.
Proof.
  intros He. unfold reseller_entry.
  destruct (expiry_date r) as [e|]; [|contradiction]. cbn [parse_expiry bind_exn].
  unfold truediv. change (1024 ^ 3 =? 0) with false. cbn [bind_exn].
  rewrite percent_total. cbn [bind_exn]. eexists. split; [reflexivity|].
  cbn. repeat split.
Qed.

Lemma for_rows_all_ok {A B} (body : nat -> A -> exn + B) (P : A -> B -> Prop) rows :
  (forall j r, r ∈ rows -> exists b, body j r = inr b /\ P r b) ->
  forall i, exists out, for_rows body i rows = inr out /\ Forall2 P rows out.
Proof.
  induction rows as [|r rest IH]; intros Hall i.
  - exists []. split; [reflexivity|constructor].
  - destruct (Hall i r) as (b & Hb & HP); [left|].
    destruct (IH (fun j x Hx => Hall j x (list_elem_of_further _ _ _ Hx)) (S i))
      as (out & Hout & HF).
    exists (b :: out). cbn. rewrite Hb. cbn. rewrite Hout. cbn.
    split; [reflexivity|]. constructor; assumption.
Qed.

End More_listing_facts.

(** X1: a page size of 0 in the two listings.  [list_resellers] divides
    by it on every database and fails with ZeroDivisionError, reporting 0
    pages.  [list_users_for_reseller] divides only when the reseller has
    end users: with users it fails the same way, without any it answers
    with an empty page and [total_pages = 1]. *)
Theorem listings_with_page_size_zero
    (F : Float) now db tid page r
    (Hr : fetchone (fun r => telegram_id r =? tid) (resellers db) = Some r) :
  list_resellers now db page 0 = (Failure (Raised ZeroDivisionError), 0)
  /\ list_users_for_reseller now db tid page 0
     = match List.filter (fun u => eu_reseller_id u =? reseller_id r)
                         (end_users db) with
       | [] => (Success [], 1)
       | _ :: _ => (Failure (Raised ZeroDivisionError), 0)
       end.
Proof.
  split; [reflexivity|].
  destruct (List.filter _ (end_users db)) as [|u rest] eqn:He.
  - apply (list_users_empty_has_one_page now db tid page 0 r Hr He).
  - unfold list_users_for_reseller. rewrite Hr, He.
    destruct (Z.gtb_spec (Z.of_nat (List.length (u :: rest))) 0) as [_|Hle].
    + reflexivity.
    + cbn [List.length] in Hle. lia.
Qed.

Lemma listings_with_page_size_zero_witness :
  list_resellers (H := symbolic_float) (fun _ => new_year_2025) db_after_first 2 0
  = (Failure (Raised ZeroDivisionError), 0)
  /\ list_users_for_reseller (H := symbolic_float) (fun _ => new_year_2025)
       db_after_first 7001 2 0
     = (Failure (Raised ZeroDivisionError), 0).
Proof.
  apply (listings_with_page_size_zero symbolic_float (fun _ => new_year_2025)
           db_after_first 7001 2 charged_reseller).
  reflexivity.
Defined.

(** X2: when [list_resellers] succeeds with a positive page size on a
    table that is not empty, [total_pages] is the ceiling of the row count
    over the page size: the last page is the first to reach the count. *)
Theorem resellers_listing_pages_are_ceiling
    (F : Float) now db page page_size items pages
    (Hok : list_resellers now db page page_size = (Success items, pages))
    (Hsize : 0 < page_size)
    (Hrows : resellers db <> []) :
  (pages - 1) * page_size < Z.of_nat (List.length (resellers db))
  <= pages * page_size.
Proof.
  apply list_resellers_pages in Hok. subst pages.
  assert (Hn : 0 < Z.of_nat (List.length (resellers db))).
  { destruct (resellers db); [contradiction|]. cbn [List.length]. lia. }
  pose proof (pages_is_ceiling _ _ Hsize Hn). lia.
Qed.

Lemma resellers_listing_pages_are_ceiling_witness :
  (1 - 1) * 10 < Z.of_nat (List.length (resellers sample_db)) <= 1 * 10.
Proof.
  eapply (resellers_listing_pages_are_ceiling symbolic_float
            (fun _ => new_year_2025) sample_db 0 10).
  - reflexivity.
  - lia.
  - discriminate.
Defined.

(** X3: which rows a page of [list_resellers] shows.  With a positive
    page size, when the rows at positions [page * page_size] onward, at
    most [page_size] of them, all have an expiry date, the call succeeds
    and returns one entry for each of those rows, in table order, with the
    row's ids, name and user counts, together with the ceiling page
    count.  So a page past the end is an empty success, and a negative
    page shows the first page. *)
Theorem resellers_listing_shows_its_page
    (F : Float) now db page page_size
    (Hsize : 0 < page_size)
    (Hdates : Forall (fun r => expiry_date r <> None)
                (take (Z.to_nat page_size)
                      (drop (Z.to_nat (page * page_size)) (resellers db)))) :
  exists items,
    list_resellers now db page page_size
    = (Success items,
       (Z.of_nat (List.length (resellers db)) + page_size - 1) `div` page_size)
    /\ Forall2 (fun r item =>
                  rt_reseller_id item = reseller_id r
                  /\ rt_telegram_id item = telegram_id r
                  /\ rt_username item = username r
                  /\ rt_max_users item = max_users r
                  /\ rt_current_users item = current_users r)
               (take (Z.to_nat page_size)
                     (drop (Z.to_nat (page * page_size)) (resellers db)))
               items
    /\ (Z.of_nat (List.length (resellers db)) <= page * page_size -> items = [])
    /\ (page <= 0 ->
        rt_reseller_id <$> items
        = reseller_id <$> take (Z.to_nat page_size) (resellers db)).
Proof.
  unfold list_resellers, floordiv.
  destruct (Z.eqb_spec page_size 0); [lia|]. cbn [bind_exn].
  unfold limit_offset. destruct (Z.ltb_spec page_size 0); [lia|].
  destruct (for_rows_all_ok (reseller_entry now)
              (fun r item =>
                 rt_reseller_id item = reseller_id r
                 /\ rt_telegram_id item = telegram_id r
                 /\ rt_username item = username r
                 /\ rt_max_users item = max_users r
                 /\ rt_current_users item = current_users r)
              (take (Z.to_nat page_size)
                    (drop (Z.to_nat (page * page_size)) (resellers db))))
    with (i := 0%nat) as (items & Hrun & Hitems).
  { intros j r Hr. apply reseller_entry_ok.
    rewrite Forall_forall in Hdates. apply Hdates. exact Hr. }
  rewrite Hrun. cbn [bind_exn]. exists items.
  split; [reflexivity|]. split; [exact Hitems|]. split.
  - intros Hpast. rewrite drop_ge in Hitems by lia.
    rewrite take_nil in Hitems. inversion Hitems. reflexivity.
  - intros Hneg. replace (Z.to_nat (page * page_size)) with 0%nat in Hitems by nia.
    rewrite drop_0 in Hitems. clear Hrun Hdates.
    induction Hitems as [|r item rows out (Hid & _) _ IH]; [reflexivity|].
    cbn. rewrite Hid, IH. reflexivity.
Qed.

Lemma resellers_listing_shows_its_page_witness :
  exists items,
    list_resellers (H := symbolic_float) (fun _ => new_year_2025)
      two_resellers_db 1 1 = (Success items, 2)
    /\ Forall2 (fun r item =>
                  rt_reseller_id item = reseller_id r
                  /\ rt_telegram_id item = telegram_id r
                  /\ rt_username item = username r
                  /\ rt_max_users item = max_users r
                  /\ rt_current_users item = current_users r)
               [second_reseller] items
    /\ (Z.of_nat (List.length (resellers two_resellers_db)) <= 1 * 1 -> items = [])
    /\ (1 <= 0 ->
        rt_reseller_id <$> items
        = reseller_id <$> take (Z.to_nat 1) (resellers two_resellers_db)).
Proof.
  apply (resellers_listing_shows_its_page symbolic_float (fun _ => new_year_2025)
           two_resellers_db 1 1).
  - lia.
  - repeat constructor. discriminate.
Defined.

(** X4: one row without a readable expiry date on the requested page makes
    [list_resellers] fail as a whole and report 0 pages; the rows that
    could be shown are not returned. *)
Theorem resellers_listing_fails_on_unreadable_expiry
    (F : Float) now db page page_size r
    (Hsize : page_size <> 0)
    (Hr : r ∈ limit_offset page_size (page * page_size) (resellers db))
    (He : expiry_date r = None) :
  exists e, list_resellers now db page page_size = (Failure (Raised e), 0).
Proof.
  unfold list_resellers, floordiv.
  destruct (Z.eqb_spec page_size 0); [contradiction|]. cbn [bind_exn].
  destruct (for_rows_raises (reseller_entry now)
              (limit_offset page_size (page * page_size) (resellers db)) 0%nat)
    as [e Hraise].
  { apply Exists_exists. exists r. split; [exact Hr|].
    intros j. unfold reseller_entry. rewrite He. exists TypeError. reflexivity. }
  rewrite Hraise. exists e. reflexivity.
Qed.

Lemma resellers_listing_fails_on_unreadable_expiry_witness :
  exists e,
    list_resellers (H := symbolic_float) (fun _ => new_year_2025) undated_db 0 10
    = (Failure (Raised e), 0).
Proof.
  apply (resellers_listing_fails_on_unreadable_expiry symbolic_float
           (fun _ => new_year_2025) undated_db 0 10 undated_reseller).
  - discriminate.
  - apply list_elem_of_In. right. left. reflexivity.
  - reflexivity.
Defined.

(** ** The info readers and the panel *)

Lemma fetchone_fmap {A} (p : A -> bool) (f : A -> A) rows :
  (forall x, p (f x) = p x) ->
  fetchone p (f <$> rows) = f <$> fetchone p rows.
Proof.
  intros Hp. unfold fetchone. induction rows as [|x rows IH]; [reflexivity|].
  cbn. rewrite Hp. destruct (p x); [reflexivity|exact IH].
Qed.

(** X5: the panel is authoritative for consumption.  When the panel
    answers the refresh of [get_reseller_info] with a [used_traffic] of
    [n], the call succeeds, reports [n] as used bytes, and has committed
    [n] as the stored [bandwidth_used] of every row of that reseller; the
    stored limits are not touched. *)
Theorem reseller_refresh_stores_panel_usage
    (F : Float) {W : Type} (api : PanelAPI W)
    now db tid rid mname (w : W) p r e ud w1 n
    (Hq : reseller_query tid rid mname = Some p)
    (Hr : fetchone p (resellers db) = Some r)
    (He : expiry_date r = Some e)
    (Hname : marzban_username r <> ""%string)
    (Hpanel : api_get_user_info api (marzban_username r) w = (inr ud, w1))
    (Hn : used_traffic ud = Some n) :
  exists info db',
    get_reseller_info (Some api) now db tid rid mname w = (Success info, db', w1)
    /\ used_bytes (ri_bandwidth info) = n
    /\ (forall x, x ∈ resellers db' -> reseller_id x = reseller_id r ->
                  bandwidth_used x = n)
    /\ limits_view db' = limits_view db.
Proof.
  unfold get_reseller_info, get_reseller_info_try, refresh_usage.
  rewrite Hq. cbn [connect working]. rewrite Hr.
  destruct (String.eqb_spec (marzban_username r) "") as [Heq|_]; [contradiction|].
  rewrite Hpanel, Hn, He. cbv zeta. unfold default, id.
  cbn [from_option parse_expiry bind_exn].
  destruct (bandwidth_dict_total (bandwidth_limit r) n) as (bw & -> & _ & Hu & _).
  cbn [bind_exn]. eexists _, _. split; [reflexivity|]. cbn [ri_bandwidth].
  split; [exact Hu|]. rewrite close_commit. cbn [execute working connect].
  split.
  - intros x Hx Hid. unfold store_reseller_usage in Hx.
    cbn [resellers set_resellers] in Hx.
    apply list_elem_of_fmap_1 in Hx as (y & -> & _).
    destruct (Z.eqb_spec (reseller_id y) (reseller_id r)); [reflexivity|].
    contradiction.
  - apply limits_view_store_usage.
Qed.

Lemma reseller_refresh_stores_panel_usage_witness :
  exists info db',
    get_reseller_info (H := symbolic_float) (Some accepting_panel)
      new_year_2025 sample_db (Some 7001) None None tt = (Success info, db', tt)
    /\ used_bytes (ri_bandwidth info) = 5 * GiB
    /\ (forall x, x ∈ resellers db' -> reseller_id x = reseller_id sample_reseller ->
                  bandwidth_used x = 5 * GiB)
    /\ limits_view db' = limits_view sample_db.
Proof.
  eapply (reseller_refresh_stores_panel_usage symbolic_float accepting_panel
            new_year_2025 sample_db (Some 7001) None None tt
            (fun r => telegram_id r =? 7001) sample_reseller);
    try reflexivity.
  discriminate.
Defined.

(** X6: a failing panel does not make [get_reseller_info] fail.  When the
    refresh call returns an error the reader answers from the stored row,
    reports the stored [bandwidth_used], and leaves the database as it
    was. *)
Theorem reseller_info_survives_panel_failure
    (F : Float) {W : Type} (api : PanelAPI W)
    now db tid rid mname (w : W) p r e err w1
    (Hq : reseller_query tid rid mname = Some p)
    (Hr : fetchone p (resellers db) = Some r)
    (He : expiry_date r = Some e)
    (Hpanel : api_get_user_info api (marzban_username r) w = (inl err, w1)) :
  exists info w',
    get_reseller_info (Some api) now db tid rid mname w = (Success info, db, w')
    /\ used_bytes (ri_bandwidth info) = bandwidth_used r
    /\ limit_bytes (ri_bandwidth info) = bandwidth_limit r.
Proof.
  unfold get_reseller_info, get_reseller_info_try, refresh_usage.
  rewrite Hq. cbn [connect working]. rewrite Hr.
  destruct (String.eqb (marzban_username r) "").
  - rewrite He. cbn [parse_expiry bind_exn].
    destruct (bandwidth_dict_total (bandwidth_limit r) (bandwidth_used r))
      as (bw & -> & Hl & Hu & _).
    cbn. eexists _, _. split; [reflexivity|]. split; assumption.
  - rewrite Hpanel, He. cbn [parse_expiry bind_exn].
    destruct (bandwidth_dict_total (bandwidth_limit r) (bandwidth_used r))
      as (bw & -> & Hl & Hu & _).
    cbn. eexists _, _. split; [reflexivity|]. split; assumption.
Qed.

Lemma reseller_info_survives_panel_failure_witness :
  exists info w',
    get_reseller_info (H := symbolic_float) (Some unreachable_panel)
      new_year_2025 sample_db (Some 7001) None None tt = (Success info, sample_db, w')
    /\ used_bytes (ri_bandwidth info) = bandwidth_used sample_reseller
    /\ limit_bytes (ri_bandwidth info) = bandwidth_limit sample_reseller.
Proof.
  eapply (reseller_info_survives_panel_failure symbolic_float unreachable_panel
            new_year_2025 sample_db (Some 7001) None None tt
            (fun r => telegram_id r =? 7001) sample_reseller);
    reflexivity.
Defined.

(** X7: the [days_remaining] a successful [get_reseller_info] reports is
    the floor of the time left in days: it is negative exactly when the
    stored expiry lies before [now] (one microsecond past expiry already
    gives -1), and 0 throughout the last day. *)
Theorem reseller_days_remaining_is_floor
    (F : Float) {W : Type} (marzban_api : option (PanelAPI W))
    now db tid rid mname (w : W) info db' w'
    (Hok : get_reseller_info marzban_api now db tid rid mname w
           = (Success info, db', w')) :
  ri_days_remaining info * MICROS_PER_DAY
  <= ri_expiry_date info - now
  < (ri_days_remaining info + 1) * MICROS_PER_DAY
  /\ (ri_days_remaining info < 0 <-> ri_expiry_date info < now).
Proof.
  unfold get_reseller_info, get_reseller_info_try in Hok.
  destruct (reseller_query tid rid mname) as [p|]; [|discriminate].
  destruct (fetchone p _) as [r|]; [|discriminate].
  destruct (refresh_usage _ _ _ _ _ _) as [[used c1] w1].
  destruct (expiry_date r) as [e|]; [|discriminate].
  cbn [parse_expiry bind_exn] in Hok.
  destruct (bandwidth_dict _ _) as [x|bw]; [discriminate|].
  cbn [bind_exn] in Hok. injection Hok as <- _ _. cbn.
  unfold days_between.
  assert (Hday : 0 < MICROS_PER_DAY) by reflexivity.
  pose proof (Z.div_mod (e - now) MICROS_PER_DAY ltac:(lia)) as Hdm.
  pose proof (Z.mod_pos_bound (e - now) MICROS_PER_DAY Hday) as Hb.
  split; [nia|]. split; intros Hlt; nia.
Qed.

Lemma reseller_days_remaining_is_floor_witness :
  exists info,
    get_reseller_info (H := symbolic_float) (W := unit) None (new_year_2025 + 1)
      expired_db (Some 7001) None None tt = (Success info, expired_db, tt)
    /\ ri_days_remaining info = -3
    /\ (ri_days_remaining info * MICROS_PER_DAY
        <= ri_expiry_date info - (new_year_2025 + 1)
        < (ri_days_remaining info + 1) * MICROS_PER_DAY
        /\ (ri_days_remaining info < 0 <-> ri_expiry_date info < new_year_2025 + 1)).
Proof.
  eexists. split; [reflexivity|]. split; [reflexivity|].
  eapply (reseller_days_remaining_is_floor symbolic_float None (new_year_2025 + 1)
            expired_db (Some 7001) None None tt).
  reflexivity.
Defined.

(** ** Creating end users: keys, books and failures after the quota checks *)

Lemma foldr_max_ge (i : Z) rest x :
  x ∈ i :: rest -> x <= foldr Z.max i rest.
Proof.
  induction rest as [|y rest IH]; cbn [foldr]; intros Hx.
  - apply list_elem_of_In in Hx as [->|[]]. lia.
  - apply elem_of_cons in Hx as [->|Hx].
    + assert (i <= foldr Z.max i rest) by (apply IH; left). lia.
    + apply elem_of_cons in Hx as [->|Hx]; [lia|].
      assert (x <= foldr Z.max i rest) by (apply IH; right; exact Hx). lia.
Qed.

(** The rowid SQLite hands out is not in use. *)
Lemma next_rowid_fresh ids : next_rowid ids ∉ ids.
Proof.
  destruct ids as [|i rest]; [apply not_elem_of_nil|].
  intros Hin. apply foldr_max_ge in Hin. cbn [next_rowid] in Hin. lia.
Qed.

Lemma existsb_false_Forall {A} (p : A -> bool) l :
  existsb p l = false -> forall x, x ∈ l -> p x = false.
Proof.
  intros He x Hx. destruct (p x) eqn:Hp; [|reflexivity].
  assert (existsb p l = true) as Ht.
  { apply existsb_exists. exists x. split; [apply list_elem_of_In; exact Hx|exact Hp]. }
  congruence.
Qed.

(** Rows of a table are determined by a key column. *)
Lemma key_determines_row {A} (key : A -> Z) (rows : list A) x y :
  NoDup (key <$> rows) -> x ∈ rows -> y ∈ rows -> key x = key y -> x = y.
Proof.
  induction rows as [|z l IH]; intros Hkey Hx Hy Heq; [inversion Hx|].
  rewrite fmap_cons in Hkey. apply NoDup_cons in Hkey as [Hz Hl].
  apply elem_of_cons in Hx as [->|Hx]; apply elem_of_cons in Hy as [->|Hy].
  - reflexivity.
  - exfalso. apply Hz. rewrite Heq. apply list_elem_of_fmap_2. exact Hy.
  - exfalso. apply Hz. rewrite <- Heq. apply list_elem_of_fmap_2. exact Hx.
  - apply IH; assumption.
Qed.

Section More_create_user_facts.
Context {W : Type}.
Variable marzban_api : option (PanelAPI W).

(** A successful [create_user], in full: the row it appends has the next
    free rowid and a panel name no stored user has. *)
Lemma create_user_success env db tid uname gb days cl (w : W) u db' w' :
  create_user marzban_api env db tid uname gb days cl w = (Success u, db', w') ->
  exists r expiry,
    fetchone (fun r => telegram_id r =? tid) (resellers db) = Some r
    /\ current_users r < max_users r
    /\ bandwidth_used r + gb * 1024 ^ 3 <= bandwidth_limit r
    /\ cu_user_id u = next_rowid (user_id <$> end_users db)
    /\ cu_marzban_username u = ("user_" ++ uname ++ "_" ++ uuid_hex8 env)%string
    /\ (forall v, v ∈ end_users db -> eu_marzban_username v <> cu_marzban_username u)
    /\ db' = charge_reseller (reseller_id r) (gb * 1024 ^ 3)
               (set_end_users
                  (end_users db ++
                     [{| user_id := cu_user_id u;
                         eu_reseller_id := reseller_id r;
                         eu_username := uname;
                         eu_marzban_username := cu_marzban_username u;
                         eu_bandwidth_limit := gb * 1024 ^ 3;
                         eu_bandwidth_used := 0;
                         eu_expiry_date := Some expiry;
                         eu_connection_limit := cl;
                         eu_created_at := now_created env |}]) db).
Proof.
  unfold create_user, create_user_try. cbn [connect working].
  destruct (fetchone _ (resellers db)) as [r|] eqn:Hr; [|discriminate].
  destruct (Z.geb_spec (current_users r) (max_users r)); [discriminate|].
  destruct (Z.gtb_spec (bandwidth_used r + gb * 1024 ^ 3) (bandwidth_limit r));
    [discriminate|].
  destruct (bind_exn (timedelta_days days) _) as [e|expiry]; [discriminate|].
  assert (Hfresh : forall name,
             existsb (fun v => String.eqb (eu_marzban_username v) name)
                     (end_users db) = false ->
             forall v, v ∈ end_users db -> eu_marzban_username v <> name).
  { intros name He v Hv Heq.
    pose proof (existsb_false_Forall _ _ He v Hv) as Hf. cbn in Hf.
    rewrite Heq, String.eqb_refl in Hf. discriminate. }
  destruct marzban_api as [api|].
  - destruct (api_create_user api _ _ w) as [[e|result] w1]; [discriminate|].
    unfold insert_end_user. cbn [eu_marzban_username].
    destruct (existsb _ _) eqn:Hex; [discriminate|].
    cbn. intros [= <- <- <-]. exists r, expiry. cbn.
    repeat split; try reflexivity; try lia. apply Hfresh, Hex.
  - unfold insert_end_user. cbn [eu_marzban_username].
    destruct (existsb _ _) eqn:Hex; [discriminate|].
    cbn. intros [= <- <- <-]. exists r, expiry. cbn.
    repeat split; try reflexivity; try lia. apply Hfresh, Hex.
Qed.

(** Whatever fails, the stored data stays as it was. *)
Lemma create_user_failure env db tid uname gb days cl (w : W) msg db' w' :
  create_user marzban_api env db tid uname gb days cl w = (Failure msg, db', w') ->
  db' = db.
Proof.
  intros Hc.
  pose proof (create_user_cases marzban_api env db tid uname gb days cl w) as H.
  rewrite Hc in H. exact H.
Qed.

End More_create_user_facts.

Lemma allocated_app rid db row :
  allocated rid (set_end_users (end_users db ++ [row]) db)
  = allocated rid db
    + (if eu_reseller_id row =? rid then eu_bandwidth_limit row else 0).
Proof.
  unfold allocated. cbn [end_users set_end_users].
  rewrite List.filter_app, fmap_app, foldr_app. cbn [List.filter].
  generalize (List.filter (fun u => eu_reseller_id u =? rid) (end_users db)).
  intros l. destruct (eu_reseller_id row =? rid); cbn.
  - induction l as [|x l IH]; cbn; [lia|]. rewrite IH. lia.
  - lia.
Qed.

Lemma user_count_app rid db row :
  user_count rid (set_end_users (end_users db ++ [row]) db)
  = user_count rid db + (if eu_reseller_id row =? rid then 1 else 0).
Proof.
  unfold user_count. cbn [end_users set_end_users].
  rewrite List.filter_app, List.length_app. cbn [List.filter].
  destruct (eu_reseller_id row =? rid); cbn [List.length]; lia.
Qed.

Lemma allocated_charge rid rid' bytes db :
  allocated rid (charge_reseller rid' bytes db) = allocated rid db.
Proof. reflexivity. Qed.

Lemma user_count_charge rid rid' bytes db :
  user_count rid (charge_reseller rid' bytes db) = user_count rid db.
Proof. reflexivity. Qed.

(** X8: [create_user] keeps the keys of [end_users] unique.  If no two
    stored end users share a [user_id] or a [marzban_username], the same
    holds of the database any call leaves, and a successful call returns a
    [user_id] that no earlier row had. *)
Theorem create_user_keeps_keys_unique
    {W : Type} (marzban_api : option (PanelAPI W)) env db tid uname gb days cl
    (w : W) o db' w'
    (Hkeys : end_user_keys_unique db)
    (Hrun : create_user marzban_api env db tid uname gb days cl w = (o, db', w')) :
  end_user_keys_unique db'
  /\ match o with
     | Success u =>
       (cu_user_id u ∉ (user_id <$> end_users db))
       /\ (exists row, row ∈ end_users db' /\ user_id row = cu_user_id u
                       /\ eu_marzban_username row = cu_marzban_username u)
     | Failure _ => True
     end.
Proof.
  destruct o as [u|msg].
  - apply create_user_success in Hrun
      as (r & expiry & _ & _ & _ & Hid & _ & Hname & ->).
    destruct Hkeys as [Hids Hnames].
    assert (Hfresh : cu_user_id u ∉ (user_id <$> end_users db)).
    { rewrite Hid. apply next_rowid_fresh. }
    split; [split|split].
    + cbn [end_users charge_reseller set_resellers set_end_users].
      rewrite fmap_app. apply NoDup_app. split; [exact Hids|]. split.
      * intros x Hx Hx'. cbn in Hx'. apply list_elem_of_In in Hx' as [<-|[]].
        exact (Hfresh Hx).
      * cbn. apply NoDup_singleton.
    + cbn [end_users charge_reseller set_resellers set_end_users].
      rewrite fmap_app. apply NoDup_app. split; [exact Hnames|]. split.
      * intros x Hx Hx'. cbn in Hx'. apply list_elem_of_In in Hx' as [<-|[]].
        apply list_elem_of_fmap_1 in Hx as (v & Hv & Hin).
        exact (Hname v Hin (eq_sym Hv)).
      * cbn. apply NoDup_singleton.
    + exact Hfresh.
    + eexists. split.
      * cbn [end_users charge_reseller set_resellers set_end_users].
        apply elem_of_app. right. left.
      * split; reflexivity.
  - apply create_user_failure in Hrun as ->. split; [exact Hkeys|exact I].
Qed.

Lemma create_user_keeps_keys_unique_witness :
  end_user_keys_unique
    (snd (fst (create_user (W := unit) None second_env db_after_first
                 7001 "bob" 10 30 3 tt)))
  /\ match fst (fst (create_user (W := unit) None second_env db_after_first
                       7001 "bob" 10 30 3 tt)) with
     | Success u =>
       (cu_user_id u ∉ (user_id <$> end_users db_after_first))
       /\ (exists row,
              row ∈ end_users
                      (snd (fst (create_user (W := unit) None second_env
                                   db_after_first 7001 "bob" 10 30 3 tt)))
              /\ user_id row = cu_user_id u
              /\ eu_marzban_username row = cu_marzban_username u)
     | Failure _ => True
     end.
Proof.
  apply (create_user_keeps_keys_unique (W := unit) None second_env db_after_first
           7001 "bob" 10 30 3 tt _ _ tt).
  - split; refine (bool_decide_unpack _ _); vm_compute; exact I.
  - reflexivity.
Defined.

(** X9: [create_user] keeps every reseller within its caps.  When
    [reseller_id] is a key of [resellers] and every reseller has
    [bandwidth_used <= bandwidth_limit] and [current_users <= max_users],
    the same holds after any call, successful or not. *)
Theorem create_user_keeps_resellers_within_caps
    {W : Type} (marzban_api : option (PanelAPI W)) env db tid uname gb days cl
    (w : W) o db' w'
    (Hkey : NoDup (reseller_id <$> resellers db))
    (Hcaps : within_caps db)
    (Hrun : create_user marzban_api env db tid uname gb days cl w = (o, db', w')) :
  within_caps db'.
Proof.
  destruct o as [u|msg].
  - apply create_user_success in Hrun
      as (r & expiry & Hr & Hu & Hb & _ & _ & _ & ->).
    apply fetchone_elem_of in Hr as [Hin _].
    intros x Hx. cbn [resellers charge_reseller set_resellers] in Hx.
    apply list_elem_of_fmap_1 in Hx as (y & -> & Hy).
    destruct (Z.eqb_spec (reseller_id y) (reseller_id r)) as [Heq|_].
    + assert (y = r) as -> by exact (key_determines_row _ _ _ _ Hkey Hy Hin Heq).
      cbn. lia.
    + apply Hcaps, Hy.
  - apply create_user_failure in Hrun as ->. exact Hcaps.
Qed.

Lemma create_user_keeps_resellers_within_caps_witness :
  within_caps
    (snd (fst (create_user (W := unit) None second_env db_after_first
                 7001 "bob" 10 30 3 tt))).
Proof.
  eapply (create_user_keeps_resellers_within_caps (W := unit) None second_env
            db_after_first 7001 "bob" 10 30 3 tt _ _ tt).
  - refine (bool_decide_unpack _ _); vm_compute; exact I.
  - intros r Hr. apply list_elem_of_In in Hr as [<-|[]].
    split; apply Z.leb_le; reflexivity.
  - reflexivity.
Defined.

(** X10: [create_user] keeps the books balanced.  If every reseller's
    [bandwidth_used] is the sum of the limits of its end users and its
    [current_users] is their number, both equalities still hold after any
    call: the row and the charge are written together or not at all. *)
Theorem create_user_keeps_books_balanced
    {W : Type} (marzban_api : option (PanelAPI W)) env db tid uname gb days cl
    (w : W) o db' w'
    (Hbooks : books_balance db)
    (Hrun : create_user marzban_api env db tid uname gb days cl w = (o, db', w')) :
  books_balance db'.
Proof.
  destruct o as [u|msg].
  - apply create_user_success in Hrun
      as (r & expiry & _ & _ & _ & _ & _ & _ & ->).
    intros x Hx. cbn [resellers charge_reseller set_resellers] in Hx.
    apply list_elem_of_fmap_1 in Hx as (y & -> & Hy).
    destruct (Hbooks y Hy) as [Hb Hu].
    rewrite allocated_charge, user_count_charge, allocated_app, user_count_app.
    cbn [eu_reseller_id eu_bandwidth_limit].
    destruct (Z.eqb_spec (reseller_id y) (reseller_id r)) as [Heq|Hne]; cbn.
    + rewrite Heq, Z.eqb_refl, <- Heq. lia.
    + destruct (Z.eqb_spec (reseller_id r) (reseller_id y)); [congruence|]. lia.
  - apply create_user_failure in Hrun as ->. exact Hbooks.
Qed.

Lemma create_user_keeps_books_balanced_witness :
  books_balance
    (snd (fst (create_user (W := unit) None second_env db_after_first
                 7001 "bob" 10 30 3 tt))).
Proof.
  eapply (create_user_keeps_books_balanced (W := unit) None second_env
            db_after_first 7001 "bob" 10 30 3 tt _ _ tt).
  - intros r Hr. apply list_elem_of_In in Hr as [<-|[]]. split; reflexivity.
  - reflexivity.
Defined.

(** X11: a name clash is found only after the panel has acted.  When the
    quota checks pass, the panel creates the account and a stored end user
    already has the generated [marzban_username], the INSERT raises
    IntegrityError: the call fails with that exception, the database is
    unchanged, and the panel is left in the state after its creation. *)
Theorem create_user_name_clash_after_panel_call
    {W : Type} (api : PanelAPI W) env db tid uname gb days cl (w : W)
    r expiry result w1 v
    (Hr : fetchone (fun r => telegram_id r =? tid) (resellers db) = Some r)
    (Hu : current_users r < max_users r)
    (Hb : bandwidth_used r + gb * 1024 ^ 3 <= bandwidth_limit r)
    (He : (td <-! timedelta_days days; datetime_add (now_expiry env) td)
          = inr expiry)
    (Hpanel : api_create_user api ("user_" ++ uname ++ "_" ++ uuid_hex8 env)
                {| data_limit := gb * 1024 ^ 3;
                   expire := expiry;
                   connection_limit := Some cl |} w = (inr result, w1))
    (Hv : v ∈ end_users db)
    (Hclash : eu_marzban_username v
              = ("user_" ++ uname ++ "_" ++ uuid_hex8 env)%string) :
  create_user (Some api) env db tid uname gb days cl w
  = (Failure (Raised IntegrityError), db, w1).
Proof.
  unfold create_user, create_user_try. cbn [connect working]. rewrite Hr.
  destruct (Z.geb_spec (current_users r) (max_users r)); [lia|].
  destruct (Z.gtb_spec (bandwidth_used r + gb * 1024 ^ 3) (bandwidth_limit r));
    [lia|].
  rewrite He, Hpanel. unfold insert_end_user. cbn [eu_marzban_username].
  assert (existsb
            (fun v0 => String.eqb (eu_marzban_username v0)
                         ("user_" ++ uname ++ "_" ++ uuid_hex8 env))
            (end_users db) = true) as ->.
  { apply existsb_exists. exists v. split; [apply list_elem_of_In; exact Hv|].
    rewrite Hclash. apply String.eqb_refl. }
  reflexivity.
Qed.

Lemma create_user_name_clash_after_panel_call_witness :
  create_user (Some recording_panel) first_env db_after_first 7001 "ann" 10 30 3 []
  = (Failure (Raised IntegrityError), db_after_first, ["user_ann_11aa22bb"%string]).
Proof.
  eapply (create_user_name_clash_after_panel_call recording_panel first_env
            db_after_first 7001 "ann" 10 30 3 [] charged_reseller).
  - reflexivity.
  - apply Z.ltb_lt; reflexivity.
  - apply Z.leb_le; reflexivity.
  - reflexivity.
  - reflexivity.
  - left.
  - reflexivity.
Defined.

(** X12: an expiry date Python cannot represent stops [create_user] before
    the panel is contacted.  When the quota checks pass and [days] is
    beyond the range of [timedelta] or [now + days] is outside the years
    of [datetime], the call fails with OverflowError; database and panel
    are untouched. *)
Theorem create_user_unrepresentable_expiry
    {W : Type} (marzban_api : option (PanelAPI W)) env db tid uname gb days cl
    (w : W) r
    (Hr : fetchone (fun r => telegram_id r =? tid) (resellers db) = Some r)
    (Hu : current_users r < max_users r)
    (Hb : bandwidth_used r + gb * 1024 ^ 3 <= bandwidth_limit r)
    (Hbad : 999999999 < Z.abs days
            \/ datetime_in_range (now_expiry env + days * MICROS_PER_DAY) = false) :
  create_user marzban_api env db tid uname gb days cl w
  = (Failure (Raised OverflowError), db, w).
Proof.
  unfold create_user, create_user_try. cbn [connect working]. rewrite Hr.
  destruct (Z.geb_spec (current_users r) (max_users r)); [lia|].
  destruct (Z.gtb_spec (bandwidth_used r + gb * 1024 ^ 3) (bandwidth_limit r));
    [lia|].
  unfold timedelta_days.
  destruct (Z.leb_spec (Z.abs days) 999999999) as [Hle|Hgt]; cbn [bind_exn].
  - destruct Hbad as [Hbad|Hbad]; [lia|].
    unfold datetime_add. rewrite Hbad. reflexivity.
  - reflexivity.
Qed.

Lemma create_user_unrepresentable_expiry_witness :
  create_user (Some recording_panel) first_env sample_db 7001 "ann" 1 3000000 3 []
  = (Failure (Raised OverflowError), sample_db, []).
Proof.
  apply (create_user_unrepresentable_expiry (Some recording_panel) first_env
           sample_db 7001 "ann" 1 3000000 3 [] sample_reseller).
  - reflexivity.
  - apply Z.ltb_lt; reflexivity.
  - apply Z.leb_le; reflexivity.
  - right. reflexivity.
Defined.

(** ** How the operations compose *)

(** X13: after a refresh the panel's consumption figure, not the sum of
    the allocations, decides [create_user]'s bandwidth check.  When
    [get_reseller_info] has stored a [used_traffic] of [n] for a reseller,
    the next [create_user] of that reseller is refused for lack of quota
    exactly when the user cap is reached or [n + requested] exceeds the
    limit, whatever [bandwidth_used] held before the refresh. *)
Theorem refreshed_usage_governs_create_user
    (F : Float) {W : Type} (api : PanelAPI W) (marzban_api : option (PanelAPI W))
    now env db tid uname gb days cl (w : W) r e ud w1 n
    (Htid : tid <> 0)
    (Hr : fetchone (fun r => telegram_id r =? tid) (resellers db) = Some r)
    (He : expiry_date r = Some e)
    (Hname : marzban_username r <> ""%string)
    (Hpanel : api_get_user_info api (marzban_username r) w = (inr ud, w1))
    (Hn : used_traffic ud = Some n) :
  exists info db1,
    get_reseller_info (Some api) now db (Some tid) None None w
    = (Success info, db1, w1)
    /\ (quota_denied
          (fst (fst (create_user marzban_api env db1 tid uname gb days cl w1))) = true
        <-> current_users r >= max_users r
            \/ n + gb * 1024 ^ 3 > bandwidth_limit r).
Proof.
  assert (Hinfo : exists info,
             get_reseller_info (Some api) now db (Some tid) None None w
             = (Success info, store_reseller_usage (reseller_id r) n db, w1)).
  { unfold get_reseller_info, get_reseller_info_try, refresh_usage, reseller_query.
    cbn [truthy_int]. destruct (Z.eqb_spec tid 0) as [|_]; [contradiction|].
    cbn [connect working]. rewrite Hr.
    destruct (String.eqb_spec (marzban_username r) "") as [|_]; [contradiction|].
    rewrite Hpanel, Hn, He. cbv zeta. unfold default, id.
    cbn [from_option parse_expiry bind_exn].
    destruct (bandwidth_dict_total (bandwidth_limit r) n) as (bw & -> & _).
    cbn [bind_exn]. rewrite close_commit. eexists. reflexivity. }
  destruct Hinfo as [info Hinfo].
  set (db1 := store_reseller_usage (reseller_id r) n db) in *.
  exists info, db1. split; [exact Hinfo|].
  assert (Hr1 : exists r1,
             fetchone (fun r => telegram_id r =? tid) (resellers db1) = Some r1
             /\ bandwidth_used r1 = n
             /\ bandwidth_limit r1 = bandwidth_limit r
             /\ current_users r1 = current_users r
             /\ max_users r1 = max_users r).
  { unfold db1, store_reseller_usage. cbn [resellers set_resellers].
    rewrite fetchone_fmap.
    - rewrite Hr. cbn [fmap option_fmap option_map]. rewrite Z.eqb_refl.
      eexists. split; [reflexivity|]. cbn. repeat split.
    - intros x. destruct (reseller_id x =? reseller_id r); reflexivity. }
  destruct Hr1 as (r1 & Hf1 & Hused & Hlim & Hcur & Hmax).
  split.
  - intros Hden.
    destruct (Z_lt_ge_dec (current_users r) (max_users r)) as [Hlt|Hge];
      [|left; exact Hge].
    destruct (Z_le_gt_dec (n + gb * 1024 ^ 3) (bandwidth_limit r)) as [Hle|Hgt];
      [|right; exact Hgt].
    rewrite (create_user_within_caps marzban_api env db1 tid uname gb days cl w1 r1)
      in Hden; [discriminate|exact Hf1|lia|lia].
  - intros Hover.
    destruct (create_user_over_cap marzban_api env db1 tid uname gb days cl w1 r1 Hf1)
      as (msg & Hq & ->); [lia|exact Hq].
Qed.

Lemma refreshed_usage_governs_create_user_witness :
  exists info db1,
    get_reseller_info (H := symbolic_float) (Some accepting_panel) new_year_2025
      sold_out_db (Some 7001) None None tt = (Success info, db1, tt)
    /\ (quota_denied
          (fst (fst (create_user (Some accepting_panel) second_env db1
                       7001 "bob" 10 30 3 tt))) = true
        <-> current_users sold_out_reseller >= max_users sold_out_reseller
            \/ 5 * GiB + 10 * 1024 ^ 3 > bandwidth_limit sold_out_reseller).
Proof.
  eapply (refreshed_usage_governs_create_user symbolic_float accepting_panel
            (Some accepting_panel) new_year_2025 second_env sold_out_db 7001
            "bob" 10 30 3 tt sold_out_reseller);
    try reflexivity; discriminate.
Defined.

Lemma limits_view_store_limits rid nb ne nm db :
  limits_view (store_reseller_limits rid nb ne nm db)
  = (fun '(id, l, x, m) =>
       if id =? rid then (id, nb, Some ne, nm) else (id, l, x, m))
      <$> limits_view db.
Proof.
  unfold limits_view, store_reseller_limits. cbn [resellers set_resellers].
  rewrite <- !list_fmap_compose. apply list_fmap_ext.
  intros i r _. cbn. destruct (reseller_id r =? rid); reflexivity.
Qed.

(** X14: what a successful [update_reseller_limits] writes.  The rows of
    the reseller found get its stored bandwidth limit plus
    [add_bandwidth_gb] GiB, its stored expiry plus [add_days] days and its
    [max_users] plus [add_users]; the limits of every other reseller, the
    user counts and the end users are as before.  The amounts are added
    as given, negative ones included, while the confirmation lists only
    the positive ones. *)
Theorem update_adds_to_stored_limits
    (F : Float) {W : Type} (marzban_api : option (PanelAPI W))
    now db rid tid mname abw ad au (w : W) p r e msg db' w'
    (Hq : reseller_query tid rid mname = Some p)
    (Hr : fetchone p (resellers db) = Some r)
    (He : expiry_date r = Some e)
    (Hok : update_reseller_limits marzban_api now db rid tid mname abw ad au w
           = (Success msg, db', w')) :
  limits_view db'
  = (fun '(id, l, x, m) =>
       if id =? reseller_id r
       then (id, bandwidth_limit r + abw * 1024 ^ 3,
             Some (e + ad * MICROS_PER_DAY), max_users r + au)
       else (id, l, x, m)) <$> limits_view db
  /\ current_users <$> resellers db' = current_users <$> resellers db
  /\ end_users db' = end_users db
  /\ msg = update_message abw ad au.
Proof.
  pose proof (update_reseller_limits_cases marzban_api now db rid tid mname
                abw ad au w) as Hc.
  pose proof (get_reseller_info_frame marzban_api now db tid rid mname w) as Hfr.
  assert (Hmsg : msg = update_message abw ad au).
  { revert Hok. unfold update_reseller_limits, update_reseller_limits_try.
    destruct (get_reseller_info marzban_api now db tid rid mname w)
      as [[[reseller|m] d1] x1]; [|discriminate].
    destruct (bind_exn (timedelta_days ad) _) as [x|ne]; [discriminate|].
    destruct marzban_api as [api|].
    - destruct (api_update_user api _ _ x1) as [[x|u] x2]; [discriminate|].
      intros [= <- _ _]. reflexivity.
    - intros [= <- _ _]. reflexivity. }
  destruct (get_reseller_info marzban_api now db tid rid mname w)
    as [[info db1] w1] eqn:Hinfo.
  rewrite Hok in Hc. cbn [fst snd] in Hfr.
  destruct Hfr as (Hlv & Heu & _ & _).
  destruct Hc as (reseller & td & new_expiry & -> & Htd & Hadd & ->).
  apply get_reseller_info_success in Hinfo
    as (p0 & r0 & e0 & Hq0 & Hr0 & He0 & Hie & Hid & _ & Hlim & Hmax & Hdb1).
  rewrite Hq in Hq0. injection Hq0 as <-.
  rewrite Hr in Hr0. injection Hr0 as <-.
  rewrite He in He0. injection He0 as <-.
  assert (Hnew : new_expiry = e + ad * MICROS_PER_DAY).
  { unfold timedelta_days in Htd.
    destruct (Z.abs ad <=? 999999999); [|discriminate].
    injection Htd as <-. unfold datetime_add in Hadd. rewrite Hie in Hadd.
    destruct (datetime_in_range _); [|discriminate].
    injection Hadd as <-. reflexivity. }
  split; [|split; [|split]].
  - rewrite limits_view_store_limits, Hlv, Hid, Hlim, Hmax, Hnew. reflexivity.
  - unfold store_reseller_limits. cbn [resellers set_resellers].
    rewrite <- list_fmap_compose.
    transitivity (current_users <$> resellers db1).
    + apply list_fmap_ext. intros i x _. cbn.
      destruct (reseller_id x =? ri_reseller_id reseller); reflexivity.
    + destruct Hdb1 as [->| ->]; [reflexivity|].
      unfold store_reseller_usage. cbn [resellers set_resellers].
      rewrite <- list_fmap_compose. apply list_fmap_ext. intros i x _. cbn.
      destruct (reseller_id x =? reseller_id r); reflexivity.
  - exact Heu.
  - exact Hmsg.
Qed.

Lemma update_adds_to_stored_limits_witness :
  limits_view
    (snd (fst (update_reseller_limits (H := symbolic_float) (W := unit) None
                 new_year_2025 sample_db (Some 1) None None (-20) 10 (-1) tt)))
  = [(1, 80 * GiB, Some (day 739291), 1)]
  /\ update_reseller_limits (H := symbolic_float) (W := unit) None
       new_year_2025 sample_db (Some 1) None None (-20) 10 (-1) tt
     = (Success [DaysAdded 10],
        snd (fst (update_reseller_limits (H := symbolic_float) (W := unit) None
                    new_year_2025 sample_db (Some 1) None None (-20) 10 (-1) tt)),
        tt).
Proof.
  split; [|reflexivity].
  refine (proj1 (update_adds_to_stored_limits symbolic_float (W := unit) None
                   new_year_2025 sample_db (Some 1) None None (-20) 10 (-1) tt
                   (fun r => reseller_id r =? 1) sample_reseller (day 739281)
                   _ _ tt eq_refl eq_refl eq_refl eq_refl)).
Defined.

(** ** The notification sweep as a whole *)

Lemma set_notifications_twice ns e1 e2 db :
  set_notifications
    (notifications (set_notifications (ns ++ e1) db) ++ e2)
    (set_notifications (ns ++ e1) db)
  = set_notifications (ns ++ e1 ++ e2) db.
Proof. unfold set_notifications. cbn. rewrite <- app_assoc. reflexivity. Qed.

Section More_sweep_facts.
Context `{Float}.

(** The loop stops at the first refused delivery: the rows before it have
    been alerted, the exception leaves the loop. *)
Lemma warn_bandwidth_refused delivers env pre row post :
  Forall (fun r => delivers (alert_of r) = true) pre ->
  delivers (alert_of row) = false ->
  forall i c out,
    warn_bandwidth (Some delivers) env i (pre ++ row :: post) c out
    = (inl SendError, out ++ (alert_of <$> pre)).
Proof.
  intros Hpre Hrow. induction Hpre as [|[u tg] pre Hd _ IH]; intros i c out.
  - destruct row as [u tg]. cbn [app warn_bandwidth]. unfold truediv.
    change (1024 ^ 3 =? 0) with false. cbv iota. unfold send_message.
    unfold alert_of in Hrow. cbn [fst snd] in Hrow. rewrite Hrow.
    cbn. rewrite app_nil_r. reflexivity.
  - cbn [app warn_bandwidth]. unfold truediv.
    change (1024 ^ 3 =? 0) with false. cbv iota. unfold send_message.
    unfold alert_of in Hd. cbn [fst snd] in Hd. rewrite Hd.
    rewrite IH. rewrite fmap_cons, <- app_assoc. reflexivity.
Qed.

Variable bot : option (alert -> bool).
Hypothesis never_refuses : forall delivers a, bot = Some delivers -> delivers a = true.

(** With no bot, or one that delivers everything, the first loop reaches
    its end: one alert (if there is a bot) and one record per row, in
    order. *)
Lemma warn_bandwidth_complete env rows : forall i c out,
  exists c',
    warn_bandwidth bot env i rows c out
    = (inr c', out ++ match bot with
                      | Some _ => alert_of <$> rows
                      | None => []
                      end)
    /\ committed c' = committed c
    /\ exists extra,
        working c' = set_notifications (notifications (working c) ++ extra)
                                       (working c)
        /\ n_user_id <$> extra = (fun row => user_id (fst row)) <$> rows
        /\ Forall (fun n => notification_type n = "bandwidth_warning"%string) extra.
Proof.
  induction rows as [|[u tg] rows IH]; intros i c out.
  - exists c. cbn [warn_bandwidth]. split.
    + destruct bot; cbn; rewrite app_nil_r; reflexivity.
    + split; [reflexivity|]. exists []. split; [|split; [reflexivity|constructor]].
      symmetry. apply set_notifications_id.
  - cbn [warn_bandwidth]. unfold truediv.
    change (1024 ^ 3 =? 0) with false. cbv iota. unfold send_message.
    destruct bot as [delivers|] eqn:Hbot.
    + rewrite (never_refuses delivers _ eq_refl).
      destruct (IH (S i)
                   (execute (insert_notification (user_id u) "bandwidth_warning"
                                                 (bw_stamp env i)) c)
                   (out ++ [BandwidthAlert tg (eu_username u)
                              (round2 (fdiv (eu_bandwidth_limit u - eu_bandwidth_used u)
                                            (1024 ^ 3)))]))
        as (c' & -> & Hc & extra & Hw & Hids & Hk).
      exists c'. split; [|split; [exact Hc|]].
      * rewrite fmap_cons, <- app_assoc. reflexivity.
      * eexists (_ :: extra). split; [|split].
        -- rewrite Hw. cbn [execute working insert_notification].
           unfold set_notifications. cbn. rewrite <- app_assoc. reflexivity.
        -- rewrite !fmap_cons, Hids. reflexivity.
        -- constructor; [reflexivity|exact Hk].
    + destruct (IH (S i)
                   (execute (insert_notification (user_id u) "bandwidth_warning"
                                                 (bw_stamp env i)) c)
                   out)
        as (c' & -> & Hc & extra & Hw & Hids & Hk).
      exists c'. split; [reflexivity|split; [exact Hc|]].
      eexists (_ :: extra). split; [|split].
      * rewrite Hw. cbn [execute working insert_notification].
        unfold set_notifications. cbn. rewrite <- app_assoc. reflexivity.
      * rewrite !fmap_cons, Hids. reflexivity.
      * constructor; [reflexivity|exact Hk].
Qed.

(** The second loop reaches its end when every row has an expiry date
    [fromisoformat] reads. *)
Lemma warn_expiry_complete env rows :
  Forall (fun row => eu_expiry_date (fst row) <> None) rows ->
  forall i c out,
  exists c' new,
    warn_expiry bot env i rows c out = (inr c', out ++ new)
    /\ (bot = None -> new = [])
    /\ Forall is_expiry_alert new
    /\ committed c' = committed c
    /\ exists extra,
        working c' = set_notifications (notifications (working c) ++ extra)
                                       (working c)
        /\ Forall (fun n => notification_type n = "expiry_warning"%string) extra.
Proof.
  induction 1 as [|[u tg] rows Hu _ IH]; intros i c out.
  - exists c, []. cbn [warn_expiry]. rewrite app_nil_r.
    split; [reflexivity|]. split; [reflexivity|]. split; [constructor|].
    split; [reflexivity|]. exists []. split; [|constructor].
    symmetry. apply set_notifications_id.
  - cbn [warn_expiry]. cbn [fst] in Hu.
    destruct (eu_expiry_date u) as [expiry|]; [|contradiction].
    cbn [parse_expiry]. unfold send_message.
    destruct bot as [delivers|] eqn:Hbot.
    + rewrite (never_refuses delivers _ eq_refl).
      destruct (IH (S i)
                   (execute (insert_notification (user_id u) "expiry_warning"
                                                 (ex_stamp env i)) c)
                   (out ++ [ExpiryAlert tg (eu_username u)
                              (days_between expiry (ex_now env i)) expiry]))
        as (c' & new & -> & _ & Hnew & Hc & extra & Hw & Hk).
      exists c'. eexists (_ :: new). split; [|split; [|split; [|split]]].
      * rewrite <- app_assoc. reflexivity.
      * discriminate.
      * constructor; [exact I|exact Hnew].
      * exact Hc.
      * eexists (_ :: extra). split.
        -- rewrite Hw. cbn [execute working insert_notification].
           unfold set_notifications. cbn. rewrite <- app_assoc. reflexivity.
        -- constructor; [reflexivity|exact Hk].
    + destruct (IH (S i)
                   (execute (insert_notification (user_id u) "expiry_warning"
                                                 (ex_stamp env i)) c)
                   out)
        as (c' & new & -> & Hnone & Hnew & Hc & extra & Hw & Hk).
      exists c', new. split; [reflexivity|]. split; [exact Hnone|].
      split; [exact Hnew|]. split; [exact Hc|].
      eexists (_ :: extra). split.
      * rewrite Hw. cbn [execute working insert_notification].
        unfold set_notifications. cbn. rewrite <- app_assoc. reflexivity.
      * constructor; [reflexivity|exact Hk].
Qed.

End More_sweep_facts.

(** X15: the sweep only ever appends notification rows.  Whatever the bot
    does and whether or not the run is committed, the resellers, end
    users, admins and usage log are as before, and the notifications
    table afterwards starts with the rows it had. *)
Theorem sweep_only_appends_notifications
    (F : Float) (bot : option (alert -> bool)) env db :
  let db' := fst (check_and_notify_users bot env db) in
  resellers db' = resellers db
  /\ end_users db' = end_users db
  /\ marzban_admins db' = marzban_admins db
  /\ usage_log db' = usage_log db
  /\ exists extra, notifications db' = notifications db ++ extra.
Proof.
  pose proof (check_and_notify_users_inv bot env db) as Hinv. cbn zeta in Hinv.
  destruct (check_and_notify_users bot env db) as [db' outbox]. cbn [fst].
  destruct Hinv as [_ (extra & -> & _)].
  repeat split. exists extra. reflexivity.
Qed.

(** X16: one refused delivery undoes the records of the whole run but not
    its alerts.  When the bot delivers the alerts of the first selected
    rows and raises on the next, the run ends there: the database is left
    exactly as it was, no warning recorded, while the alerts delivered
    before the failure stay sent, so the next run selects and alerts the
    same users again. *)
Theorem sweep_refused_delivery_rolls_back
    (F : Float) (delivers : alert -> bool) env db pre row post
    (Hsel : select_bandwidth_warnings (cutoff_3_days env) db = pre ++ row :: post)
    (Hpre : Forall (fun r => delivers (alert_of r) = true) pre)
    (Hrow : delivers (alert_of row) = false) :
  check_and_notify_users (Some delivers) env db = (db, alert_of <$> pre)
  /\ select_bandwidth_warnings (cutoff_3_days env)
       (fst (check_and_notify_users (Some delivers) env db))
     = pre ++ row :: post.
Proof.
  assert (Hrun : check_and_notify_users (Some delivers) env db
                 = (db, alert_of <$> pre)).
  { unfold check_and_notify_users. cbn [connect working]. rewrite Hsel.
    rewrite (warn_bandwidth_refused delivers env pre row post Hpre Hrow).
    rewrite close_connect. reflexivity. }
  split; [exact Hrun|]. rewrite Hrun. exact Hsel.
Qed.

Lemma sweep_refused_delivery_rolls_back_witness :
  check_and_notify_users (Some failing_bot) first_sweep two_due_db
  = (two_due_db, alert_of <$> [(edge_user, 7001)])
  /\ select_bandwidth_warnings (cutoff_3_days first_sweep)
       (fst (check_and_notify_users (Some failing_bot) first_sweep two_due_db))
     = [(edge_user, 7001)] ++ (user_with 2 "near" 100 50, 7001) :: [].
Proof.
  apply (sweep_refused_delivery_rolls_back symbolic_float failing_bot first_sweep
           two_due_db [(edge_user, 7001)] (user_with 2 "near" 100 50, 7001) []).
  - reflexivity.
  - repeat constructor.
  - reflexivity.
Defined.

(** X17: a run that nothing interrupts records every selected user, alerted
    or not.  With no bot, or a bot that delivers every alert, and expiry
    dates that parse, the run commits one bandwidth-warning row per
    selected row, in order, followed by the expiry-warning rows; with a
    bot the selected rows' alerts are sent in the same order, and without
    one the rows are recorded as warned although no alert went out. *)
Theorem sweep_records_every_selected_row
    (F : Float) (bot : option (alert -> bool)) env db
    (Hbot : forall delivers a, bot = Some delivers -> delivers a = true)
    (Hexp : forall d, Forall (fun row => eu_expiry_date (fst row) <> None)
                             (expiry_due env d)) :
  let rows := select_bandwidth_warnings (cutoff_3_days env) db in
  let '(db', outbox) := check_and_notify_users bot env db in
  exists bw ex later,
    notifications db' = notifications db ++ bw ++ ex
    /\ n_user_id <$> bw = (fun row => user_id (fst row)) <$> rows
    /\ Forall (fun n => notification_type n = "bandwidth_warning"%string) bw
    /\ Forall (fun n => notification_type n = "expiry_warning"%string) ex
    /\ outbox = match bot with
                | Some _ => alert_of <$> rows
                | None => []
                end ++ later
    /\ Forall is_expiry_alert later
    /\ (bot = None -> outbox = []).
Proof.
  cbn zeta. unfold check_and_notify_users. cbn [connect working].
  destruct (warn_bandwidth_complete bot Hbot env
              (select_bandwidth_warnings (cutoff_3_days env) db) 0%nat
              (connect db) [])
    as (c1 & -> & Hc1 & bw & Hw1 & Hids & Hbw).
  destruct (warn_expiry_complete bot Hbot env (expiry_due env (working c1))
              (Hexp (working c1)) 0%nat c1
              ([] ++ match bot with
                     | Some _ => alert_of <$> select_bandwidth_warnings
                                                (cutoff_3_days env) db
                     | None => []
                     end))
    as (c2 & later & -> & Hnone & Hlater & Hc2 & ex & Hw2 & Hex).
  exists bw, ex, later. rewrite close_commit, Hw2, Hw1.
  cbn [connect working notifications set_notifications app].
  split; [rewrite <- app_assoc; reflexivity|].
  split; [exact Hids|]. split; [exact Hbw|]. split; [exact Hex|].
  split; [reflexivity|]. split; [exact Hlater|].
  intros ->. rewrite (Hnone eq_refl). reflexivity.
Qed.

Lemma sweep_records_every_selected_row_witness :
  exists bw ex later,
    notifications (fst (check_and_notify_users (H := symbolic_float) None
                          first_sweep sweep_db))
    = notifications sweep_db ++ bw ++ ex
    /\ n_user_id <$> bw
       = (fun row => user_id (fst row))
           <$> select_bandwidth_warnings (cutoff_3_days first_sweep) sweep_db
    /\ Forall (fun n => notification_type n = "bandwidth_warning"%string) bw
    /\ Forall (fun n => notification_type n = "expiry_warning"%string) ex
    /\ snd (check_and_notify_users (H := symbolic_float) None first_sweep sweep_db)
       = [] ++ later
    /\ Forall (is_expiry_alert (H := symbolic_float)) later
    /\ (None = None (A := alert (H := symbolic_float) -> bool) ->
        snd (check_and_notify_users (H := symbolic_float) None first_sweep sweep_db)
        = []).
Proof.
  apply (sweep_records_every_selected_row symbolic_float None first_sweep sweep_db).
  - intros delivers a Hb. discriminate Hb.
  - intros d. constructor.
Defined.

(** X18: the three-day window is measured in calendar days.  The stored
    stamp is [isoformat()] text (date, "T", time) and the cutoff is
    SQLite's [datetime()] text (date, space, time), compared as strings:
    a bandwidth warning stamped on the cutoff's own calendar day or later
    keeps its user out of the selection whatever the two times of day
    are, so a warning can suppress the next one for almost four days. *)
Theorem warning_window_counts_calendar_days
    (cutoff_date cutoff_time stamp_date stamp_time : string) db n row
    (Hlen : String.length stamp_date = String.length cutoff_date)
    (Hday : String.compare stamp_date cutoff_date <> Lt)
    (Hn : n ∈ notifications db)
    (Hk : notification_type n = "bandwidth_warning"%string)
    (Hs : sent_at n = (stamp_date ++ String "T" stamp_time)%string)
    (Hrow : row ∈ select_bandwidth_warnings
                    (cutoff_date ++ String " " cutoff_time) db) :
  user_id (fst row) <> n_user_id n.
Proof.
  apply (recently_warned_not_selected
           (cutoff_date ++ String " " cutoff_time) db n row Hn Hk); [|exact Hrow].
  rewrite Hs. unfold text_gt.
  rewrite (compare_stamp_with_cutoff _ _ _ _ Hlen).
  destruct (String.compare stamp_date cutoff_date); congruence.
Qed.

Lemma warning_window_counts_calendar_days_witness :
  user_id (fst (user_with 2 "near" 100 50, 7001)) <> n_user_id first_warning.
Proof.
  apply (warning_window_counts_calendar_days
           "2025-01-04" "23:59:59" "2025-01-04" "09:00:00.123456"
           warned_two_due_db first_warning (user_with 2 "near" 100 50, 7001)).
  - reflexivity.
  - discriminate.
  - left.
  - reflexivity.
  - reflexivity.
  - left.
Defined.

(** ** The panel gateway: logging in *)

Section More_gateway_facts.
Import MarzbanAPI.
Context {S : Type}.
Variable serve : request -> S -> (string + response) * S.
Variable username password : string.

(** [login] always sends its one request. *)
Lemma login_sends_one_request g :
  sent (snd (login serve username password g)) = sent g ++ [login_request username password]
  /\ panel (snd (login serve username password g))
     = snd (serve (login_request username password) (panel g)).
Proof.
  unfold login, http, login_request.
  destruct (serve _ (panel g)) as [[e|resp] s1]; [split; reflexivity|].
  destruct (json resp) as [data|]; split; reflexivity.
Qed.

(** A login that reports failure leaves no usable token behind. *)
Lemma failed_login_leaves_no_token g :
  truthy_str (token g) = None ->
  fst (login serve username password g) = false ->
  truthy_str (token (snd (login serve username password g))) = None.
Proof.
  unfold login, http. intros Hnone.
  destruct (serve _ (panel g)) as [[e|resp] s1]; [intros _; exact Hnone|].
  destruct (json resp) as [data|]; [|intros _; exact Hnone].
  destruct (access_token data) as [t|]; [discriminate|]. reflexivity.
Qed.

(** A login whose answer carries a token stores it. *)
Lemma login_stores_token g resp s1 data t :
  serve (login_request username password) (panel g) = (inr resp, s1) ->
  json resp = Some data ->
  access_token data = Some t ->
  login serve username password g
  = (true, {| token := Some t; panel := s1; sent := sent g ++ [login_request username password] |}).
Proof.
  intros Hs Hj Ht. unfold login, http. fold (login_request username password).
  rewrite Hs, Hj, Ht. reflexivity.
Qed.

End More_gateway_facts.

(** X19: the gateway logs in once and reuses the token.  From a gateway
    holding no token, when the panel answers the login with a non-empty
    [access_token], a call sends the login request and then its own
    request carrying that token, and stores the token; the call after it,
    whichever it is, sends its single request with the same token and no
    further login. *)
Theorem gateway_logs_in_once_then_reuses_token
    {S A B : Type}
    (serve : MarzbanAPI.request -> S -> (string + MarzbanAPI.response) * S)
    (username password : string)
    m1 p1 b1 (ok1 : MarzbanAPI.response -> string + A)
    m2 p2 b2 (ok2 : MarzbanAPI.response -> string + B)
    (g : MarzbanAPI.gateway) resp s1 data t
    (Hnone : truthy_str (MarzbanAPI.token g) = None)
    (Hs : serve (login_request username password) (MarzbanAPI.panel g)
          = (inr resp, s1))
    (Hj : MarzbanAPI.json resp = Some data)
    (Ht : MarzbanAPI.access_token data = Some t)
    (Hne : t <> ""%string) :
  let g1 := snd (MarzbanAPI.call serve username password m1 p1 b1 ok1 g) in
  let g2 := snd (MarzbanAPI.call serve username password m2 p2 b2 ok2 g1) in
  MarzbanAPI.sent g1
  = MarzbanAPI.sent g
    ++ [login_request username password;
        {| MarzbanAPI.method := m1; MarzbanAPI.path := p1;
           MarzbanAPI.bearer := Some t; MarzbanAPI.body := b1 |}]
  /\ MarzbanAPI.token g1 = Some t
  /\ MarzbanAPI.sent g2
     = MarzbanAPI.sent g1
       ++ [{| MarzbanAPI.method := m2; MarzbanAPI.path := p2;
              MarzbanAPI.bearer := Some t; MarzbanAPI.body := b2 |}]
  /\ MarzbanAPI.token g2 = Some t.
Proof.
  cbn zeta.
  assert (H1 : MarzbanAPI.sent
                 (snd (MarzbanAPI.call serve username password m1 p1 b1 ok1 g))
               = MarzbanAPI.sent g
                 ++ [login_request username password;
                     {| MarzbanAPI.method := m1; MarzbanAPI.path := p1;
                        MarzbanAPI.bearer := Some t; MarzbanAPI.body := b1 |}]
               /\ MarzbanAPI.token
                    (snd (MarzbanAPI.call serve username password m1 p1 b1 ok1 g))
                  = Some t).
  { unfold MarzbanAPI.call. rewrite Hnone.
    rewrite (login_stores_token serve username password g resp s1 data t Hs Hj Ht).
    unfold MarzbanAPI.http. cbn [MarzbanAPI.token MarzbanAPI.panel MarzbanAPI.sent].
    destruct (serve _ s1) as [[e|resp2] s2].
    - cbn. rewrite <- app_assoc. split; reflexivity.
    - destruct (MarzbanAPI.status_code resp2 =? 200); [destruct (ok1 resp2)|];
        cbn; rewrite <- app_assoc; split; reflexivity. }
  destruct H1 as [Hsent Htok].
  destruct (call_with_token serve username password m2 p2 b2 ok2 _ t Htok Hne)
    as (Hsent2 & Htok2 & _).
  split; [exact Hsent|]. split; [exact Htok|]. split; [exact Hsent2|].
  rewrite Htok2. exact Htok.
Qed.

Lemma gateway_logs_in_once_then_reuses_token_witness :
  let g1 := snd (MarzbanAPI.get_user_info token_server "admin" "secret"
                   "user_ann_11aa22bb" fresh_gateway) in
  let g2 := snd (MarzbanAPI.delete_user token_server "admin" "secret"
                   "user_ann_11aa22bb" g1) in
  MarzbanAPI.sent g1
  = MarzbanAPI.sent fresh_gateway
    ++ [login_request "admin" "secret";
        {| MarzbanAPI.method := MarzbanAPI.GET;
           MarzbanAPI.path := "/user/user_ann_11aa22bb";
           MarzbanAPI.bearer := Some "tok"%string;
           MarzbanAPI.body := MarzbanAPI.NoBody |}]
  /\ MarzbanAPI.token g1 = Some "tok"%string
  /\ MarzbanAPI.sent g2
     = MarzbanAPI.sent g1
       ++ [{| MarzbanAPI.method := MarzbanAPI.DELETE;
              MarzbanAPI.path := "/user/user_ann_11aa22bb";
              MarzbanAPI.bearer := Some "tok"%string;
              MarzbanAPI.body := MarzbanAPI.NoBody |}]
  /\ MarzbanAPI.token g2 = Some "tok"%string.
Proof.
  eapply (gateway_logs_in_once_then_reuses_token token_server "admin" "secret"
            MarzbanAPI.GET "/user/user_ann_11aa22bb" MarzbanAPI.NoBody
            MarzbanAPI.response_user
            MarzbanAPI.DELETE "/user/user_ann_11aa22bb" MarzbanAPI.NoBody
            (fun _ => inr tt) fresh_gateway);
    try reflexivity.
  discriminate.
Defined.

(** X20: a failed login ends the call and is tried again by the next one.
    From a gateway holding no token, when [login] reports failure (the
    request raised, the answer was not JSON, or it had no
    [access_token]), the call returns the authentication error having
    sent the login request only, and the gateway still holds no token, so
    the next call begins with a login again. *)
Theorem gateway_failed_login_ends_the_call
    {S A B : Type}
    (serve : MarzbanAPI.request -> S -> (string + MarzbanAPI.response) * S)
    (username password : string)
    m1 p1 b1 (ok1 : MarzbanAPI.response -> string + A)
    m2 p2 b2 (ok2 : MarzbanAPI.response -> string + B)
    (g : MarzbanAPI.gateway)
    (Hnone : truthy_str (MarzbanAPI.token g) = None)
    (Hfail : fst (MarzbanAPI.login serve username password g) = false) :
  let '(r, g1) := MarzbanAPI.call serve username password m1 p1 b1 ok1 g in
  r = inl AuthFailed
  /\ MarzbanAPI.sent g1 = MarzbanAPI.sent g ++ [login_request username password]
  /\ exists rest,
      MarzbanAPI.sent
        (snd (MarzbanAPI.call serve username password m2 p2 b2 ok2 g1))
      = MarzbanAPI.sent g1 ++ login_request username password :: rest.
Proof.
  pose proof (login_sends_one_request serve username password g) as [Hsent _].
  pose proof (failed_login_leaves_no_token serve username password g Hnone Hfail)
    as Htok.
  unfold MarzbanAPI.call at 1. rewrite Hnone.
  destruct (MarzbanAPI.login serve username password g) as [ok g1].
  cbn [fst snd] in *. subst ok. split; [reflexivity|]. split; [exact Hsent|].
  apply (call_without_token_logs_in serve username password m2 p2 b2 ok2 g1 Htok).
Qed.

Lemma gateway_failed_login_ends_the_call_witness :
  let '(r, g1) := MarzbanAPI.get_user_info unauthorized_server "admin" "secret"
                    "user_ann_11aa22bb" fresh_gateway in
  r = inl AuthFailed
  /\ MarzbanAPI.sent g1
     = MarzbanAPI.sent fresh_gateway ++ [login_request "admin" "secret"]
  /\ exists rest,
      MarzbanAPI.sent
        (snd (MarzbanAPI.delete_user unauthorized_server "admin" "secret"
                "user_ann_11aa22bb" g1))
      = MarzbanAPI.sent g1 ++ login_request "admin" "secret" :: rest.
Proof.
  apply (gateway_failed_login_ends_the_call unauthorized_server "admin" "secret"
           MarzbanAPI.GET "/user/user_ann_11aa22bb" MarzbanAPI.NoBody
           MarzbanAPI.response_user
           MarzbanAPI.DELETE "/user/user_ann_11aa22bb" MarzbanAPI.NoBody
           (fun _ => inr tt) fresh_gateway); reflexivity.
Defined.

(** X21: through the gateway, a panel that cannot be logged in to stops
    [create_user] after the quota checks.  With the gateway as the
    manager's [marzban_api], no token held and a failing login, a request
    within the caps ends with the panel failure carrying the
    authentication error: nothing is written to the database and the
    login is the only request that went out. *)
Theorem create_user_through_gateway_without_login
    {S : Type}
    (serve : MarzbanAPI.request -> S -> (string + MarzbanAPI.response) * S)
    (username password : string) env db tid uname gb days cl
    (g : MarzbanAPI.gateway) r expiry
    (Hr : fetchone (fun r => telegram_id r =? tid) (resellers db) = Some r)
    (Hu : current_users r < max_users r)
    (Hb : bandwidth_used r + gb * 1024 ^ 3 <= bandwidth_limit r)
    (He : (td <-! timedelta_days days; datetime_add (now_expiry env) td)
          = inr expiry)
    (Hnone : truthy_str (MarzbanAPI.token g) = None)
    (Hfail : fst (MarzbanAPI.login serve username password g) = false) :
  let '(o, db', g') :=
    create_user (Some (MarzbanAPI.as_panel_api serve username password))
                env db tid uname gb days cl g in
  o = Failure (PanelCreateFailed AuthFailed)
  /\ db' = db
  /\ MarzbanAPI.sent g' = MarzbanAPI.sent g ++ [login_request username password].
Proof.
  pose proof (login_sends_one_request serve username password g) as [Hsent _].
  unfold create_user, create_user_try. cbn [connect working]. rewrite Hr.
  destruct (Z.geb_spec (current_users r) (max_users r)); [lia|].
  destruct (Z.gtb_spec (bandwidth_used r + gb * 1024 ^ 3) (bandwidth_limit r));
    [lia|].
  rewrite He. cbn [MarzbanAPI.as_panel_api api_create_user].
  unfold MarzbanAPI.create_user, MarzbanAPI.call. rewrite Hnone.
  destruct (MarzbanAPI.login serve username password g) as [ok g1].
  cbn [fst snd] in *. subst ok. cbn. repeat split. exact Hsent.
Qed.

Lemma create_user_through_gateway_without_login_witness :
  let '(o, db', g') :=
    create_user (Some (MarzbanAPI.as_panel_api unauthorized_server "admin" "secret"))
                first_env sample_db 7001 "ann" 60 30 3 fresh_gateway in
  o = Failure (PanelCreateFailed AuthFailed)
  /\ db' = sample_db
  /\ MarzbanAPI.sent g'
     = MarzbanAPI.sent fresh_gateway ++ [login_request "admin" "secret"].
Proof.
  eapply (create_user_through_gateway_without_login unauthorized_server
            "admin" "secret" first_env sample_db 7001 "ann" 60 30 3
            fresh_gateway sample_reseller).
  - reflexivity.
  - apply Z.ltb_lt; reflexivity.
  - apply Z.leb_le; reflexivity.
  - reflexivity.
  - reflexivity.
  - reflexivity.
Defined.

(** ** Admin limits: writing and reading back *)

Lemma get_admin_limits_store_limits db name l :
  AdminLimits.get_admin_limits db name <> None ->
  AdminLimits.get_admin_limits (AdminLimitsManager.store_limits name l db) name
  = Some (l ∪ AdminLimits.default_limits).
Proof.
  unfold AdminLimits.get_admin_limits, AdminLimitsManager.store_limits.
  cbn [marzban_admins set_marzban_admins]. intros Hsome.
  rewrite fetchone_fmap.
  - destruct (fetchone _ (marzban_admins db)) as [a|] eqn:Ha; [|contradiction].
    apply fetchone_elem_of in Ha as [_ Hp]. cbn [fmap option_fmap option_map].
    rewrite Hp. reflexivity.
  - intros a. destruct (String.eqb (a_marzban_username a) name) eqn:Hn;
      cbn; exact Hn.
Qed.

Lemma set_key_union key value (l d : gmap string jval) :
  AdminLimitsManager.set_key key value l ∪ d
  = AdminLimitsManager.set_key key value (l ∪ d).
Proof.
  destruct value as [v|]; cbn; [|reflexivity].
  symmetry. apply insert_union_l.
Qed.

Lemma lookup_set_key key value (l : gmap string jval) k :
  AdminLimitsManager.set_key key value l !! k
  = match value with
    | Some v => if decide (key = k) then Some (JInt v) else l !! k
    | None => l !! k
    end.
Proof.
  destruct value as [v|]; cbn; [|reflexivity].
  destruct (decide (key = k)) as [->|Hne].
  - apply lookup_insert_eq.
  - apply lookup_insert_ne. exact Hne.
Qed.

(** Every way [set_admin_limits] can succeed. *)
Lemma set_admin_limits_updated isoformat now db name mb mu md db' :
  AdminLimitsManager.set_admin_limits isoformat now db name mb mu md
  = (AdminLimitsManager.Updated, db') ->
  exists old l4,
    AdminLimits.get_admin_limits db name = Some old
    /\ AdminLimits.get_admin_limits db' name = Some l4
    /\ exists l3,
        l3 = AdminLimitsManager.set_key "max_days" md
               (AdminLimitsManager.set_key "max_users" mu
                  (AdminLimitsManager.set_key "max_bandwidth_gb" mb old))
        /\ match md with
           | Some d =>
             Z.abs d <= 999999999
             /\ datetime_in_range (now + d * MICROS_PER_DAY) = true
             /\ l4 = <["expiry_date"%string :=
                         JStr (isoformat (now + d * MICROS_PER_DAY))]> l3
           | None => l4 = l3
           end.
Proof.
  unfold AdminLimitsManager.set_admin_limits,
    AdminLimitsManager.set_admin_limits_try.
  cbn [connect working].
  destruct (fetchone _ (marzban_admins db)) as [a|] eqn:Ha; [|discriminate].
  assert (Hget : AdminLimits.get_admin_limits db name
                 = Some (default ∅ (limits a) ∪ AdminLimits.default_limits)).
  { unfold AdminLimits.get_admin_limits. rewrite Ha. reflexivity. }
  assert (Hsome : AdminLimits.get_admin_limits db name <> None)
    by (rewrite Hget; discriminate).
  destruct md as [d|].
  - unfold timedelta_days.
    destruct (Z.leb_spec (Z.abs d) 999999999) as [Hle|]; [|discriminate].
    cbn [bind_exn]. unfold datetime_add.
    destruct (datetime_in_range (now + d * MICROS_PER_DAY)) eqn:Hrange;
      [|discriminate].
    cbn [bind_exn]. rewrite close_commit. cbn [execute working connect].
    intros [= <-]. eexists _, _. split; [exact Hget|].
    split; [apply get_admin_limits_store_limits; exact Hsome|].
    eexists. split; [reflexivity|]. split; [exact Hle|]. split; [reflexivity|].
    rewrite <- !insert_union_l, !set_key_union. reflexivity.
  - rewrite close_commit. cbn [execute working connect].
    intros [= <-]. eexists _, _. split; [exact Hget|].
    split; [apply get_admin_limits_store_limits; exact Hsome|].
    eexists. split; [reflexivity|]. rewrite !set_key_union. reflexivity.
Qed.

(** X22: what [set_admin_limits] writes is what [get_admin_limits] reads
    back.  After a successful call each of the three caps that was given
    reads as the given number, each cap that was not given and both usage
    counters read as before (the default included), and the expiry date
    changes exactly when [max_days] is given. *)
Theorem set_admin_limits_round_trip
    (isoformat : datetime -> string) now db name mb mu md db'
    (Hok : AdminLimitsManager.set_admin_limits isoformat now db name mb mu md
           = (AdminLimitsManager.Updated, db')) :
  exists old new,
    AdminLimits.get_admin_limits db name = Some old
    /\ AdminLimits.get_admin_limits db' name = Some new
    /\ new !! "max_bandwidth_gb"%string
       = match mb with
         | Some b => Some (JInt b)
         | None => old !! "max_bandwidth_gb"%string
         end
    /\ new !! "max_users"%string
       = match mu with
         | Some u => Some (JInt u)
         | None => old !! "max_users"%string
         end
    /\ new !! "max_days"%string
       = match md with
         | Some d => Some (JInt d)
         | None => old !! "max_days"%string
         end
    /\ new !! "expiry_date"%string
       = match md with
         | Some d => Some (JStr (isoformat (now + d * MICROS_PER_DAY)))
         | None => old !! "expiry_date"%string
         end
    /\ new !! "used_bandwidth_gb"%string = old !! "used_bandwidth_gb"%string
    /\ new !! "created_users"%string = old !! "created_users"%string.
Proof.
  apply set_admin_limits_updated in Hok
    as (old & new & Hold & Hnew & l3 & Hl3 & Hmd).
  exists old, new. split; [exact Hold|]. split; [exact Hnew|].
  assert (Hkeys : forall k, k <> "expiry_date"%string -> new !! k = l3 !! k).
  { intros k Hk. destruct md as [d|].
    - destruct Hmd as (_ & _ & ->). apply lookup_insert_ne. congruence.
    - rewrite Hmd. reflexivity. }
  repeat split.
  - rewrite Hkeys by discriminate. rewrite Hl3, !lookup_set_key.
    destruct md, mu, mb; reflexivity.
  - rewrite Hkeys by discriminate. rewrite Hl3, !lookup_set_key.
    destruct md, mu, mb; reflexivity.
  - rewrite Hkeys by discriminate. rewrite Hl3, !lookup_set_key.
    destruct md, mu, mb; reflexivity.
  - destruct md as [d|].
    + destruct Hmd as (_ & _ & ->). apply lookup_insert_eq.
    + rewrite Hmd, Hl3, !lookup_set_key. destruct mu, mb; reflexivity.
  - rewrite Hkeys by discriminate. rewrite Hl3, !lookup_set_key.
    destruct md, mu, mb; reflexivity.
  - rewrite Hkeys by discriminate. rewrite Hl3, !lookup_set_key.
    destruct md, mu, mb; reflexivity.
Qed.

Lemma set_admin_limits_round_trip_witness :
  exists old new,
    AdminLimits.get_admin_limits admins_db "free" = Some old
    /\ AdminLimits.get_admin_limits
         (snd (AdminLimitsManager.set_admin_limits sample_isoformat new_year_2025
                 admins_db "free" (Some 100) None (Some 0))) "free" = Some new
    /\ new !! "max_bandwidth_gb"%string = Some (JInt 100)
    /\ new !! "max_users"%string = old !! "max_users"%string
    /\ new !! "max_days"%string = Some (JInt 0)
    /\ new !! "expiry_date"%string
       = Some (JStr (sample_isoformat (new_year_2025 + 0 * MICROS_PER_DAY)))
    /\ new !! "used_bandwidth_gb"%string = old !! "used_bandwidth_gb"%string
    /\ new !! "created_users"%string = old !! "created_users"%string.
Proof.
  apply (set_admin_limits_round_trip sample_isoformat new_year_2025 admins_db
           "free" (Some 100) None (Some 0)).
  reflexivity.
Defined.

(** The messages of one gated check are of its own kind. *)
Lemma capped_reports limits cap_key used_key report ms :
  AdminLimits.capped limits cap_key used_key report = inr ms ->
  ms = [] \/ exists cap, ms = [report cap].
Proof.
  unfold AdminLimits.capped.
  destruct (AdminLimits.get_int limits cap_key) as [e|cap]; [discriminate|].
  cbn [bind_exn]. destruct (cap >? 0); [|intros [= <-]; left; reflexivity].
  destruct (AdminLimits.get_int limits used_key) as [e|used]; [discriminate|].
  cbn [bind_exn]. destruct (used >=? cap); intros [= <-];
    [right; exists cap; reflexivity|left; reflexivity].
Qed.

(** X23: [set_admin_limits] with [max_days] starts a clock that
    [check_admin_limits] reads.  After a successful call with
    [max_days = d] at time [now], a check at time [now'] that returns
    reports the expiry [now + d days] exactly when [now'] is later than
    it, and is then limited.  This holds for [d = 0] too, the value
    [get_admin_limits] documents as unlimited: such an admin is reported
    expired from the next moment on. *)
Theorem set_max_days_starts_the_clock
    (isoformat : datetime -> string) (fromisoformat : string -> exn + datetime)
    now now' db name mb mu d db' flag msgs
    (Hok : AdminLimitsManager.set_admin_limits isoformat now db name mb mu (Some d)
           = (AdminLimitsManager.Updated, db'))
    (Hne : isoformat (now + d * MICROS_PER_DAY) <> ""%string)
    (Hiso : fromisoformat (isoformat (now + d * MICROS_PER_DAY))
            = inr (now + d * MICROS_PER_DAY))
    (Hcheck : AdminLimits.check_admin_limits fromisoformat now' db' name
              = inr (flag, msgs)) :
  (AdminLimits.Expired (now + d * MICROS_PER_DAY) ∈ msgs
   <-> now + d * MICROS_PER_DAY < now')
  /\ (now + d * MICROS_PER_DAY < now' -> flag = true).
Proof.
  apply set_admin_limits_updated in Hok
    as (old & new & _ & Hnew & l3 & _ & _ & _ & Hl4).
  assert (Hexp : new !! "expiry_date"%string
                 = Some (JStr (isoformat (now + d * MICROS_PER_DAY)))).
  { rewrite Hl4. apply lookup_insert_eq. }
  revert Hcheck. unfold AdminLimits.check_admin_limits. rewrite Hnew.
  destruct (AdminLimits.capped new "max_bandwidth_gb" "used_bandwidth_gb" _)
    as [e|bw] eqn:Hbw; [discriminate|].
  destruct (AdminLimits.capped new "max_users" "created_users" _)
    as [e|us] eqn:Hus; [discriminate|].
  cbn [bind_exn]. unfold AdminLimits.expired. rewrite Hexp.
  cbn [default from_option id].
  destruct (String.eqb_spec (isoformat (now + d * MICROS_PER_DAY)) "")
    as [|_]; [contradiction|].
  rewrite Hiso. cbn [bind_exn]. intros [= <- <-].
  apply capped_reports in Hbw, Hus.
  destruct (Z.gtb_spec now' (now + d * MICROS_PER_DAY)) as [Hgt|Hle].
  - split.
    + split; [lia|]. intros _. rewrite !elem_of_app. right. right. left.
    + intros _. destruct bw; [destruct us|]; reflexivity.
  - split; [|lia]. split; [|lia]. rewrite app_nil_r, elem_of_app.
    intros [Hin|Hin].
    + destruct Hbw as [->|[cap ->]]; [inversion Hin|].
      apply list_elem_of_In in Hin as [Hin|[]]. discriminate Hin.
    + destruct Hus as [->|[cap ->]]; [inversion Hin|].
      apply list_elem_of_In in Hin as [Hin|[]]. discriminate Hin.
Qed.

Lemma set_max_days_starts_the_clock_witness :
  (AdminLimits.Expired (new_year_2025 + 0 * MICROS_PER_DAY)
     ∈ [AdminLimits.Expired new_year_2025]
   <-> new_year_2025 + 0 * MICROS_PER_DAY < new_year_2025 + 1)
  /\ (new_year_2025 + 0 * MICROS_PER_DAY < new_year_2025 + 1 -> true = true).
Proof.
  apply (set_max_days_starts_the_clock sample_isoformat sample_fromisoformat
           new_year_2025 (new_year_2025 + 1) admins_db "free" None None 0
           admin_days_db true [AdminLimits.Expired new_year_2025]).
  - reflexivity.
  - discriminate.
  - reflexivity.
  - vm_compute. reflexivity.
Defined.

Lemma lookup_add_usage key amount (l l' : gmap string jval) :
  AdminLimitsManager.add_usage key amount l = inr l' ->
  match amount with
  | Some n =>
    exists z, AdminLimits.get_int l key = inr z
              /\ l' !! key = Some (JInt (z + n))
  | None => l' !! key = l !! key
  end
  /\ forall k, k <> key -> l' !! k = l !! k.
Proof.
  unfold AdminLimitsManager.add_usage. destruct amount as [n|].
  - destruct (AdminLimits.get_int l key) as [e|z]; [discriminate|].
    cbn [bind_exn]. intros [= <-]. split.
    + exists z. split; [reflexivity|apply lookup_insert_eq].
    + intros k Hk. apply lookup_insert_ne. congruence.
  - intros [= <-]. split; [reflexivity|]. intros k _. reflexivity.
Qed.

Lemma add_usage_keeps_defaults key amount (l l' : gmap string jval) d :
  AdminLimitsManager.add_usage key amount l = inr l' ->
  l ∪ d = l -> l' ∪ d = l'.
Proof.
  unfold AdminLimitsManager.add_usage. destruct amount as [n|].
  - destruct (AdminLimits.get_int l key) as [e|z]; [discriminate|].
    cbn [bind_exn]. intros [= <-] Hl. rewrite <- insert_union_l, Hl. reflexivity.
  - intros [= <-] Hl. exact Hl.
Qed.

(** X24: [update_admin_usage] adds to the counters and writes the merged
    dictionary back.  After a successful call each counter that was given
    an amount reads as its previous number plus the amount, every other
    key reads as before, and the stored dictionary of the admin is now
    the one [get_admin_limits] returns, defaults included. *)
Theorem update_admin_usage_adds
    db name bandwidth_used users_created db'
    (Hok : AdminLimitsManager.update_admin_usage db name bandwidth_used
             users_created = (AdminLimitsManager.Updated, db')) :
  exists old new,
    AdminLimits.get_admin_limits db name = Some old
    /\ AdminLimits.get_admin_limits db' name = Some new
    /\ match bandwidth_used with
       | Some n =>
         exists z, AdminLimits.get_int old "used_bandwidth_gb" = inr z
                   /\ new !! "used_bandwidth_gb"%string = Some (JInt (z + n))
       | None => new !! "used_bandwidth_gb"%string
                 = old !! "used_bandwidth_gb"%string
       end
    /\ match users_created with
       | Some n =>
         exists z, AdminLimits.get_int old "created_users" = inr z
                   /\ new !! "created_users"%string = Some (JInt (z + n))
       | None => new !! "created_users"%string = old !! "created_users"%string
       end
    /\ (forall k, k <> "used_bandwidth_gb"%string -> k <> "created_users"%string ->
                  new !! k = old !! k)
    /\ (forall a, a ∈ marzban_admins db' -> a_marzban_username a = name ->
                  limits a = Some new).
Proof.
  revert Hok. unfold AdminLimitsManager.update_admin_usage,
    AdminLimitsManager.update_admin_usage_try.
  cbn [connect committed].
  destruct (AdminLimits.get_admin_limits db name) as [old|] eqn:Hold;
    [|discriminate].
  destruct (AdminLimitsManager.add_usage "used_bandwidth_gb" bandwidth_used old)
    as [e|l1] eqn:H1; [discriminate|].
  cbn [bind_exn].
  destruct (AdminLimitsManager.add_usage "created_users" users_created l1)
    as [e|l2] eqn:H2; [discriminate|].
  rewrite close_commit. cbn [execute working connect]. intros [= <-].
  assert (Hold_d : old ∪ AdminLimits.default_limits = old).
  { revert Hold. unfold AdminLimits.get_admin_limits.
    destruct (fetchone _ _); [|discriminate]. intros [= <-].
    rewrite <- (assoc_L (∪)), (idemp_L (∪)). reflexivity. }
  assert (Hl2_d : l2 ∪ AdminLimits.default_limits = l2).
  { eapply add_usage_keeps_defaults; [exact H2|].
    eapply add_usage_keeps_defaults; [exact H1|exact Hold_d]. }
  exists old, l2. split; [reflexivity|].
  split.
  { rewrite get_admin_limits_store_limits by (rewrite Hold; discriminate).
    rewrite Hl2_d. reflexivity. }
  apply lookup_add_usage in H1 as [Hu1 Hk1].
  pose proof (lookup_add_usage _ _ _ _ H2) as [Hu2 Hk2].
  split; [|split; [|split]].
  - rewrite (Hk2 "used_bandwidth_gb"%string) by discriminate. exact Hu1.
  - destruct users_created as [n|].
    + destruct Hu2 as (z & Hz & Hl). exists z. split; [|exact Hl].
      rewrite <- Hz. unfold AdminLimits.get_int.
      rewrite (Hk1 "created_users"%string) by discriminate. reflexivity.
    + rewrite Hu2. apply Hk1. discriminate.
  - intros k Hk Hk'. rewrite Hk2 by exact Hk'. apply Hk1. exact Hk.
  - intros a Ha Hname. unfold AdminLimitsManager.store_limits in Ha.
    cbn [marzban_admins set_marzban_admins] in Ha.
    apply list_elem_of_fmap_1 in Ha as (y & -> & _).
    destruct (String.eqb_spec (a_marzban_username y) name) as [_|Hne];
      [reflexivity|contradiction].
Qed.

Lemma update_admin_usage_adds_witness :
  exists old new,
    AdminLimits.get_admin_limits admins_db "capped" = Some old
    /\ AdminLimits.get_admin_limits
         (snd (AdminLimitsManager.update_admin_usage admins_db "capped"
                 (Some 7) None)) "capped" = Some new
    /\ (exists z, AdminLimits.get_int old "used_bandwidth_gb" = inr z
                  /\ new !! "used_bandwidth_gb"%string = Some (JInt (z + 7)))
    /\ new !! "created_users"%string = old !! "created_users"%string
    /\ (forall k, k <> "used_bandwidth_gb"%string -> k <> "created_users"%string ->
                  new !! k = old !! k)
    /\ (forall a,
           a ∈ marzban_admins
                 (snd (AdminLimitsManager.update_admin_usage admins_db "capped"
                         (Some 7) None)) ->
           a_marzban_username a = "capped"%string ->
           limits a = Some new).
Proof.
  apply (update_admin_usage_adds admins_db "capped" (Some 7) None).
  reflexivity.
Defined.

(** ** Creating resellers *)

Lemma fetchone_app_l {A} (p : A -> bool) rows extra r :
  fetchone p rows = Some r -> fetchone p (rows ++ extra) = Some r.
Proof.
  unfold fetchone. induction rows as [|x rows IH]; [discriminate|].
  cbn. destruct (p x); [intros H; exact H|exact IH].
Qed.

Lemma fetchone_app_r {A} (p : A -> bool) rows extra :
  fetchone p rows = None -> fetchone p (rows ++ extra) = fetchone p extra.
Proof.
  unfold fetchone. induction rows as [|x rows IH]; [reflexivity|].
  cbn. destruct (p x); [discriminate|exact IH].
Qed.

Section Create_reseller_facts.
Context {W : Type}.
Variable marzban_api : option (PanelAPI W).

(** Every way [create_reseller] can end, with the database it leaves. *)
Lemma create_reseller_cases env db tid uname gb days mu sub (w : W) :
  let '(o, db', _) :=
    create_reseller marzban_api env db tid uname gb days mu sub w in
  match o with
  | Success cr =>
    exists expiry,
      cr_reseller_id cr = next_rowid (reseller_id <$> resellers (core db))
      /\ cr_max_users cr = mu
      /\ cr_bandwidth_gb cr = gb
      /\ core db'
         = set_resellers
             (resellers (core db) ++
                [{| reseller_id := cr_reseller_id cr;
                    telegram_id := tid;
                    username := uname;
                    marzban_username := cr_marzban_username cr;
                    bandwidth_limit := gb * 1024 ^ 3;
                    bandwidth_used := 0;
                    expiry_date := Some expiry;
                    max_users := mu;
                    current_users := 0;
                    created_at := cr_now_created env |}])
             (core db)
      /\ users db'
         = match fetchone (fun u => bu_telegram_id u =? tid) (users db) with
           | None => users (insert_user tid uname "reseller" (cr_now_user env) db)
           | Some u =>
             if String.eqb (bu_role u) "reseller" then users db
             else users (set_role tid "reseller" db)
           end
  | Failure _ => db' = db
  end.
Proof.
  unfold create_reseller, create_reseller_try. cbn [bot_connect bot_working].
  set (c1 := match fetchone _ (users db) with
             | None => _
             | Some u => _
             end).
  assert (Hc1 : bot_committed c1 = db
                /\ core (bot_working c1) = core db
                /\ users (bot_working c1)
                   = match fetchone (fun u => bu_telegram_id u =? tid) (users db) with
                     | None => users (insert_user tid uname "reseller"
                                                  (cr_now_user env) db)
                     | Some u =>
                       if String.eqb (bu_role u) "reseller" then users db
                       else users (set_role tid "reseller" db)
                     end).
  { unfold c1. destruct (fetchone _ (users db)) as [u|].
    - destruct (String.eqb (bu_role u) "reseller"); repeat split.
    - repeat split. }
  clearbody c1. destruct Hc1 as (Hcom & Hcore & Husers).
  destruct (bind_exn (timedelta_days days) _) as [e|expiry]; [exact Hcom|].
  destruct marzban_api as [api|];
    [destruct (api_create_user api _ _ w) as [[e|u] w1]; [exact Hcom|]|];
    (unfold insert_reseller; rewrite Hcore;
     destruct (existsb _ _); [exact Hcom|];
     cbn; exists expiry; rewrite Husers; repeat split).
Qed.

End Create_reseller_facts.

(** X25: [create_reseller] is all or nothing, the [users] table included.
    A failed call (panel refusal, name clash, unrepresentable date) leaves
    the whole database as it was, although the user row was written or its
    role changed before the panel was asked.  A successful call leaves the
    Telegram id registered with the role "reseller" and appends one
    reseller row with the given caps, no usage, no users and an id no
    earlier reseller had. *)
Theorem create_reseller_is_all_or_nothing
    {W : Type} (marzban_api : option (PanelAPI W)) env db tid uname gb days mu sub
    (w : W) o db' w'
    (Hrun : create_reseller marzban_api env db tid uname gb days mu sub w
            = (o, db', w')) :
  match o with
  | Failure _ => db' = db
  | Success cr =>
    (exists u, u ∈ users db' /\ bu_telegram_id u = tid
               /\ bu_role u = "reseller"%string)
    /\ (exists r,
           resellers (core db') = resellers (core db) ++ [r]
           /\ reseller_id r = cr_reseller_id cr
           /\ telegram_id r = tid
           /\ bandwidth_limit r = gb * 1024 ^ 3
           /\ bandwidth_used r = 0
           /\ max_users r = mu
           /\ current_users r = 0)
    /\ (cr_reseller_id cr ∉ (reseller_id <$> resellers (core db)))
    /\ end_users (core db') = end_users (core db)
  end.
Proof.
  pose proof (create_reseller_cases marzban_api env db tid uname gb days mu sub w)
    as Hc.
  rewrite Hrun in Hc. destruct o as [cr|msg]; [|exact Hc].
  destruct Hc as (expiry & Hid & _ & _ & Hcore & Husers).
  split; [|split; [|split]].
  - rewrite Husers.
    destruct (fetchone _ (users db)) as [u|] eqn:Hu.
    + apply fetchone_elem_of in Hu as [Hin Hp]. apply Z.eqb_eq in Hp.
      destruct (String.eqb_spec (bu_role u) "reseller") as [Hrole|_].
      * exists u. repeat split; assumption.
      * eexists. split.
        -- unfold set_role. cbn [users set_users].
           apply (list_elem_of_fmap_2 _ _ u Hin).
        -- cbn. rewrite Hp, Z.eqb_refl. cbn. split; reflexivity.
    + eexists. split.
      * unfold insert_user. cbn [users set_users]. apply elem_of_app. right. left.
      * cbn. split; reflexivity.
  - eexists. rewrite Hcore. cbn [resellers set_resellers].
    split; [reflexivity|]. cbn. repeat split.
  - rewrite Hid. apply next_rowid_fresh.
  - rewrite Hcore. reflexivity.
Qed.

Lemma create_reseller_is_all_or_nothing_witness :
  snd (fst (create_reseller (Some rejecting_panel) reseller_env fresh_bot_db
              7002 "ivy" 50 30 5 None tt)) = fresh_bot_db.
Proof.
  exact (create_reseller_is_all_or_nothing (Some rejecting_panel) reseller_env
           fresh_bot_db 7002 "ivy" 50 30 5 None tt
           (Failure (PanelCreateFailed (HttpStatus 500 "Internal Server Error")))
           _ tt eq_refl).
Defined.

(** X26: a new reseller can hand out exactly its budget.  After
    [create_reseller] succeeds for a Telegram id that had no reseller
    row, [create_user] for that id is refused for lack of quota exactly
    when the user cap is not positive or more gigabytes are asked than
    the reseller was given. *)
Theorem new_reseller_budget_is_its_allocation
    {W : Type} (marzban_api api2 : option (PanelAPI W))
    env db tid uname gb days mu sub (w : W) cr db' w'
    env2 uname2 gb2 days2 cl2 (w2 : W)
    (Hnew : fetchone (fun r => telegram_id r =? tid) (resellers (core db)) = None)
    (Hrun : create_reseller marzban_api env db tid uname gb days mu sub w
            = (Success cr, db', w')) :
  quota_denied
    (fst (fst (create_user api2 env2 (core db') tid uname2 gb2 days2 cl2 w2)))
  = true
  <-> mu <= 0 \/ gb < gb2.
Proof.
  pose proof (create_reseller_cases marzban_api env db tid uname gb days mu sub w)
    as Hc.
  rewrite Hrun in Hc. destruct Hc as (expiry & _ & _ & _ & Hcore & _).
  assert (Hf : exists r,
             fetchone (fun r => telegram_id r =? tid) (resellers (core db'))
             = Some r
             /\ bandwidth_limit r = gb * 1024 ^ 3 /\ bandwidth_used r = 0
             /\ max_users r = mu /\ current_users r = 0).
  { rewrite Hcore. cbn [resellers set_resellers].
    rewrite (fetchone_app_r _ _ _ Hnew). unfold fetchone. cbn [List.find telegram_id].
    rewrite Z.eqb_refl. eexists. split; [reflexivity|]. cbn. repeat split. }
  destruct Hf as (r & Hr & Hlim & Hused & Hmax & Hcur).
  split.
  - intros Hden.
    destruct (Z_le_gt_dec mu 0) as [Hle|Hgt]; [left; exact Hle|].
    destruct (Z_lt_ge_dec gb gb2) as [Hlt|Hge]; [right; exact Hlt|].
    rewrite (create_user_within_caps api2 env2 (core db') tid uname2 gb2 days2
               cl2 w2 r) in Hden; [discriminate|exact Hr|lia|lia].
  - intros Hover.
    destruct (create_user_over_cap api2 env2 (core db') tid uname2 gb2 days2
                cl2 w2 r Hr) as (msg & Hq & ->); [lia|exact Hq].
Qed.

Lemma new_reseller_budget_is_its_allocation_witness :
  quota_denied
    (fst (fst (create_user (W := unit) None first_env
                 (core (snd (fst (create_reseller (W := unit) None reseller_env
                                    fresh_bot_db 7002 "ivy" 50 30 5 None tt))))
                 7002 "ann" 51 30 3 tt)))
  = true
  <-> 5 <= 0 \/ 50 < 51.
Proof.
  eapply (new_reseller_budget_is_its_allocation (W := unit) None None reseller_env
            fresh_bot_db 7002 "ivy" 50 30 5 None tt _ _ tt
            first_env "ann" 51 30 3 tt).
  - reflexivity.
  - reflexivity.
Defined.

(** X27: a second reseller record for a Telegram id is never the one in
    use.  [create_reseller] does not refuse an id that already has a
    reseller row: on success there are two rows for the id, with different
    reseller ids, and the lookups by Telegram id ([create_user],
    [get_reseller_info], [list_users_for_reseller]) still find the old
    row, so the new budget cannot be reached through them. *)
Theorem second_reseller_record_is_shadowed
    {W : Type} (marzban_api : option (PanelAPI W))
    env db tid uname gb days mu sub (w : W) cr db' w' r
    (Hold : fetchone (fun r => telegram_id r =? tid) (resellers (core db)) = Some r)
    (Hrun : create_reseller marzban_api env db tid uname gb days mu sub w
            = (Success cr, db', w')) :
  fetchone (fun r => telegram_id r =? tid) (resellers (core db')) = Some r
  /\ exists r2,
      r2 ∈ resellers (core db')
      /\ telegram_id r2 = tid
      /\ reseller_id r2 = cr_reseller_id cr
      /\ reseller_id r2 <> reseller_id r.
Proof.
  pose proof (create_reseller_cases marzban_api env db tid uname gb days mu sub w)
    as Hc.
  rewrite Hrun in Hc. destruct Hc as (expiry & Hid & _ & _ & Hcore & _).
  rewrite Hcore. cbn [resellers set_resellers]. split.
  - apply fetchone_app_l. exact Hold.
  - eexists. split; [apply elem_of_app; right; left|].
    cbn. split; [reflexivity|]. split; [reflexivity|].
    intros Heq. apply fetchone_elem_of in Hold as [Hin _].
    apply (next_rowid_fresh (reseller_id <$> resellers (core db))).
    rewrite <- Hid, Heq. apply list_elem_of_fmap_2. exact Hin.
Qed.

Lemma second_reseller_record_is_shadowed_witness :
  fetchone (fun r => telegram_id r =? 7001)
           (resellers (core (snd (fst (create_reseller (W := unit) None
                                         reseller_env sample_bot_db 7001 "rose"
                                         500 30 50 None tt)))))
  = Some sample_reseller
  /\ exists r2,
      r2 ∈ resellers (core (snd (fst (create_reseller (W := unit) None
                                        reseller_env sample_bot_db 7001 "rose"
                                        500 30 50 None tt))))
      /\ telegram_id r2 = 7001
      /\ reseller_id r2 = 2
      /\ reseller_id r2 <> reseller_id sample_reseller.
Proof.
  eapply (second_reseller_record_is_shadowed (W := unit) None reseller_env
            sample_bot_db 7001 "rose" 500 30 50 None tt
            {| cr_reseller_id := 2; cr_telegram_id := 7001; cr_username := "rose";
               cr_marzban_username := "reseller_rose_5e6f7a8b";
               cr_bandwidth_gb := 500;
               cr_expiry_date := new_year_2025 + 30 * MICROS_PER_DAY;
               cr_max_users := 50; cr_subscription_url := None |} _ tt).
  - reflexivity.
  - reflexivity.
Defined.

(** ** The end-user reader and the sweep *)

(** X28: [get_user_info] commits the refreshed usage before it can fail.
    When the panel reports a [used_traffic] of [n] for the user found,
    the database left behind holds [n] as the [bandwidth_used] of that
    user's row whatever happens next, the other rows and the resellers
    being as before: with an expiry date the call succeeds and reports
    [n]; with a NULL expiry date [fromisoformat] raises TypeError, the
    call fails, and the new usage stays committed all the same. *)
Theorem user_refresh_is_committed_before_failure
    (F : Float) {W : Type} (api : PanelAPI W)
    now db i mname (w : W) u ud w1 n
    (Hi : i <> 0)
    (Hu : fetchone (fun u => user_id u =? i) (end_users db) = Some u)
    (Hname : eu_marzban_username u <> ""%string)
    (Hpanel : api_get_user_info api (eu_marzban_username u) w = (inr ud, w1))
    (Hn : used_traffic ud = Some n) :
  exists o db',
    get_user_info (Some api) now db (Some i) mname w = (o, db', w1)
    /\ (exists x, x ∈ end_users db' /\ user_id x = user_id u)
    /\ (forall x, x ∈ end_users db' -> user_id x = user_id u ->
                  eu_bandwidth_used x = n)
    /\ Forall2 (fun old new => user_id old <> user_id u -> new = old)
               (end_users db) (end_users db')
    /\ resellers db' = resellers db
    /\ match eu_expiry_date u with
       | None => o = Failure (Raised TypeError)
       | Some e =>
         exists info, o = Success info
                      /\ used_bytes (ui_bandwidth info) = n
                      /\ ui_expiry_date info = e
       end.
Proof.
  assert (Hrun : exists o,
             get_user_info (Some api) now db (Some i) mname w
             = (o, store_user_usage (user_id u) n db, w1)
             /\ match eu_expiry_date u with
                | None => o = Failure (Raised TypeError)
                | Some e =>
                  exists info, o = Success info
                               /\ used_bytes (ui_bandwidth info) = n
                               /\ ui_expiry_date info = e
                end).
  { unfold get_user_info, get_user_info_try, refresh_usage. cbn [truthy_int].
    destruct (Z.eqb_spec i 0) as [|_]; [contradiction|].
    cbn [connect working]. rewrite Hu.
    destruct (String.eqb_spec (eu_marzban_username u) "") as [|_];
      [contradiction|].
    rewrite Hpanel, Hn. cbv zeta. unfold default, id. cbn [from_option].
    rewrite close_commit. cbn [execute working connect].
    destruct (eu_expiry_date u) as [e|]; cbn [parse_expiry bind_exn].
    - destruct (bandwidth_dict_total (eu_bandwidth_limit u) n)
        as (bw & -> & _ & Hused & _).
      cbn [bind_exn]. eexists. split; [reflexivity|].
      eexists. split; [reflexivity|]. cbn. split; [exact Hused|reflexivity].
    - eexists. split; reflexivity. }
  destruct Hrun as (o & Hrun & Ho). exists o, (store_user_usage (user_id u) n db).
  split; [exact Hrun|]. apply fetchone_elem_of in Hu as [Hin _].
  unfold store_user_usage. cbn [end_users resellers set_end_users].
  split; [|split; [|split; [|split; [reflexivity|exact Ho]]]].
  - eexists. split; [apply (list_elem_of_fmap_2 _ _ u Hin)|].
    cbn. rewrite Z.eqb_refl. reflexivity.
  - intros x Hx Hid. apply list_elem_of_fmap_1 in Hx as (y & -> & _).
    destruct (Z.eqb_spec (user_id y) (user_id u)); [reflexivity|contradiction].
  - clear Hin. induction (end_users db) as [|y rest IH]; [constructor|].
    rewrite fmap_cons. constructor; [|exact IH].
    intros Hne. destruct (Z.eqb_spec (user_id y) (user_id u));
      [contradiction|reflexivity].
Qed.

Lemma user_refresh_is_committed_before_failure_witness :
  exists o db',
    get_user_info (H := symbolic_float) (Some accepting_panel) new_year_2025
      undated_user_db (Some 1) None tt = (o, db', tt)
    /\ (exists x, x ∈ end_users db' /\ user_id x = user_id undated_user)
    /\ (forall x, x ∈ end_users db' -> user_id x = user_id undated_user ->
                  eu_bandwidth_used x = 5 * GiB)
    /\ Forall2 (fun old new => user_id old <> user_id undated_user -> new = old)
               (end_users undated_user_db) (end_users db')
    /\ resellers db' = resellers undated_user_db
    /\ o = Failure (Raised TypeError).
Proof.
  apply (user_refresh_is_committed_before_failure symbolic_float accepting_panel
           new_year_2025 undated_user_db 1 None tt undated_user
           {| subscription_url := None; used_traffic := Some (5 * GiB) |} tt
           (5 * GiB)).
  - discriminate.
  - reflexivity.
  - discriminate.
  - reflexivity.
  - reflexivity.
Defined.

(** X29: the sweep judges a user by the usage the last refresh stored.
    After [get_user_info] has stored a panel figure of [n] for a user
    (found by its id, a key of the table) who has a reseller row and no
    recent warning, the next sweep selects that user exactly when
    [0 < limit - n <= 322122547200], whatever usage was stored before. *)
Theorem refreshed_usage_governs_the_sweep
    (F : Float) {W : Type} (api : PanelAPI W)
    now db i mname (w : W) u e ud w1 n cutoff r
    (Hkey : NoDup (user_id <$> end_users db))
    (Hi : i <> 0)
    (Hu : fetchone (fun u => user_id u =? i) (end_users db) = Some u)
    (He : eu_expiry_date u = Some e)
    (Hname : eu_marzban_username u <> ""%string)
    (Hpanel : api_get_user_info api (eu_marzban_username u) w = (inr ud, w1))
    (Hn : used_traffic ud = Some n)
    (Hr : r ∈ resellers db)
    (Hrid : reseller_id r = eu_reseller_id u)
    (Hfresh : warned_since "bandwidth_warning" cutoff (notifications db) i = false) :
  let db' := snd (fst (get_user_info (Some api) now db (Some i) mname w)) in
  (exists row, row ∈ select_bandwidth_warnings cutoff db'
               /\ user_id (fst row) = i)
  <-> 0 < eu_bandwidth_limit u - n <= 322122547200.
Proof.
  assert (Hdb : snd (fst (get_user_info (Some api) now db (Some i) mname w))
                = store_user_usage (user_id u) n db).
  { unfold get_user_info, get_user_info_try, refresh_usage. cbn [truthy_int].
    destruct (Z.eqb_spec i 0) as [|_]; [contradiction|].
    cbn [connect working]. rewrite Hu.
    destruct (String.eqb_spec (eu_marzban_username u) "") as [|_];
      [contradiction|].
    rewrite Hpanel, Hn. cbv zeta. unfold default, id. cbn [from_option].
    rewrite He. cbn [parse_expiry bind_exn].
    destruct (bandwidth_dict_total (eu_bandwidth_limit u) n) as (bw & -> & _).
    cbn [bind_exn fst snd]. rewrite close_commit. reflexivity. }
  cbn zeta. rewrite Hdb. clear Hdb.
  apply fetchone_elem_of in Hu as [Hin Hid]. apply Z.eqb_eq in Hid.
  split.
  - intros ([v tg] & Hsel & Hv). cbn [fst] in Hv.
    apply selected_iff in Hsel as (Hv' & _ & Hbounds & _).
    unfold store_user_usage in Hv'. cbn [end_users set_end_users] in Hv'.
    apply list_elem_of_fmap_1 in Hv' as (y & -> & Hy).
    assert (Hyid : user_id y = i).
    { revert Hv. destruct (user_id y =? user_id u); cbn; intros H; exact H. }
    assert (y = u) as ->.
    { apply (key_determines_row user_id (end_users db)); [exact Hkey|exact Hy|
        exact Hin|congruence]. }
    rewrite Z.eqb_refl in Hbounds. cbn in Hbounds. exact Hbounds.
  - intros Hbounds.
    exists ({| user_id := user_id u;
               eu_reseller_id := eu_reseller_id u;
               eu_username := eu_username u;
               eu_marzban_username := eu_marzban_username u;
               eu_bandwidth_limit := eu_bandwidth_limit u;
               eu_bandwidth_used := n;
               eu_expiry_date := eu_expiry_date u;
               eu_connection_limit := eu_connection_limit u;
               eu_created_at := eu_created_at u |}, telegram_id r).
    split; [|exact Hid].
    apply selected_iff. cbn. split; [|split; [|split]].
    + unfold store_user_usage. cbn [end_users set_end_users].
      apply (list_elem_of_fmap_2' _ _ u); [exact Hin|].
      rewrite Z.eqb_refl. reflexivity.
    + exists r. split; [exact Hr|]. split; [exact Hrid|reflexivity].
    + exact Hbounds.
    + rewrite Hid. exact Hfresh.
Qed.

Lemma refreshed_usage_governs_the_sweep_witness :
  (exists row,
      row ∈ select_bandwidth_warnings "2025-01-01 09:00:00"
              (snd (fst (get_user_info (H := symbolic_float) (Some accepting_panel)
                           new_year_2025 sweep_db (Some 3) None tt)))
      /\ user_id (fst row) = 3)
  <-> 0 < eu_bandwidth_limit (user_with 3 "spent" 10 10) - 5 * GiB <= 322122547200.
Proof.
  apply (refreshed_usage_governs_the_sweep symbolic_float accepting_panel
           new_year_2025 sweep_db 3 None tt (user_with 3 "spent" 10 10)
           (day 739281)
           {| subscription_url := None; used_traffic := Some (5 * GiB) |} tt
           (5 * GiB) "2025-01-01 09:00:00" sample_reseller).
  - refine (bool_decide_unpack _ _); vm_compute; exact I.
  - discriminate.
  - reflexivity.
  - reflexivity.
  - discriminate.
  - reflexivity.
  - reflexivity.
  - left.
  - reflexivity.
  - reflexivity.
Defined.
